(** * Gym and spa front desk: eligibility, visit ledger, scan decisions, daily statistics

    A shallow embedding of the service layer of the desktop application:
    [dateUtils.js], [validators.js], [dataService.js], [customerService.js],
    [barcodeService.js], [visitorsService.js] and [statisticsService.js].

    Conventions of the embedding.
    - A timestamp is the millisecond time value of a JavaScript [Date]
      ([Z]); the ISO strings produced by [toISOString] denote exactly these.
    - A service call runs at one instant [now]: the few [new Date()] reads
      made inside one synchronous call return that same millisecond.
    - The terminal's time zone is a parameter, [TimeZone]: the local
      calendar arithmetic of [setDate] and [setHours] goes through
      [LocalTime] and [UTC] as in ECMAScript, clock changes included.  The
      hour and the weekday under which the tallies file a visit or a scan
      are read off the time value directly; what is stated about them
      counts and compares the buckets and does not depend on their labels.
    - A [YYYY-MM-DD] partition key is represented by its day number.
    - [try ... catch] blocks are modelled where something can throw on the
      modelled data; the outcome is then [system_error]. *)

From Stdlib Require Import ZArith QArith Qround String Ascii List Lia.
From Stdlib Require Import DecimalString DecimalNat Sorted.
From stdpp Require Import base tactics option list strings numbers.

Open Scope string_scope.
Open Scope list_scope.
Open Scope Z_scope.

(** ** Time values *)

Definition MS_PER_MINUTE : Z := 1000 * 60.
Definition MS_PER_HOUR : Z := 1000 * 60 * 60.
Definition MS_PER_DAY : Z := 1000 * 60 * 60 * 24.

(** What a date-valued JSON field can hold, as [new Date(field)] sees it. *)
Inductive DateInput : Type :=
| NoDate                (* undefined or the empty string: falsy *)
| BadDate               (* a non-empty string that does not parse: Invalid Date *)
| IsoDate (ms : Z).     (* a parseable date string *)

(** The time value of [new Date(d)]; [None] stands for [NaN]. *)
Definition newDate (d : DateInput) : option Z :=
  match d with
  | IsoDate ms => Some ms
  | _ => None
  end.

Definition truthyDate (d : DateInput) : bool :=
  match d with NoDate => false | _ => true end.

(** Relational operators on time values: any comparison with [NaN] is false. *)
Definition num_lt (a b : option Z) : bool :=
  match a, b with Some x, Some y => x <? y | _, _ => false end.
Definition num_le (a b : option Z) : bool :=
  match a, b with Some x, Some y => x <=? y | _, _ => false end.
Definition num_ge (a b : option Z) : bool := num_le b a.
Definition num_gt (a b : option Z) : bool := num_lt b a.

(** ** The terminal's time zone

    [offsetAt t] is ECMAScript's [LocalTZA(t, true)], the offset of local
    time from UTC in milliseconds at the UTC time value [t];
    [offsetOfLocal l] is [LocalTZA(l, false)], the offset the engine settles
    on for the local time value [l] (a wall-clock reading that a clock change
    skips or repeats has no single answer of its own).  Offsets stay below a
    day in size, as they do in every zone of the tz database. *)
Class TimeZone : Type := mkTimeZone {
  offsetAt : Z -> Z;
  offsetOfLocal : Z -> Z;
  offsetAt_bound : forall t, - MS_PER_DAY < offsetAt t < MS_PER_DAY;
  offsetOfLocal_bound : forall l, - MS_PER_DAY < offsetOfLocal l < MS_PER_DAY
}.

Module DateUtils.

(** [LocalTime(t)] and [UTC(l)] of ECMAScript *)
Definition LocalTime `{TimeZone} (t : Z) : Z := t + offsetAt t.
Definition UTC `{TimeZone} (l : Z) : Z := l - offsetOfLocal l.

(** [d.setDate(d.getDate() + n)]: the same wall-clock reading [n] calendar
    days on, taken back to a time value. *)
Definition addDays `{TimeZone} (ts n : Z) : Z := UTC (LocalTime ts + n * MS_PER_DAY).

(** [calculateDuration(startTime, endTime)]: whole minutes, floored. *)
Definition calculateDuration (startTime : option Z) (endTime : Z) : Z :=
  match startTime with
  | None => 0
  | Some start => (endTime - start) / MS_PER_MINUTE
  end.

(** [isSubscriptionExpired(endDate)] read at instant [now]. *)
Definition isSubscriptionExpired (now : Z) (endDate : DateInput) : bool :=
  if negb (truthyDate endDate) then true
  else num_lt (newDate endDate) (Some now).

(** [isSubscriptionExpiringSoon(endDate, gracePeriodDays)]. *)
Definition isSubscriptionExpiringSoon `{TimeZone} (now : Z) (endDate : DateInput)
    (gracePeriodDays : Z) : bool :=
  if negb (truthyDate endDate) then false
  else
    let warning := addDays now gracePeriodDays in
    num_le (newDate endDate) (Some warning)
    && num_ge (newDate endDate) (Some now).

(** [new Date(ts).getHours()] *)
Definition getHours (ts : Z) : nat := Z.to_nat ((ts / MS_PER_HOUR) mod 24).

(** [new Date(ts).toISOString().split('T')[0]], as a day number. *)
Definition dateKey (ts : Z) : Z := ts / MS_PER_DAY.

(** The weekday of a time value: 0 is Sunday; day 0 of the time scale, the
    first of January 1970, was a Thursday.  [d.getDay()] is the weekday of
    the local time value. *)
Definition getDay (ts : Z) : Z := (ts / MS_PER_DAY + 4) mod 7.

(** [d.setHours(0, 0, 0, 0)] and [d.setHours(23, 59, 59, 999)]: the first and
    the last millisecond of the local day, taken back to a time value. *)
Definition setHoursStart `{TimeZone} (ts : Z) : Z :=
  UTC (LocalTime ts / MS_PER_DAY * MS_PER_DAY).
Definition setHoursEnd `{TimeZone} (ts : Z) : Z :=
  UTC (LocalTime ts / MS_PER_DAY * MS_PER_DAY + (MS_PER_DAY - 1)).

Record WeekBounds : Type := mkWeekBounds {
  startOfWeek : Z;
  endOfWeek : Z
}.

(** [getWeekBounds(date)] for a parseable date. *)
Definition getWeekBounds `{TimeZone} (date : Z) : WeekBounds :=
  let dayOfWeek := getDay (LocalTime date) in
  let daysToSubtract := if dayOfWeek =? 0 then 6 else dayOfWeek - 1 in
  let startOfWeek := setHoursStart (addDays date (- daysToSubtract)) in
  let endOfWeek := setHoursEnd (addDays startOfWeek 6) in
  mkWeekBounds startOfWeek endOfWeek.

End DateUtils.

(** ** Data model *)

Record CurrentVisit : Type := mkCurrentVisit {
  isInside : bool;
  cv_entryTime : option Z;
  cv_exitTime : option Z
}.

Record Membership : Type := mkMembership {
  m_type : string;
  startDate : DateInput;
  endDate : DateInput;
  status : string;
  m_services : list string
}.

Record PersonalInfo : Type := mkPersonalInfo {
  firstName : string;
  lastName : string;
  email : string;
  phone : string;
  dateOfBirth : DateInput
}.

Record Customer : Type := mkCustomer {
  customerId : string;
  personalInfo : option PersonalInfo;
  membership : option Membership;
  currentVisit : option CurrentVisit
}.

Record Visit : Type := mkVisit {
  visitId : string;
  v_customerId : string;
  entryTime : Z;
  exitTime : option Z;
  duration : option Z;
  services : list string;
  date : Z
}.

(** [customer.currentVisit?.isInside], as a condition *)
Definition inside (c : Customer) : bool :=
  match currentVisit c with
  | Some cv => isInside cv
  | None => false
  end.

Module MEMBERSHIP_STATUS.
Definition ACTIVE : string := "active".
Definition EXPIRED : string := "expired".
Definition SUSPENDED : string := "suspended".
End MEMBERSHIP_STATUS.

Module ERROR_MESSAGES.
Definition CUSTOMER_NOT_FOUND : string := "Customer not found".
Definition EXPIRED_MEMBERSHIP : string := "Membership has expired".
Definition ALREADY_INSIDE : string := "Customer is already inside".
Definition NOT_INSIDE : string := "Customer is not currently inside".
Definition NETWORK_ERROR : string := "Network connection error".
End ERROR_MESSAGES.

Module SUCCESS_MESSAGES.
Definition ENTRY_RECORDED : string := "Entry recorded successfully".
Definition EXIT_RECORDED : string := "Exit recorded successfully".
Definition CUSTOMER_REGISTERED : string := "Customer registered successfully".
End SUCCESS_MESSAGES.

(** ** Strings as the validators see them *)

Definition isWhitespace (c : ascii) : bool :=
  let n := nat_of_ascii c in
  ((9 <=? n)%nat && (n <=? 13)%nat) || (n =? 32)%nat.

Definition isDigit (c : ascii) : bool :=
  let n := nat_of_ascii c in (48 <=? n)%nat && (n <=? 57)%nat.

Fixpoint trimStart (s : string) : string :=
  match s with
  | String c r => if isWhitespace c then trimStart r else s
  | EmptyString => EmptyString
  end.

Definition trim (s : string) : string :=
  String.rev (trimStart (String.rev (trimStart s))).

(** [!s] for a string *)
Definition falsy (s : string) : bool :=
  match s with EmptyString => true | _ => false end.

Module Validators.

Record ValidationResult : Type := mkValidation {
  isValid : bool;
  message : string
}.

Definition ok : ValidationResult := mkValidation true "".
Definition bad (msg : string) : ValidationResult := mkValidation false msg.

Module CUSTOMER_ID.
Definition MIN_LENGTH : nat := 8.
Definition MAX_LENGTH : nat := 12.
(** [/^[0-9]+$/] *)
Definition PATTERN (s : string) : bool :=
  let l := list_ascii_of_string s in
  negb (Nat.eqb (List.length l) 0) && forallb isDigit l.
End CUSTOMER_ID.

Definition validateCustomerId (customerId : string) : ValidationResult :=
  if falsy customerId then bad "Customer ID is required"
  else if (String.length customerId <? CUSTOMER_ID.MIN_LENGTH)%nat
  then bad "Customer ID must be at least 8 characters"
  else if (CUSTOMER_ID.MAX_LENGTH <? String.length customerId)%nat
  then bad "Customer ID must be no more than 12 characters"
  else if negb (CUSTOMER_ID.PATTERN customerId)
  then bad "Customer ID must contain only numbers"
  else ok.

Definition validateBarcode (barcode : string) : ValidationResult :=
  if falsy barcode then bad "Barcode is required"
  else
    let cleanBarcode := trim barcode in
    if Nat.eqb (String.length cleanBarcode) 0 then bad "Barcode cannot be empty"
    else validateCustomerId cleanBarcode.

(** [/^[^\s@]+@[^\s@]+\.[^\s@]+$/] *)
Definition plainChar (c : ascii) : bool :=
  negb (isWhitespace c) && negb (Ascii.eqb c "@").

Fixpoint spanPlain (l : list ascii) : list ascii * list ascii :=
  match l with
  | c :: r =>
      if plainChar c then let '(a, b) := spanPlain r in (c :: a, b)
      else ([], l)
  | [] => ([], [])
  end.

Definition innerDot (l : list ascii) : bool :=
  match l with
  | _ :: r => existsb (fun c => Ascii.eqb c ".") (removelast r)
  | [] => false
  end.

Definition EMAIL_PATTERN (s : string) : bool :=
  let '(loc, rest) := spanPlain (list_ascii_of_string s) in
  match rest with
  | c :: dom =>
      Ascii.eqb c "@" && negb (Nat.eqb (List.length loc) 0)
      && forallb plainChar dom && innerDot dom
  | [] => false
  end.

(** [/^(\+20-?)?[0-9]{3}-?[0-9]{3}-?[0-9]{4}$/] *)
Definition dropDash (l : list ascii) : list ascii :=
  match l with
  | c :: r => if Ascii.eqb c "-" then r else l
  | [] => l
  end.

Fixpoint takeDigits (n : nat) (l : list ascii) : option (list ascii) :=
  match n with
  | O => Some l
  | S k =>
      match l with
      | c :: r => if isDigit c then takeDigits k r else None
      | [] => None
      end
  end.

Definition PHONE_PATTERN (s : string) : bool :=
  let l := list_ascii_of_string s in
  let l1 :=
    match l with
    | a :: b :: c :: r =>
        if Ascii.eqb a "+" && Ascii.eqb b "2" && Ascii.eqb c "0"
        then dropDash r else l
    | _ => l
    end in
  match takeDigits 3 l1 with
  | Some l2 =>
      match takeDigits 3 (dropDash l2) with
      | Some l3 =>
          match takeDigits 4 (dropDash l3) with
          | Some [] => true
          | _ => false
          end
      | None => false
      end
  | None => false
  end.

Definition validateEmail (email : string) : ValidationResult :=
  if falsy email then bad "Email is required"
  else if negb (EMAIL_PATTERN email) then bad "Please enter a valid email address"
  else ok.

Definition validatePhone (phone : string) : ValidationResult :=
  if falsy phone then bad "Phone number is required"
  else if negb (PHONE_PATTERN phone)
  then bad "Please enter a valid phone number (e.g., +20-123-456-7890)"
  else ok.

Definition validateRequired (value : string) (fieldName : string) : ValidationResult :=
  if falsy value || String.eqb (trim value) ""
  then bad (fieldName +:+ " is required")
  else ok.

Definition validateDate (d : DateInput) (fieldName : string) : ValidationResult :=
  if negb (truthyDate d) then bad (fieldName +:+ " is required")
  else match newDate d with
       | None => bad (fieldName +:+ " is not a valid date")
       | Some _ => ok
       end.

Definition validateDateRange (startD endD : DateInput) : ValidationResult :=
  let startValidation := validateDate startD "Start date" in
  if negb (isValid startValidation) then startValidation
  else
    let endValidation := validateDate endD "End date" in
    if negb (isValid endValidation) then endValidation
    else if num_le (newDate endD) (newDate startD)
    then bad "End date must be after start date"
    else ok.

(** [validateCustomerData]: the field-level [errors] object is reduced to
    the conjunction it feeds into [isValid]. *)
Definition validateCustomerData (now : Z) (customerData : Customer) : ValidationResult :=
  let pinfo (f : PersonalInfo -> string) : string :=
    match personalInfo customerData with Some p => f p | None => "" end in
  let idOk := isValid (validateCustomerId (customerId customerData)) in
  let firstOk := isValid (validateRequired (pinfo firstName) "First name") in
  let lastOk := isValid (validateRequired (pinfo lastName) "Last name") in
  let emailOk := isValid (validateEmail (pinfo email)) in
  let phoneOk := isValid (validatePhone (pinfo phone)) in
  let dobOk :=
    match personalInfo customerData with
    | Some p =>
        if truthyDate (dateOfBirth p) then
          isValid (validateDate (dateOfBirth p) "Date of birth")
          && negb (num_gt (newDate (dateOfBirth p)) (Some now))
        else true
    | None => true
    end in
  let membershipOk :=
    match membership customerData with
    | Some m =>
        let s := isValid (validateDate (startDate m) "Start date") in
        let e := isValid (validateDate (endDate m) "End date") in
        s && e && (if s && e then isValid (validateDateRange (startDate m) (endDate m)) else true)
    | None => true
    end in
  let valid := idOk && firstOk && lastOk && emailOk && phoneOk && dobOk && membershipOk in
  mkValidation valid
    (if valid then "Customer data is valid" else "Please fix the validation errors").


(** [s.replace(/c/g, replacement)] for a single character [c] *)
Fixpoint replaceAll (c : ascii) (replacement : string) (s : string) : string :=
  match s with
  | EmptyString => EmptyString
  | String a r =>
      if Ascii.eqb a c then replacement +:+ replaceAll c replacement r
      else String a (replaceAll c replacement r)
  end.

(** [sanitizeInput(input)] on a string *)
Definition sanitizeInput (input : string) : string :=
  replaceAll "/" "&#x2F;"
    (replaceAll "'" "&#x27;"
       (replaceAll (ascii_of_nat 34) "&quot;"
          (replaceAll ">" "&gt;"
             (replaceAll "<" "&lt;"
                (replaceAll "&" "&amp;" input))))).

End Validators.

(** ** The in-memory data service *)

(** [n.toString()] for a non-negative integer *)
Definition toString (n : nat) : string :=
  NilEmpty.string_of_uint (Nat.to_uint n).

Fixpoint repeatChar (n : nat) (c : ascii) : string :=
  match n with
  | O => EmptyString
  | S k => String c (repeatChar k c)
  end.

(** [s.padStart(targetLength, c)] *)
Definition padStart (targetLength : nat) (c : ascii) (s : string) : string :=
  repeatChar (targetLength - String.length s) c +:+ s.

(** Replace the first element satisfying [p], as an in-place write through
    the reference that [Array.prototype.find] returned. *)
Fixpoint updateFirst {A : Type} (p : A -> bool) (f : A -> A) (l : list A) : list A :=
  match l with
  | [] => []
  | x :: r => if p x then f x :: r else x :: updateFirst p f r
  end.

Record DataService : Type := mkDataService {
  customers : list Customer;
  visits : list Visit;
  nextVisitId : nat;
  nextCustomerId : Z
}.

(** The argument of [addVisit]; absent fields are [None]. *)
Record VisitData : Type := mkVisitData {
  vd_customerId : string;
  vd_entryTime : option Z;
  vd_exitTime : option Z;
  vd_duration : option Z;
  vd_services : option (list string);
  vd_date : option Z
}.

Module dataService.

(** The constructor: the seed arrays are copied and visits are numbered
    from [visits.length + 1].  [nextCustomerId] is the largest numeric
    customer id of the seed plus one; that largest id is passed in. *)
Definition newDataService (customersData : list Customer) (visitsData : list Visit)
    (maxCustomerId : Z) : DataService :=
  {| customers := customersData;
     visits := visitsData;
     nextVisitId := List.length visitsData + 1;
     nextCustomerId := maxCustomerId + 1 |}.

Definition hasCustomerId (cid : string) (c : Customer) : bool :=
  String.eqb (customerId c) cid.

Definition hasVisitId (vid : string) (v : Visit) : bool :=
  String.eqb (visitId v) vid.

Definition isOpen (v : Visit) : bool :=
  match exitTime v with None => true | Some _ => false end.

Definition getCustomerById (ds : DataService) (cid : string) : option Customer :=
  find (hasCustomerId cid) (customers ds).

Definition isCustomerIdUnique (ds : DataService) (cid : string) : bool :=
  negb (existsb (hasCustomerId cid) (customers ds)).

(** [addCustomer]: the spread keeps the caller's fields, [customerId]
    falls back to the padded counter, [currentVisit] is reset. *)
Definition addCustomer (ds : DataService) (customerData : Customer)
    : Customer * DataService :=
  let newCustomer :=
    {| customerId :=
         if falsy (customerId customerData)
         then padStart 8 "0" (toString (Z.to_nat (nextCustomerId ds)))
         else customerId customerData;
       personalInfo := personalInfo customerData;
       membership := membership customerData;
       currentVisit := Some (mkCurrentVisit false None None) |} in
  (newCustomer,
   {| customers := customers ds ++ [newCustomer];
      visits := visits ds;
      nextVisitId := nextVisitId ds;
      nextCustomerId := nextCustomerId ds + 1 |}).

Definition setCurrentVisit (cv : CurrentVisit) (c : Customer) : Customer :=
  {| customerId := customerId c;
     personalInfo := personalInfo c;
     membership := membership c;
     currentVisit := Some cv |}.

(** [updateCustomerVisitStatus]; [None] when it throws 'Customer not found'. *)
Definition updateCustomerVisitStatus (ds : DataService) (cid : string)
    (isInside : bool) (entryTime exitTime : option Z) : option DataService :=
  match getCustomerById ds cid with
  | None => None
  | Some _ =>
      Some {| customers :=
                updateFirst (hasCustomerId cid)
                  (setCurrentVisit (mkCurrentVisit isInside entryTime exitTime))
                  (customers ds);
              visits := visits ds;
              nextVisitId := nextVisitId ds;
              nextCustomerId := nextCustomerId ds |}
  end.

Definition getVisitById (ds : DataService) (vid : string) : option Visit :=
  find (hasVisitId vid) (visits ds).

Definition getVisitsByCustomerId (ds : DataService) (cid : string) : list Visit :=
  List.filter (fun v => String.eqb (v_customerId v) cid) (visits ds).

Definition getVisitsByDate (ds : DataService) (d : Z) : list Visit :=
  List.filter (fun v => Z.eqb (date v) d) (visits ds).

Definition getCurrentVisits (ds : DataService) : list Visit :=
  List.filter isOpen (visits ds).

Definition makeVisitId (n : nat) : string :=
  "visit" +:+ padStart 3 "0" (toString n).

Definition addVisit (now : Z) (ds : DataService) (visitData : VisitData)
    : Visit * DataService :=
  let newVisit :=
    {| visitId := makeVisitId (nextVisitId ds);
       v_customerId := vd_customerId visitData;
       entryTime := default now (vd_entryTime visitData);
       exitTime := vd_exitTime visitData;
       duration :=
         match vd_duration visitData with
         | Some 0 => None         (* [visitData.duration || null] *)
         | d => d
         end;
       services := default [] (vd_services visitData);
       date := default (DateUtils.dateKey now) (vd_date visitData) |} in
  (newVisit,
   {| customers := customers ds;
      visits := visits ds ++ [newVisit];
      nextVisitId := S (nextVisitId ds);
      nextCustomerId := nextCustomerId ds |}).

Definition closeVisit (endTime : Z) (v : Visit) : Visit :=
  {| visitId := visitId v;
     v_customerId := v_customerId v;
     entryTime := entryTime v;
     exitTime := Some endTime;
     duration := Some ((endTime - entryTime v) / MS_PER_MINUTE);
     services := services v;
     date := date v |}.

(** [endVisit(visitId, exitTime)]; [None] when it throws 'Visit not found'.
    The write goes to the record that [getVisitById] found. *)
Definition endVisit (now : Z) (ds : DataService) (vid : string)
    (exitTime : option Z) : option (Visit * DataService) :=
  match getVisitById ds vid with
  | None => None
  | Some visit =>
      let endTime := default now exitTime in
      Some (closeVisit endTime visit,
            {| customers := customers ds;
               visits := updateFirst (hasVisitId vid) (closeVisit endTime) (visits ds);
               nextVisitId := nextVisitId ds;
               nextCustomerId := nextCustomerId ds |})
  end.

(** *** Statistics operations *)

Record VisitStats : Type := mkVisitStats {
  totalVisits : nat;
  completedVisits : nat;
  currentlyInside : nat;
  totalDuration : Z;
  averageDuration : Z
}.

(** [Math.round] of a quotient of integers, denominator positive *)
Definition roundQ (x : Q) : Z := Qfloor (x + (1 # 2))%Q.

Definition sumDurations (l : list Visit) : Z :=
  fold_left (fun sum v => sum + default 0 (duration v)) l 0.

Definition getVisitStatsByDate (ds : DataService) (d : Z) : VisitStats :=
  let visits := getVisitsByDate ds d in
  let completedVisits := List.filter (fun v => negb (isOpen v)) visits in
  {| totalVisits := List.length visits;
     completedVisits := List.length completedVisits;
     currentlyInside := List.length visits - List.length completedVisits;
     totalDuration := sumDurations completedVisits;
     averageDuration :=
       if (0 <? List.length completedVisits)%nat
       then roundQ (inject_Z (sumDurations completedVisits)
                    / inject_Z (Z.of_nat (List.length completedVisits)))%Q
       else 0 |}.

Record HourStat : Type := mkHourStat { entries : nat; exits : nat }.

(** The [hourlyStats] object with keys [0..23] is a [list HourStat]
    indexed by the hour; its key order ([Object.keys]) is the ascending
    order of the indices. *)

Definition countEntry (h : HourStat) : HourStat := mkHourStat (S (entries h)) (exits h).
Definition countExit (h : HourStat) : HourStat := mkHourStat (entries h) (S (exits h)).

Definition getHourlyVisitStats (ds : DataService) (d : Z) : list HourStat :=
  fold_left
    (fun hourlyStats visit =>
       let withEntry :=
         alter countEntry (DateUtils.getHours (entryTime visit)) hourlyStats in
       match exitTime visit with
       | Some t => alter countExit (DateUtils.getHours t) withEntry
       | None => withEntry
       end)
    (getVisitsByDate ds d)
    (replicate 24 (mkHourStat 0 0)).

Record MembershipStats : Type := mkMembershipStats {
  daily : nat;
  monthly : nat;
  annual : nat
}.

Definition tally (stats : MembershipStats) (type : string) : MembershipStats :=
  if String.eqb type "daily"
  then mkMembershipStats (S (daily stats)) (monthly stats) (annual stats)
  else if String.eqb type "monthly"
  then mkMembershipStats (daily stats) (S (monthly stats)) (annual stats)
  else if String.eqb type "annual"
  then mkMembershipStats (daily stats) (monthly stats) (S (annual stats))
  else stats.

Definition getMembershipTypeStats (ds : DataService) (d : Z) : MembershipStats :=
  fold_left
    (fun stats visit =>
       match getCustomerById ds (v_customerId visit) with
       | Some customer =>
           match membership customer with
           | Some m => tally stats (m_type m)
           | None => stats
           end
       | None => stats
       end)
    (getVisitsByDate ds d)
    (mkMembershipStats 0 0 0).

(** [getCurrentVisitors]: each inside customer with its open visit, if any. *)
Definition getCurrentVisitors (ds : DataService) : list (Customer * option Visit) :=
  map (fun customer =>
         (customer,
          find (fun v => String.eqb (v_customerId v) (customerId customer) && isOpen v)
               (visits ds)))
      (List.filter inside (customers ds)).


Record ServiceStats : Type := mkServiceStats {
  gym : nat;
  spa : nat;
  both : nat
}.

(** [services.includes(name)] *)
Definition includes (name : string) (l : list string) : bool :=
  existsb (String.eqb name) l.

Definition tallyServices (stats : ServiceStats) (visit : Visit) : ServiceStats :=
  if includes "gym" (services visit) && includes "spa" (services visit)
  then mkServiceStats (gym stats) (spa stats) (S (both stats))
  else if includes "gym" (services visit)
  then mkServiceStats (S (gym stats)) (spa stats) (both stats)
  else if includes "spa" (services visit)
  then mkServiceStats (gym stats) (S (spa stats)) (both stats)
  else stats.

Definition getServiceStats (ds : DataService) (d : Z) : ServiceStats :=
  fold_left tallyServices (getVisitsByDate ds d) (mkServiceStats 0 0 0).

Definition getVisitorCount (ds : DataService) : nat :=
  List.length (getCurrentVisitors ds).

(** The [updates] object of [updateCustomer]: a member is present or not,
    and a present member replaces the customer's as a whole. *)
Record CustomerUpdates : Type := mkCustomerUpdates {
  u_customerId : option string;
  u_personalInfo : option (option PersonalInfo);
  u_membership : option (option Membership);
  u_currentVisit : option (option CurrentVisit)
}.

(** [{ ...customer, ...updates }] *)
Definition applyUpdates (updates : CustomerUpdates) (customer : Customer) : Customer :=
  {| customerId := default (customerId customer) (u_customerId updates);
     personalInfo := default (personalInfo customer) (u_personalInfo updates);
     membership := default (membership customer) (u_membership updates);
     currentVisit := default (currentVisit customer) (u_currentVisit updates) |}.

(** [updateCustomer(customerId, updates)]; [None] when it throws
    'Customer not found'. *)
Definition updateCustomer (ds : DataService) (cid : string) (updates : CustomerUpdates)
    : option (Customer * DataService) :=
  match getCustomerById ds cid with
  | None => None
  | Some customer =>
      Some (applyUpdates updates customer,
            {| customers :=
                 updateFirst (hasCustomerId cid) (applyUpdates updates) (customers ds);
               visits := visits ds;
               nextVisitId := nextVisitId ds;
               nextCustomerId := nextCustomerId ds |})
  end.

End dataService.

(** ** Customer service *)

Module customerService.

Record SubscriptionStatus : Type := mkSubscriptionStatus {
  isValid : bool;
  isExpired : bool;
  isExpiringSoon : bool;
  isSuspended : bool
}.

(** The enriched copy handed to callers: the customer's own fields plus
    the computed ones that carry logic ([fullName], [displayId],
    [daysUntilExpiry] and [statusText] are presentation). *)
Record EnrichedCustomer : Type := mkEnriched {
  base : Customer;
  subscriptionStatus : SubscriptionStatus;
  visitDuration : Z
}.

Definition enrichCustomerData `{TimeZone} (now : Z) (customer : Customer) : EnrichedCustomer :=
  let subscriptionStatus :=
    match membership customer with
    | Some membership =>
        let isExpired := DateUtils.isSubscriptionExpired now (endDate membership) in
        let isExpiringSoon :=
          DateUtils.isSubscriptionExpiringSoon now (endDate membership) 7 in
        let isSuspended := String.eqb (status membership) MEMBERSHIP_STATUS.SUSPENDED in
        {| isValid := negb isExpired && negb isSuspended
                      && String.eqb (status membership) MEMBERSHIP_STATUS.ACTIVE;
           isExpired := isExpired;
           isExpiringSoon := isExpiringSoon;
           isSuspended := isSuspended |}
    | None => mkSubscriptionStatus false false false false
    end in
  let visitDuration :=
    match currentVisit customer with
    | Some cv =>
        match cv_entryTime cv with
        | Some t => if isInside cv then (now - t) / MS_PER_MINUTE else 0
        | None => 0
        end
    | None => 0
    end in
  mkEnriched customer subscriptionStatus visitDuration.

Record CustomerResult : Type := mkCustomerResult {
  cr_success : bool;
  cr_message : string;
  cr_data : option EnrichedCustomer
}.

Definition getCustomerById `{TimeZone} (now : Z) (ds : DataService) (cid : string) : CustomerResult :=
  if falsy cid then mkCustomerResult false "Customer ID is required" None
  else
    match dataService.getCustomerById ds cid with
    | None => mkCustomerResult false ERROR_MESSAGES.CUSTOMER_NOT_FOUND None
    | Some customer =>
        mkCustomerResult true "" (Some (enrichCustomerData now customer))
    end.

Definition getCustomerByBarcode `{TimeZone} (now : Z) (ds : DataService) (barcode : string)
    : CustomerResult :=
  let barcodeValidation := Validators.validateBarcode barcode in
  if negb (Validators.isValid barcodeValidation)
  then mkCustomerResult false (Validators.message barcodeValidation) None
  else getCustomerById now ds (trim barcode).

Record SubscriptionResult : Type := mkSubscriptionResult {
  vs_success : bool;
  vs_isValid : bool;
  vs_message : string;
  vs_warnings : list string
}.

Definition validateSubscription `{TimeZone} (now : Z) (ds : DataService) (cid : string)
    : SubscriptionResult :=
  match dataService.getCustomerById ds cid with
  | None => mkSubscriptionResult false false ERROR_MESSAGES.CUSTOMER_NOT_FOUND []
  | Some customer =>
      match membership customer with
      | None => mkSubscriptionResult false false "No membership found" []
      | Some membership =>
          let isExpired := DateUtils.isSubscriptionExpired now (endDate membership) in
          let isExpiringSoon :=
            DateUtils.isSubscriptionExpiringSoon now (endDate membership) 7 in
          let isSuspended :=
            String.eqb (status membership) MEMBERSHIP_STATUS.SUSPENDED in
          let validationResult :=
            mkSubscriptionResult true (negb isExpired && negb isSuspended) "" [] in
          if isSuspended then
            mkSubscriptionResult true false "Membership is suspended" []
          else if isExpired then
            mkSubscriptionResult true false ERROR_MESSAGES.EXPIRED_MEMBERSHIP []
          else if isExpiringSoon then
            mkSubscriptionResult true (vs_isValid validationResult)
              "Membership expires soon" ["Subscription expires within 7 days"]
          else
            mkSubscriptionResult true (vs_isValid validationResult)
              "Membership is valid" []
      end
  end.

Definition registerCustomer `{TimeZone} (now : Z) (ds : DataService) (customerData : Customer)
    : CustomerResult * DataService :=
  let validation := Validators.validateCustomerData now customerData in
  if negb (Validators.isValid validation)
  then (mkCustomerResult false (Validators.message validation) None, ds)
  else if negb (falsy (customerId customerData))
          && negb (dataService.isCustomerIdUnique ds (customerId customerData))
  then (mkCustomerResult false "Customer ID already exists" None, ds)
  else
    let '(newCustomer, ds') := dataService.addCustomer ds customerData in
    (mkCustomerResult true SUCCESS_MESSAGES.CUSTOMER_REGISTERED
       (Some (enrichCustomerData now newCustomer)), ds').


Record CustomerStatistics : Type := mkCustomerStatistics {
  cs_totalVisits : nat;
  cs_completedVisits : nat;
  cs_currentlyInside : bool;
  cs_totalDuration : Z;
  cs_averageDuration : Z;
  mostUsedService : string;
  serviceUsage : dataService.ServiceStats
}.

(** [serviceUsage[key]] *)
Definition usageOf (usage : dataService.ServiceStats) (key : string) : nat :=
  if String.eqb key "gym" then dataService.gym usage
  else if String.eqb key "spa" then dataService.spa usage
  else if String.eqb key "both" then dataService.both usage
  else 0%nat.

(** [Object.keys(serviceUsage).reduce((a, b) => serviceUsage[a] > serviceUsage[b] ? a : b)] *)
Definition mostUsed (usage : dataService.ServiceStats) : string :=
  fold_left
    (fun a b => if (usageOf usage b <? usageOf usage a)%nat then a else b)
    ["spa"; "both"] "gym".

(** [getCustomerStatistics(customerId)]; [None] for a missing id or an
    unknown customer.  [firstVisit] and [lastVisit] are left out. *)
Definition getCustomerStatistics (ds : DataService) (cid : string)
    : option CustomerStatistics :=
  if falsy cid then None
  else
    match dataService.getCustomerById ds cid with
    | None => None
    | Some customer =>
        let visits := dataService.getVisitsByCustomerId ds cid in
        let completedVisits := List.filter (fun v => negb (dataService.isOpen v)) visits in
        let totalDuration := dataService.sumDurations completedVisits in
        let serviceUsage :=
          fold_left dataService.tallyServices visits (dataService.mkServiceStats 0 0 0) in
        Some {| cs_totalVisits := List.length visits;
                cs_completedVisits := List.length completedVisits;
                cs_currentlyInside := inside customer;
                cs_totalDuration := totalDuration;
                cs_averageDuration :=
                  if (0 <? List.length completedVisits)%nat
                  then dataService.roundQ
                         (inject_Z totalDuration
                          / inject_Z (Z.of_nat (List.length completedVisits)))%Q
                  else 0;
                mostUsedService := mostUsed serviceUsage;
                serviceUsage := serviceUsage |}
    end.

(** [updateCustomer(customerId, updates)] *)
Definition updateCustomer `{TimeZone} (now : Z) (ds : DataService) (cid : string)
    (updates : dataService.CustomerUpdates) : CustomerResult * DataService :=
  if falsy cid then (mkCustomerResult false "Customer ID is required" None, ds)
  else
    match dataService.getCustomerById ds cid with
    | None => (mkCustomerResult false ERROR_MESSAGES.CUSTOMER_NOT_FOUND None, ds)
    | Some existingCustomer =>
        let updatedCustomerData := dataService.applyUpdates updates existingCustomer in
        let validation := Validators.validateCustomerData now updatedCustomerData in
        if negb (Validators.isValid validation)
        then (mkCustomerResult false (Validators.message validation) None, ds)
        else
          match dataService.updateCustomer ds cid updates with
          | None => (mkCustomerResult false ERROR_MESSAGES.NETWORK_ERROR None, ds)
          | Some (updatedCustomer, ds') =>
              (mkCustomerResult true "Customer updated successfully"
                 (Some (enrichCustomerData now updatedCustomer)), ds')
          end
    end.

End customerService.

(** ** Scan outcomes and the scanning state *)

Inductive OutcomeType : Type :=
| validation_error | customer_not_found | subscription_invalid
| entry | exit | not_inside | no_active_visit | already_inside
| system_error | force_exit.

(** The result object of a scan; its [customer] and [visit] members are
    references into the store and are read off the store instead. *)
Record Outcome : Type := mkOutcome {
  success : bool;
  message : string;
  type : option OutcomeType;
  o_entryTime : option Z;
  o_exitTime : option Z;
  o_duration : option Z;
  o_services : option (list string);
  warnings : list string;
  isEmergencyOverride : bool;
  overrideReason : option string
}.

Definition failure (msg : string) (t : option OutcomeType) : Outcome :=
  mkOutcome false msg t None None None None [] false None.

Definition systemError : Outcome :=
  failure ERROR_MESSAGES.NETWORK_ERROR (Some system_error).

(** One line of the scan history (its random [id] is left out). *)
Record ScanEntry : Type := mkScanEntry {
  h_customerId : string;
  h_customerName : string;
  h_action : string;
  h_timestamp : Z;
  h_services : option (list string);
  h_duration : option Z;
  h_reason : option string;
  h_isEmergencyOverride : bool
}.

Record World : Type := mkWorld {
  data : DataService;
  scanHistory : list ScanEntry
}.

(** [s] between double quotes *)
Definition quoted (s : string) : string :=
  String (ascii_of_nat 34) s +:+ String (ascii_of_nat 34) EmptyString.

Definition customerName (p : PersonalInfo) : string :=
  firstName p +:+ " " +:+ lastName p.

Module barcodeService.

(** [addToScanHistory]: push, then keep the last 100 entries. *)
Definition addToScanHistory (history : list ScanEntry) (scanData : ScanEntry)
    : list ScanEntry :=
  let pushed := history ++ [scanData] in
  if (100 <? List.length pushed)%nat
  then skipn (List.length pushed - 100) pushed
  else pushed.

Definition processEntry (now : Z) (w : World) (customer : Customer)
    (services : option (list string)) : Outcome * World :=
  let entryTime := now in
  let visitData :=
    {| vd_customerId := customerId customer;
       vd_entryTime := Some entryTime;
       vd_exitTime := None;
       vd_duration := None;
       vd_services := Some (default ["gym"] services);
       vd_date := Some (DateUtils.dateKey now) |} in
  let '(newVisit, ds1) := dataService.addVisit now (data w) visitData in
  match dataService.updateCustomerVisitStatus ds1 (customerId customer)
          true (Some entryTime) None with
  | None => (systemError, mkWorld ds1 (scanHistory w))
  | Some ds2 =>
      match personalInfo customer with
      | None => (systemError, mkWorld ds2 (scanHistory w))
      | Some p =>
          let history :=
            addToScanHistory (scanHistory w)
              (mkScanEntry (customerId customer) (customerName p) "entry"
                 entryTime services None None false) in
          (mkOutcome true SUCCESS_MESSAGES.ENTRY_RECORDED (Some entry)
             (Some entryTime) None None services [] false None,
           mkWorld ds2 history)
      end
  end.

Definition processExit (now : Z) (w : World) (customer : Customer)
    : Outcome * World :=
  if negb (inside customer)
  then (failure ERROR_MESSAGES.NOT_INSIDE (Some not_inside), w)
  else
    let exitTime := now in
    let entryTime := currentVisit customer ≫= cv_entryTime in
    let currentVisits := dataService.getCurrentVisits (data w) in
    match find (fun v => String.eqb (v_customerId v) (customerId customer))
               currentVisits with
    | None => (failure "No active visit found" (Some no_active_visit), w)
    | Some currentVisit =>
        let duration := DateUtils.calculateDuration entryTime exitTime in
        match dataService.endVisit now (data w) (visitId currentVisit)
                (Some exitTime) with
        | None => (systemError, w)
        | Some (_, ds1) =>
            match dataService.updateCustomerVisitStatus ds1 (customerId customer)
                    false None (Some exitTime) with
            | None => (systemError, mkWorld ds1 (scanHistory w))
            | Some ds2 =>
                match personalInfo customer with
                | None => (systemError, mkWorld ds2 (scanHistory w))
                | Some p =>
                    let history :=
                      addToScanHistory (scanHistory w)
                        (mkScanEntry (customerId customer) (customerName p) "exit"
                           exitTime None (Some duration) None false) in
                    (mkOutcome true SUCCESS_MESSAGES.EXIT_RECORDED (Some exit)
                       entryTime (Some exitTime) (Some duration) None [] false None,
                     mkWorld ds2 history)
                end
            end
        end
    end.

(** [processBarcodeEntry(barcode, services = ['gym'])] *)
Definition processBarcodeEntry `{TimeZone} (now : Z) (w : World) (barcode : string)
    (services : option (list string)) : Outcome * World :=
  let services := Some (default ["gym"] services) in
  let barcodeValidation := Validators.validateBarcode barcode in
  if negb (Validators.isValid barcodeValidation)
  then (failure (Validators.message barcodeValidation) (Some validation_error), w)
  else
    let customerResult := customerService.getCustomerByBarcode now (data w) barcode in
    match customerService.cr_data customerResult with
    | None =>
        (failure (customerService.cr_message customerResult) (Some customer_not_found), w)
    | Some enriched =>
        let customer := customerService.base enriched in
        let subscriptionResult :=
          customerService.validateSubscription now (data w) (customerId customer) in
        if negb (customerService.vs_isValid subscriptionResult)
        then (mkOutcome false (customerService.vs_message subscriptionResult)
                (Some subscription_invalid) None None None None
                (customerService.vs_warnings subscriptionResult) false None, w)
        else if inside customer
        then processExit now w customer
        else processEntry now w customer services
    end.

(** [manualEntryExit(customerId, action, services = ['gym'])] *)
Definition manualEntryExit `{TimeZone} (now : Z) (w : World) (cid action : string)
    (services : option (list string)) : Outcome * World :=
  let services := Some (default ["gym"] services) in
  if falsy cid then (failure "Customer ID is required" None, w)
  else if negb (String.eqb action "entry" || String.eqb action "exit")
  then (failure ("Action must be either " +:+ quoted "entry" +:+ " or " +:+ quoted "exit")
          None, w)
  else
    let customerResult := customerService.getCustomerById now (data w) cid in
    match customerService.cr_data customerResult with
    | None => (failure (customerService.cr_message customerResult) None, w)
    | Some enriched =>
        let customer := customerService.base enriched in
        if String.eqb action "entry" then
          if inside customer
          then (failure ERROR_MESSAGES.ALREADY_INSIDE (Some already_inside), w)
          else processEntry now w customer services
        else
          if negb (inside customer)
          then (failure ERROR_MESSAGES.NOT_INSIDE (Some not_inside), w)
          else processExit now w customer
    end.

(** [checkForDuplicateEntry(customerId, timeWindowMs = 5000)] *)
Definition checkForDuplicateEntry (now : Z) (w : World) (cid : string)
    (timeWindowMs : option Z) : bool :=
  let timeWindowMs := default 5000 timeWindowMs in
  let recentScans :=
    List.filter
      (fun scan =>
         let timeDiff := now - h_timestamp scan in
         String.eqb (h_customerId scan) cid && (timeDiff <? timeWindowMs))
      (scanHistory w) in
  (0 <? List.length recentScans)%nat.

Definition actionName (t : option OutcomeType) : string :=
  match t with
  | Some entry => "emergency_entry"
  | Some exit => "emergency_exit"
  | _ => "emergency_undefined"
  end.

(** [emergencyOverride(customerId, reason)] *)
Definition emergencyOverride `{TimeZone} (now : Z) (w : World) (cid reason : string)
    : Outcome * World :=
  if falsy cid || falsy reason
  then (failure "Customer ID and reason are required for emergency override" None, w)
  else
    let customerResult := customerService.getCustomerById now (data w) cid in
    match customerService.cr_data customerResult with
    | None => (failure (customerService.cr_message customerResult) None, w)
    | Some enriched =>
        let customer := customerService.base enriched in
        let '(result, w1) :=
          if inside customer
          then processExit now w customer
          else processEntry now w customer (Some ["gym"; "spa"]) in
        if success result then
          match personalInfo customer with
          | None => (systemError, w1)
          | Some p =>
              let history :=
                addToScanHistory (scanHistory w1)
                  (mkScanEntry (customerId customer) (customerName p)
                     (actionName (type result)) now None None (Some reason) true) in
              (mkOutcome (success result) (message result) (type result)
                 (o_entryTime result) (o_exitTime result) (o_duration result)
                 (o_services result) (warnings result) true (Some reason),
               mkWorld (data w1) history)
          end
        else (result, w1)
    end.


(** [validateCustomerAccess(barcode)]; the members a failure result does
    not carry read as false. *)
Record AccessResult : Type := mkAccessResult {
  a_success : bool;
  a_isValid : bool;
  canEnter : bool;
  canExit : bool;
  a_warnings : list string
}.

Definition validateCustomerAccess `{TimeZone} (now : Z) (w : World) (barcode : string)
    : AccessResult :=
  let barcodeValidation := Validators.validateBarcode barcode in
  if negb (Validators.isValid barcodeValidation)
  then mkAccessResult false false false false []
  else
    let customerResult := customerService.getCustomerByBarcode now (data w) barcode in
    match customerService.cr_data customerResult with
    | None => mkAccessResult false false false false []
    | Some enriched =>
        let customer := customerService.base enriched in
        let subscriptionResult :=
          customerService.validateSubscription now (data w) (customerId customer) in
        mkAccessResult true
          (customerService.vs_isValid subscriptionResult)
          (customerService.vs_isValid subscriptionResult && negb (inside customer))
          (inside customer)
          (customerService.vs_warnings subscriptionResult)
    end.

(** [getScanHistory(limit = 10)]: [slice(-limit).reverse()].  [slice(-0)]
    is [slice(0)], the whole array. *)
Definition getScanHistory (w : World) (limit : option nat) : list ScanEntry :=
  let limit := default 10%nat limit in
  let start :=
    if Nat.eqb limit 0 then 0%nat else (List.length (scanHistory w) - limit)%nat in
  rev (skipn start (scanHistory w)).

Record PeakScanningHour : Type := mkPeakScanningHour {
  ps_hour : option nat;
  ps_count : nat
}.

(** The [hourCounts] object of [calculatePeakScanningHour]: a list indexed
    by the hour; an hour is a key of the object once its count is positive. *)
Definition hourCountsOf (scans : list ScanEntry) : list nat :=
  fold_left (fun hourCounts scan => alter S (DateUtils.getHours (h_timestamp scan)) hourCounts)
            scans (replicate 24 0%nat).

(** [Object.keys(hourCounts)]: integer keys come in ascending order. *)
Definition hourKeys (hourCounts : list nat) : list nat :=
  List.filter (fun h => (0 <? hourCounts !!! h)%nat) (seq 0 (List.length hourCounts)).

Definition calculatePeakScanningHour (scans : list ScanEntry) : PeakScanningHour :=
  let hourCounts := hourCountsOf scans in
  match hourKeys hourCounts with
  | [] => mkPeakScanningHour None 0
  | k :: ks =>
      let peakHour :=
        fold_left (fun a b => if (hourCounts !!! b <? hourCounts !!! a)%nat then a else b)
                  ks k in
      mkPeakScanningHour (Some peakHour) (hourCounts !!! peakHour)
  end.

Record ScanStatistics : Type := mkScanStatistics {
  st_date : Z;
  totalScans : nat;
  st_entries : nat;
  st_exits : nat;
  st_currentlyInside : Z;
  emergencyOverrides : nat;
  st_peakHour : PeakScanningHour
}.

(** [getScanStatistics(date = null)] *)
Definition getScanStatistics (now : Z) (w : World) (date : option Z) : ScanStatistics :=
  let targetDate := default (DateUtils.dateKey now) date in
  let dayScans :=
    List.filter (fun scan => Z.eqb (DateUtils.dateKey (h_timestamp scan)) targetDate)
                (scanHistory w) in
  let entries :=
    List.length (List.filter (fun scan => String.eqb (h_action scan) "entry") dayScans) in
  let exits :=
    List.length (List.filter (fun scan => String.eqb (h_action scan) "exit") dayScans) in
  {| st_date := targetDate;
     totalScans := List.length dayScans;
     st_entries := entries;
     st_exits := exits;
     st_currentlyInside := Z.of_nat entries - Z.of_nat exits;
     emergencyOverrides := List.length (List.filter h_isEmergencyOverride dayScans);
     st_peakHour := calculatePeakScanningHour dayScans |}.

End barcodeService.

(** ** Visitors service *)

Module visitorsService.

Record Visitor : Type := mkVisitor {
  visitor : Customer;
  currentVisitData : option Visit;
  currentDuration : Z;
  vr_entryTime : option Z;
  vr_visitId : option string;
  vr_services : list string
}.

(** The sort key of [getCurrentVisitors]: [new Date(entryTime || 0)] *)
Definition sortKey (v : Visitor) : Z := default 0 (vr_entryTime v).

(** [Array.prototype.sort] is stable; with the comparator
    [(a, b) => timeB - timeA] the result is the stable descending order. *)
Fixpoint insertVisitor (x : Visitor) (l : list Visitor) : list Visitor :=
  match l with
  | [] => [x]
  | y :: r =>
      if sortKey x <? sortKey y then y :: insertVisitor x r else x :: y :: r
  end.

Definition sortVisitors (l : list Visitor) : list Visitor :=
  foldr insertVisitor [] l.

Definition getCurrentVisitors (now : Z) (ds : DataService) : list Visitor :=
  let enrichedVisitors :=
    map (fun '(customer, visitData) =>
           let entryTime := entryTime <$> visitData in
           {| visitor := customer;
              currentVisitData := visitData;
              currentDuration := DateUtils.calculateDuration entryTime now;
              vr_entryTime := entryTime;
              vr_visitId := visitId <$> visitData;
              vr_services := default [] (services <$> visitData) |})
        (dataService.getCurrentVisitors ds) in
  sortVisitors enrichedVisitors.

Definition getVisitorById (now : Z) (ds : DataService) (cid : string)
    : option Visitor :=
  if falsy cid then None
  else find (fun v => String.eqb (customerId (visitor v)) cid)
            (getCurrentVisitors now ds).

(** [forceExitVisitor(customerId, reason = 'Manual override')] *)
Definition forceExitVisitor (now : Z) (w : World) (cid : string)
    (reason : option string) : Outcome * World :=
  let reason := default "Manual override" reason in
  if falsy cid then (failure "Customer ID is required" None, w)
  else
    match getVisitorById now (data w) cid with
    | None => (failure "Visitor not found or not currently inside" None, w)
    | Some v =>
        let exitTime := now in
        let entryTime := vr_entryTime v in
        let duration := DateUtils.calculateDuration entryTime exitTime in
        let currentVisits := dataService.getCurrentVisits (data w) in
        match find (fun x => String.eqb (v_customerId x) cid) currentVisits with
        | None => (failure "No active visit found" None, w)
        | Some visitToEnd =>
            match dataService.endVisit now (data w) (visitId visitToEnd)
                    (Some exitTime) with
            | None => (failure ERROR_MESSAGES.NETWORK_ERROR None, w)
            | Some (_, ds1) =>
                match dataService.updateCustomerVisitStatus ds1 cid
                        false None (Some exitTime) with
                | None =>
                    (failure ERROR_MESSAGES.NETWORK_ERROR None,
                     mkWorld ds1 (scanHistory w))
                | Some ds2 =>
                    match personalInfo (visitor v) with
                    | None =>
                        (failure ERROR_MESSAGES.NETWORK_ERROR None,
                         mkWorld ds2 (scanHistory w))
                    | Some _ =>
                        (mkOutcome true "Visitor successfully exited" (Some force_exit)
                           None (Some exitTime) (Some duration) None [] false
                           (Some reason),
                         mkWorld ds2 (scanHistory w))
                    end
                end
            end
        end
    end.


(** [Math.round((count / maxCapacity) * 100)] and the two thresholds of
    [getVisitorCount], with [maxCapacity = 100]. *)
Record VisitorCount : Type := mkVisitorCount {
  current : nat;
  maximum : nat;
  percentage : Z;
  available : Z;
  isNearCapacity : bool;
  isAtCapacity : bool
}.

Definition getVisitorCount (ds : DataService) : VisitorCount :=
  let count := dataService.getVisitorCount ds in
  let maxCapacity := 100%nat in
  {| current := count;
     maximum := maxCapacity;
     percentage :=
       dataService.roundQ
         (inject_Z (Z.of_nat count) / inject_Z (Z.of_nat maxCapacity) * 100)%Q;
     available := Z.of_nat maxCapacity - Z.of_nat count;
     isNearCapacity := (80 <=? count)%nat;
     isAtCapacity := (maxCapacity <=? count)%nat |}.

(** [getVisitorsByService(serviceType)] *)
Definition getVisitorsByService (now : Z) (ds : DataService) (serviceType : string)
    : list Visitor :=
  List.filter (fun v => dataService.includes serviceType (vr_services v))
              (getCurrentVisitors now ds).

Record VisitorStatistics : Type := mkVisitorStatistics {
  currentCount : nat;
  capacity : VisitorCount;
  averageDuration : Z;
  maxDuration : Z;
  minDuration : Z;
  serviceStats : dataService.ServiceStats;
  membershipStats : dataService.MembershipStats;
  longStayVisitors : nat;
  recentEntries : nat
}.

(** [Math.max(...durations)] and [Math.min(...durations)] of a non-empty
    array; the caller yields 0 for the empty one. *)
Definition maxOf (durations : list Z) : Z :=
  match durations with
  | [] => 0
  | d :: r => fold_left Z.max r d
  end.

Definition minOf (durations : list Z) : Z :=
  match durations with
  | [] => 0
  | d :: r => fold_left Z.min r d
  end.

Definition tallyVisitorServices (stats : dataService.ServiceStats) (v : Visitor)
    : dataService.ServiceStats :=
  if dataService.includes "gym" (vr_services v) && dataService.includes "spa" (vr_services v)
  then dataService.mkServiceStats (dataService.gym stats) (dataService.spa stats)
         (S (dataService.both stats))
  else if dataService.includes "gym" (vr_services v)
  then dataService.mkServiceStats (S (dataService.gym stats)) (dataService.spa stats)
         (dataService.both stats)
  else if dataService.includes "spa" (vr_services v)
  then dataService.mkServiceStats (dataService.gym stats) (S (dataService.spa stats))
         (dataService.both stats)
  else stats.

Definition tallyVisitorMembership (stats : dataService.MembershipStats) (v : Visitor)
    : dataService.MembershipStats :=
  match membership (visitor v) with
  | Some m => dataService.tally stats (m_type m)
  | None => stats
  end.

(** [getVisitorStatistics()] *)
Definition getVisitorStatistics (now : Z) (ds : DataService) : VisitorStatistics :=
  let visitors := getCurrentVisitors now ds in
  let count := getVisitorCount ds in
  let durations := map currentDuration visitors in
  {| currentCount := current count;
     capacity := count;
     averageDuration :=
       if (0 <? List.length durations)%nat
       then dataService.roundQ
              (inject_Z (fold_left Z.add durations 0%Z)
               / inject_Z (Z.of_nat (List.length durations)))%Q
       else 0;
     maxDuration := if (0 <? List.length durations)%nat then maxOf durations else 0;
     minDuration := if (0 <? List.length durations)%nat then minOf durations else 0;
     serviceStats :=
       fold_left tallyVisitorServices visitors (dataService.mkServiceStats 0 0 0);
     membershipStats :=
       fold_left tallyVisitorMembership visitors (dataService.mkMembershipStats 0 0 0);
     longStayVisitors :=
       List.length (List.filter (fun v => 180 <=? currentDuration v) visitors);
     recentEntries :=
       List.length (List.filter (fun v => currentDuration v <=? 30) visitors) |}.

End visitorsService.

(** ** Statistics service *)

Module statisticsService.

Record PeakHour : Type := mkPeakHour {
  hour : nat;
  peakEntries : nat
}.

(** [calculatePeakHour]: one pass over the keys in ascending order. *)
Definition calculatePeakHour (hourlyStats : list dataService.HourStat) : PeakHour :=
  fold_left
    (fun (acc : PeakHour) (kv : nat * dataService.HourStat) =>
       let entries := dataService.entries kv.2 in
       if (peakEntries acc <? entries)%nat
       then mkPeakHour kv.1 entries
       else acc)
    (imap (fun h st => (h, st)) hourlyStats)
    (mkPeakHour 0 0).

Record Revenue : Type := mkRevenue {
  breakdown : Q * Q * Q;
  total : Z;
  averagePerVisit : Z
}.

Module pricing.
Definition daily : Q := 50.
Definition monthly : Q := 500.
Definition annual : Q := 5000.
End pricing.

Module dailyRates.
Definition daily : Q := pricing.daily.
Definition monthly : Q := (pricing.monthly / 30)%Q.
Definition annual : Q := (pricing.annual / 365)%Q.
End dailyRates.

Definition countQ (n : nat) : Q := inject_Z (Z.of_nat n).

(** The unrounded [total] of [calculateDailyRevenue]. *)
Definition rawTotal (membershipStats : dataService.MembershipStats) : Q :=
  (0 + countQ (dataService.daily membershipStats) * dailyRates.daily
     + countQ (dataService.monthly membershipStats) * dailyRates.monthly
     + countQ (dataService.annual membershipStats) * dailyRates.annual)%Q.

(** [calculateDailyRevenue(date, membershipStats)]; the arithmetic of the
    doubles is carried out exactly. *)
Definition calculateDailyRevenue (membershipStats : dataService.MembershipStats)
    : Revenue :=
  let total := rawTotal membershipStats in
  let visitsCounted :=
    (dataService.daily membershipStats + dataService.monthly membershipStats
     + dataService.annual membershipStats)%nat in
  {| breakdown :=
       ((countQ (dataService.daily membershipStats) * dailyRates.daily)%Q,
        (countQ (dataService.monthly membershipStats) * dailyRates.monthly)%Q,
        (countQ (dataService.annual membershipStats) * dailyRates.annual)%Q);
     total := dataService.roundQ total;
     averagePerVisit :=
       if (0 <? visitsCounted)%nat
       then dataService.roundQ (total / countQ visitsCounted)%Q
       else 0 |}.

Record HourlyDatum : Type := mkHourlyDatum {
  hd_hour : nat;
  hd_entries : nat;
  hd_exits : nat;
  netFlow : Z
}.

Definition formatHourlyData (hourlyStats : list dataService.HourStat)
    : list HourlyDatum :=
  imap (fun h st =>
          mkHourlyDatum h (dataService.entries st) (dataService.exits st)
            (Z.of_nat (dataService.entries st) - Z.of_nat (dataService.exits st)))
       hourlyStats.

Record DailyStatistics : Type := mkDailyStatistics {
  ds_date : Z;
  overview : dataService.VisitStats;
  hourlyData : list HourlyDatum;
  peakHour : PeakHour;
  membershipBreakdown : dataService.MembershipStats;
  revenue : Revenue
}.

(** [getDailyStatistics(date)], the computation behind the five-minute
    cache of past days. *)
Definition getDailyStatistics (ds : DataService) (targetDate : Z) : DailyStatistics :=
  let visitStats := dataService.getVisitStatsByDate ds targetDate in
  let hourlyStats := dataService.getHourlyVisitStats ds targetDate in
  let membershipStats := dataService.getMembershipTypeStats ds targetDate in
  {| ds_date := targetDate;
     overview := visitStats;
     hourlyData := formatHourlyData hourlyStats;
     peakHour := calculatePeakHour hourlyStats;
     membershipBreakdown := membershipStats;
     revenue := calculateDailyRevenue membershipStats |}.


(** One day of the weekly and monthly tables. *)
Record DayStat : Type := mkDayStat {
  day_date : Z;
  day_visits : nat;
  day_duration : Z
}.

(** [findBusiestDay(dailyStats)] over [Object.values(dailyStats)], the days
    in the order they were entered; [None] is [null]. *)
Definition findBusiestDay (dailyStats : list DayStat) : option DayStat :=
  (fold_left
     (fun (acc : option DayStat * nat) day =>
        if (acc.2 <? day_visits day)%nat then (Some day, day_visits day) else acc)
     dailyStats (None, 0%nat)).1.

(** [calculateServiceStats(visits)] *)
Definition calculateServiceStats (visits : list Visit) : dataService.ServiceStats :=
  fold_left dataService.tallyServices visits (dataService.mkServiceStats 0 0 0).






End statisticsService.

(** ** The mutating operations as a transition system *)

Inductive Op : Type :=
| Scan (barcode : string) (services : option (list string))
| ManualEntryExit (customerId action : string) (services : option (list string))
| EmergencyOverride (customerId reason : string)
| ForceExit (customerId : string) (reason : option string)
| RegisterCustomer (customerData : Customer).

Definition run `{TimeZone} (now : Z) (op : Op) (w : World) : World :=
  match op with
  | Scan barcode services => (barcodeService.processBarcodeEntry now w barcode services).2
  | ManualEntryExit cid action services =>
      (barcodeService.manualEntryExit now w cid action services).2
  | EmergencyOverride cid reason => (barcodeService.emergencyOverride now w cid reason).2
  | ForceExit cid reason => (visitorsService.forceExitVisitor now w cid reason).2
  | RegisterCustomer customerData =>
      mkWorld (customerService.registerCustomer now (data w) customerData).2
              (scanHistory w)
  end.

Inductive reachable `{TimeZone} (w0 : World) : World -> Prop :=
| reachable_init : reachable w0 w0
| reachable_step w now op : reachable w0 w -> reachable w0 (run now op w).

(** ** Notions used to state the properties *)

(** The visit's customer resolves, at query time, to a membership whose
    type is one of the three tallied ones. *)
Definition recognisedMember (ds : DataService) (v : Visit) : bool :=
  match dataService.getCustomerById ds (v_customerId v) with
  | Some customer =>
      match membership customer with
      | Some m =>
          String.eqb (m_type m) "daily" || String.eqb (m_type m) "monthly"
          || String.eqb (m_type m) "annual"
      | None => false
      end
  | None => false
  end.

(** *** The ledger and the [currentVisit] cache *)

Definition openFor (cid : string) (v : Visit) : bool :=
  dataService.isOpen v && String.eqb (v_customerId v) cid.

(** Number of visit records of [cid] with [exitTime == null]. *)
Definition openVisitsOf (ds : DataService) (cid : string) : nat :=
  List.length (List.filter (openFor cid) (visits ds)).

Definition insideAs (cid : string) (c : Customer) : bool :=
  inside c && String.eqb (customerId c) cid.

(** Number of customers with id [cid] whose [currentVisit.isInside] is true. *)
Definition insideCustomersOf (ds : DataService) (cid : string) : nat :=
  List.length (List.filter (insideAs cid) (customers ds)).

(** The equivalence of the data model: inside iff exactly one open visit. *)
Definition insideIffOneOpen (ds : DataService) : Prop :=
  forall c, In c (customers ds) ->
    (inside c = true <-> openVisitsOf ds (customerId c) = 1%nat).

(** A store on which the equivalence is stable: ids identify customers and
    visits, the visit counter is ahead of every id in the ledger, and for
    every customer id the open visits carrying it are as many as the
    customers with that id that are inside. *)
Record wellFormed (ds : DataService) : Prop := mkWellFormed {
  wf_customerIds : List.NoDup (map customerId (customers ds));
  wf_visitIds : List.NoDup (map visitId (visits ds));
  wf_counter : forall n, (nextVisitId ds <= n)%nat ->
                 ~ In (dataService.makeVisitId n) (map visitId (visits ds));
  wf_balance : forall cid, openVisitsOf ds cid = insideCustomersOf ds cid
}.

(** *** Scan history *)

(** The lines the services write at instant [now]: an [entry] or [exit]
    line, or an [emergency_...] line flagged as override. *)
Definition loggedAt (now : Z) (e : ScanEntry) : Prop :=
  h_timestamp e = now
  /\ (((h_action e = "entry" \/ h_action e = "exit") /\ h_isEmergencyOverride e = false)
      \/ ((h_action e = "emergency_entry" \/ h_action e = "emergency_exit")
          /\ h_isEmergencyOverride e = true)).

Definition logged (e : ScanEntry) : Prop := loggedAt (h_timestamp e) e.

(** What the single pass of [calculatePeakHour] has established after the
    hours of [l]. *)
Definition peakOf (l : list dataService.HourStat) (p : statisticsService.PeakHour) : Prop :=
  (forall h st, l !! h = Some st ->
     (dataService.entries st <= statisticsService.peakEntries p)%nat)
  /\ (forall h st, l !! h = Some st -> (h < statisticsService.hour p)%nat ->
        (dataService.entries st < statisticsService.peakEntries p)%nat)
  /\ ((statisticsService.hour p = 0%nat /\ statisticsService.peakEntries p = 0%nat)
      \/ dataService.entries <$> l !! statisticsService.hour p
         = Some (statisticsService.peakEntries p)).

(** Reading a decimal string back, leading zeros allowed. *)
Definition readNat (s : string) : option nat :=
  Nat.of_uint <$> NilEmpty.uint_of_string s.

(** A local time value that the zone's clock shows and that converts back to
    itself: it is not skipped by a clock change, and if a clock change
    repeats it, it is read as the engine reads it. *)
Definition wallClock `{TimeZone} (l : Z) : Prop :=
  DateUtils.LocalTime (DateUtils.UTC l) = l.

(** ** Sample data used to instantiate the properties *)

Module Samples.

(** The clock of Cairo around 2024: two hours ahead of UTC, and three hours
    ahead in summer time, from Friday 26 April 2024, 00:00 local time
    (2024-04-25T22:00:00Z), to Thursday 31 October 2024, 24:00 local time
    (2024-10-31T21:00:00Z).  A local reading that the change skips or repeats
    takes the offset in force before the change. *)
Definition summerStart : Z := 1714082400000.
Definition summerEnd : Z := 1730408400000.

#[global] Instance zone : TimeZone :=
  {| offsetAt := fun t =>
       if (summerStart <=? t) && (t <? summerEnd) then 3 * MS_PER_HOUR else 2 * MS_PER_HOUR;
     offsetOfLocal := fun l =>
       if l <? summerStart + 3 * MS_PER_HOUR then 2 * MS_PER_HOUR
       else if l <? summerEnd + 3 * MS_PER_HOUR then 3 * MS_PER_HOUR
       else 2 * MS_PER_HOUR;
     offsetAt_bound :=
       ltac:(intros t; unfold MS_PER_DAY, MS_PER_HOUR; destruct (_ && _); lia);
     offsetOfLocal_bound :=
       ltac:(intros l; unfold MS_PER_DAY, MS_PER_HOUR;
             destruct (l <? _); [lia|]; destruct (l <? _); lia) |}.

Definition t0 : Z := 1700000000000.

(** Monday 22 April 2024, 12:00 in Cairo, four days before summer time. *)
Definition tSpring : Z := 1713780000000.

Definition info (first last : string) : PersonalInfo :=
  mkPersonalInfo first last "member@gym.example" "+20-123-456-7890" NoDate.

Definition outside : option CurrentVisit := Some (mkCurrentVisit false None None).

(** monthly, active, thirty days left *)
Definition customerC : Customer :=
  mkCustomer "00000003" (Some (info "Salma" "Adel"))
    (Some (mkMembership "monthly" (IsoDate (t0 - 5 * MS_PER_DAY))
             (IsoDate (t0 + 30 * MS_PER_DAY)) "active" ["gym"]))
    outside.

(** expired yesterday *)
Definition customerD : Customer :=
  mkCustomer "00000004" (Some (info "Karim" "Nabil"))
    (Some (mkMembership "monthly" (IsoDate (t0 - 31 * MS_PER_DAY))
             (IsoDate (t0 - MS_PER_DAY)) "active" ["gym"]))
    outside.

(** status 'expired' although the end date is still ahead *)
Definition customerE : Customer :=
  mkCustomer "00000005" (Some (info "Hana" "Fouad"))
    (Some (mkMembership "annual" (IsoDate (t0 - 5 * MS_PER_DAY))
             (IsoDate (t0 + 30 * MS_PER_DAY)) "expired" ["gym"; "spa"]))
    outside.

(** an end date that does not parse *)
Definition customerF : Customer :=
  mkCustomer "00000006" (Some (info "Omar" "Zaki"))
    (Some (mkMembership "daily" (IsoDate (t0 - 5 * MS_PER_DAY)) BadDate "active" ["gym"]))
    outside.

(** end date exactly seven days ahead *)
Definition customerG : Customer :=
  mkCustomer "00000007" (Some (info "Mona" "Helmy"))
    (Some (mkMembership "daily" (IsoDate (t0 - 5 * MS_PER_DAY))
             (IsoDate (t0 + 7 * MS_PER_DAY)) "active" ["gym"]))
    outside.

(** end date equal to the instant of the check *)
Definition customerH : Customer :=
  mkCustomer "00000008" (Some (info "Nour" "Samir"))
    (Some (mkMembership "monthly" (IsoDate (t0 - 30 * MS_PER_DAY))
             (IsoDate t0) "active" ["gym"]))
    outside.

Definition store : DataService :=
  dataService.newDataService
    [customerC; customerD; customerE; customerF; customerG; customerH] [] 8.

Definition world : World := mkWorld store [].

(** A visit opened at 23:30 and still open. *)
Definition lateVisit : Visit :=
  mkVisit "visit001" "00000003"
    (19000 * MS_PER_DAY + 23 * MS_PER_HOUR + 30 * MS_PER_MINUTE)
    None None ["gym"] 19000.

Definition lateStore : DataService :=
  dataService.newDataService [customerC] [lateVisit] 3.

(** The world after customer C has scanned in at [t0]. *)
Definition worldAfterEntry : World :=
  (barcodeService.processBarcodeEntry t0 world "00000003" None).2.

(** One visit of a daily member and one of a monthly member on day 19675. *)
Definition dailyMember : Customer :=
  mkCustomer "00000011" (Some (info "Ali" "Hassan"))
    (Some (mkMembership "daily" (IsoDate t0) (IsoDate (t0 + MS_PER_DAY)) "active" ["gym"]))
    outside.

Definition revenueStore : DataService :=
  dataService.newDataService [dailyMember; customerC]
    [mkVisit "visit001" "00000011" (t0 + MS_PER_HOUR) (Some (t0 + 2 * MS_PER_HOUR))
       (Some 60) ["gym"] 19675;
     mkVisit "visit002" "00000003" (t0 + MS_PER_HOUR) (Some (t0 + 3 * MS_PER_HOUR))
       (Some 120) ["gym"] 19675]
    11.

(** The daily statistics of that day. *)
Definition revenueStats : statisticsService.DailyStatistics :=
  statisticsService.getDailyStatistics revenueStore 19675.

(** A seed ledger whose single visit is numbered 002: the constructor
    starts the visit counter at [visits.length + 1], which is 2 as well. *)
Definition seedVisit : Visit :=
  mkVisit "visit002" "00000004" (t0 - 3 * MS_PER_HOUR) (Some (t0 - 2 * MS_PER_HOUR))
    (Some 60) ["gym"] 19675.

Definition seedWorld : World :=
  mkWorld (dataService.newDataService [customerC; customerD] [seedVisit] 4) [].

(** Customer C scans in at [t0] and scans out 95 minutes later. *)
Definition seedWorldAfterEntry : World := run t0 (Scan "00000003" None) seedWorld.

Definition seedWorldAfterExit : World :=
  run (t0 + 95 * MS_PER_MINUTE) (Scan "00000003" None) seedWorldAfterEntry.

(** Customer C as the store holds the record after those two scans. *)
Definition customerCAfterExit : Customer :=
  mkCustomer "00000003" (Some (info "Salma" "Adel"))
    (Some (mkMembership "monthly" (IsoDate (t0 - 5 * MS_PER_DAY))
             (IsoDate (t0 + 30 * MS_PER_DAY)) "active" ["gym"]))
    (Some (mkCurrentVisit false None (Some (t0 + 95 * MS_PER_MINUTE)))).

(** A seed in which the ledger holds an open visit under an id that no
    customer has yet: customer D is the only one on file. *)
Definition orphanWorld : World :=
  mkWorld (dataService.newDataService [customerD]
             [mkVisit "visit001" "00000003" t0 None None ["gym"] 19675] 4) [].

(** Customer C registers at the desk. *)
Definition orphanWorldAfterRegistration : World :=
  run (t0 + MS_PER_HOUR) (RegisterCustomer customerC) orphanWorld.

(** Customer C as the store holds the record after the entry at [t0]. *)
Definition customerCInside : Customer :=
  mkCustomer "00000003" (Some (info "Salma" "Adel"))
    (Some (mkMembership "monthly" (IsoDate (t0 - 5 * MS_PER_DAY))
             (IsoDate (t0 + 30 * MS_PER_DAY)) "active" ["gym"]))
    (Some (mkCurrentVisit true (Some t0) None)).

(** A store that lists customer C as inside while the ledger is empty. *)
Definition ghostWorld : World :=
  mkWorld (dataService.newDataService [customerCInside] [] 3) [].

(** Customer C is inside and the membership ran out during the visit. *)
Definition lapsedInside : Customer :=
  mkCustomer "00000003" (Some (info "Salma" "Adel"))
    (Some (mkMembership "monthly" (IsoDate (t0 - 35 * MS_PER_DAY))
             (IsoDate (t0 - MS_PER_HOUR)) "active" ["gym"]))
    (Some (mkCurrentVisit true (Some (t0 - 2 * MS_PER_HOUR)) None)).

Definition lapsedWorld : World :=
  mkWorld (dataService.newDataService [lapsedInside]
             [mkVisit "visit001" "00000003" (t0 - 2 * MS_PER_HOUR) None None ["gym"] 19675]
             3) [].

(** Two lines of a scan history, one at 09:00 and one at 17:00. *)
Definition twoScans : list ScanEntry :=
  [mkScanEntry "00000003" "Salma Adel" "entry" (19675 * MS_PER_DAY + 9 * MS_PER_HOUR)
     (Some ["gym"]) None None false;
   mkScanEntry "00000004" "Karim Nabil" "entry" (19675 * MS_PER_DAY + 17 * MS_PER_HOUR)
     (Some ["gym"]) None None false].

(** Three days of a weekly report; the second and the third tie. *)
Definition threeDays : list statisticsService.DayStat :=
  [statisticsService.mkDayStat 19675 2 90;
   statisticsService.mkDayStat 19676 5 300;
   statisticsService.mkDayStat 19677 5 410].

(** A registration form for an id the sample store does not hold. *)
Definition applicant : Customer :=
  mkCustomer "00000042" (Some (info "Nour" "Samir"))
    (Some (mkMembership "annual" (IsoDate t0) (IsoDate (t0 + 365 * MS_PER_DAY)) "active"
             ["gym"; "spa"]))
    None.

(** A renewal of customer C's membership for a year from [t0]. *)
Definition renewal : dataService.CustomerUpdates :=
  dataService.mkCustomerUpdates None None
    (Some (Some (mkMembership "annual" (IsoDate t0) (IsoDate (t0 + 365 * MS_PER_DAY))
                   "active" ["gym"; "spa"])))
    None.


(** A member whose membership ends seven times 24 hours after [tSpring]. *)
Definition customerS : Customer :=
  mkCustomer "00000009" (Some (info "Hana" "Fouad"))
    (Some (mkMembership "monthly" (IsoDate (tSpring - 23 * MS_PER_DAY))
             (IsoDate (tSpring + 7 * MS_PER_DAY)) "active" ["gym"]))
    outside.

End Samples.

(** * Properties *)

(** ** The validators and id rendering on samples *)

Example validateBarcode_sample :
  Validators.isValid (Validators.validateBarcode "  00000001 ") = true
  /\ Validators.isValid (Validators.validateBarcode "1234") = false
  /\ Validators.isValid (Validators.validateBarcode "12345678a") = false.
Proof. repeat split; reflexivity. Qed.

Example patterns_sample :
  Validators.EMAIL_PATTERN "a.b@gym.example.org" = true
  /\ Validators.EMAIL_PATTERN "a@b." = false
  /\ Validators.EMAIL_PATTERN "a@.b" = false
  /\ Validators.PHONE_PATTERN "+20-123-456-7890" = true
  /\ Validators.PHONE_PATTERN "1234567890" = true
  /\ Validators.PHONE_PATTERN "+20--123-456-7890" = false.
Proof. repeat split; reflexivity. Qed.

Example makeVisitId_sample :
  dataService.makeVisitId 7 = "visit007" /\ dataService.makeVisitId 1234 = "visit1234".
Proof. split; reflexivity. Qed.

Section ListHelpersSharedByTheProofsAnyZone.

Context {zone : TimeZone}.

(** ** List helpers shared by the proofs *)

Lemma find_updateFirst {A : Type} (p : A -> bool) (f : A -> A) (l : list A) (x : A) :
  (forall y, p (f y) = p y) ->
  find p l = Some x ->
  find p (updateFirst p f l) = Some (f x).
Proof.
  intros Hp. induction l as [|y r IH]; simpl; [discriminate|].
  destruct (p y) eqn:Hy.
  - intros [= <-]. simpl. by rewrite Hp, Hy.
  - intros Hr. simpl. rewrite Hy. auto.
Qed.

(** ** Visit duration *)

(** C5: closing a visit at [T1] stores [floor((T1 - T0) / 60 s)] whole
    minutes, where [T0] is the visit's entry time; an exit 95 minutes after
    the entry stores 95, whatever calendar days the two instants fall on. *)
Theorem endVisit_duration_floor (now : Z) (ds : DataService) (vid : string)
    (v : Visit) (T1 : Z) :
  dataService.getVisitById ds vid = Some v ->
  exists v' ds' d,
    dataService.endVisit now ds vid (Some T1) = Some (v', ds')
    /\ dataService.getVisitById ds' vid = Some v'
    /\ exitTime v' = Some T1
    /\ entryTime v' = entryTime v
    /\ duration v' = Some d
    /\ d = (T1 - entryTime v) / MS_PER_MINUTE
    /\ d * MS_PER_MINUTE <= T1 - entryTime v < (d + 1) * MS_PER_MINUTE
    /\ (T1 = entryTime v + 95 * MS_PER_MINUTE -> d = 95).
Proof.
  intros Hv.
  exists (dataService.closeVisit T1 v),
    {| customers := customers ds;
       visits := updateFirst (dataService.hasVisitId vid)
                   (dataService.closeVisit T1) (visits ds);
       nextVisitId := nextVisitId ds;
       nextCustomerId := nextCustomerId ds |},
    ((T1 - entryTime v) / MS_PER_MINUTE).
  unfold dataService.endVisit. rewrite Hv. simpl.
  repeat split.
  - unfold dataService.getVisitById in *. simpl.
    apply find_updateFirst; [reflexivity | exact Hv].
  - pose proof (Z.mul_div_le (T1 - entryTime v) MS_PER_MINUTE).
    unfold MS_PER_MINUTE in *. lia.
  - pose proof (Z.mul_succ_div_gt (T1 - entryTime v) MS_PER_MINUTE).
    unfold MS_PER_MINUTE in *. lia.
  - intros ->. unfold MS_PER_MINUTE.
    replace (entryTime v + 95 * (1000 * 60) - entryTime v) with (95 * (1000 * 60)) by lia.
    by rewrite Z.div_mul.
Qed.

End ListHelpersSharedByTheProofsAnyZone.

Lemma endVisit_duration_floor_witness :
  DateUtils.dateKey (entryTime Samples.lateVisit)
    <> DateUtils.dateKey (entryTime Samples.lateVisit + 95 * MS_PER_MINUTE)
  /\ exists v' ds' d,
    dataService.endVisit 0 Samples.lateStore "visit001"
      (Some (entryTime Samples.lateVisit + 95 * MS_PER_MINUTE)) = Some (v', ds')
    /\ duration v' = Some d /\ d = 95.
Proof.
  split; [vm_compute; discriminate|].
  destruct (endVisit_duration_floor 0 Samples.lateStore "visit001" Samples.lateVisit
              (entryTime Samples.lateVisit + 95 * MS_PER_MINUTE) eq_refl)
    as (v' & ds' & d & He & _ & _ & _ & Hd & _ & _ & H95).
  exists v', ds', d. repeat split; auto.
Defined.

(** Scenario: customer C scans in at 23:13 and out 95 minutes later, on the
    next calendar day. *)
Example scan_in_scan_out_across_midnight :
  let T0 := Samples.t0 + MS_PER_HOUR in
  let T1 := T0 + 95 * MS_PER_MINUTE in
  DateUtils.dateKey T0 = 19675 /\ DateUtils.dateKey T1 = 19676
  /\ visits (data (run T1 (Scan "00000003" None)
                     (run T0 (Scan "00000003" None) Samples.world)))
     = [mkVisit "visit001" "00000003" T0 (Some T1) (Some 95) ["gym"] 19675].
Proof. vm_compute. repeat split. Qed.

Section SubscriptionEligibilityAnyZone.

Context {zone : TimeZone}.

(** ** Subscription eligibility *)

Section Eligibility.

Variable now : Z.
Variable ds : DataService.
Variable c : Customer.
Variable m : Membership.
Hypothesis stored : dataService.getCustomerById ds (customerId c) = Some c.
Hypothesis member : membership c = Some m.

Let status_of := customerService.subscriptionStatus (customerService.enrichCustomerData now c).
Let verdict := customerService.validateSubscription now ds (customerId c).

Lemma enrich_flags :
  customerService.isExpired status_of = DateUtils.isSubscriptionExpired now (endDate m)
  /\ customerService.isExpiringSoon status_of
     = DateUtils.isSubscriptionExpiringSoon now (endDate m) 7
  /\ customerService.isSuspended status_of = String.eqb (status m) "suspended"
  /\ customerService.isValid status_of
     = negb (customerService.isExpired status_of)
       && negb (customerService.isSuspended status_of)
       && String.eqb (status m) "active".
Proof.
  unfold status_of, customerService.enrichCustomerData. rewrite member. simpl.
  repeat split; reflexivity.
Qed.

Lemma verdict_isValid :
  customerService.vs_isValid verdict
  = negb (DateUtils.isSubscriptionExpired now (endDate m))
    && negb (String.eqb (status m) "suspended").
Proof.
  unfold verdict, customerService.validateSubscription.
  rewrite stored, member. unfold MEMBERSHIP_STATUS.SUSPENDED.
  destruct (String.eqb (status m) "suspended"); simpl.
  - by rewrite andb_false_r.
  - destruct (DateUtils.isSubscriptionExpired now (endDate m)); simpl; [done|].
    by destruct (DateUtils.isSubscriptionExpiringSoon now (endDate m) 7).
Qed.

End Eligibility.

Lemma processEntry_type now w c sv :
  type (barcodeService.processEntry now w c sv).1 = Some entry
  \/ type (barcodeService.processEntry now w c sv).1 = Some system_error.
Proof.
  unfold barcodeService.processEntry. simpl.
  destruct (dataService.updateCustomerVisitStatus _ _ _ _ _); [|by right].
  destruct (personalInfo c); [by left | by right].
Qed.

Lemma processExit_type now w c :
  In (type (barcodeService.processExit now w c).1)
     [Some exit; Some not_inside; Some no_active_visit; Some system_error].
Proof.
  unfold barcodeService.processExit.
  destruct (inside c); simpl; [|tauto].
  destruct (find _ _); simpl; [|tauto].
  destruct (dataService.endVisit _ _ _ _) as [[? ds1]|]; simpl; [|tauto].
  destruct (dataService.updateCustomerVisitStatus _ _ _ _ _); simpl; [|tauto].
  destruct (personalInfo c); simpl; tauto.
Qed.

Lemma validBarcode_trim_truthy barcode :
  Validators.isValid (Validators.validateBarcode barcode) = true ->
  falsy (trim barcode) = false.
Proof.
  unfold Validators.validateBarcode.
  destruct (falsy barcode); [discriminate|].
  destruct (trim barcode); [discriminate | reflexivity].
Qed.

(** What a scan does once the barcode is well formed and resolves to [c]. *)
Lemma processBarcodeEntry_resolved now w barcode sv c :
  Validators.isValid (Validators.validateBarcode barcode) = true ->
  dataService.getCustomerById (data w) (trim barcode) = Some c ->
  barcodeService.processBarcodeEntry now w barcode sv =
    let verdict := customerService.validateSubscription now (data w) (customerId c) in
    if negb (customerService.vs_isValid verdict)
    then (mkOutcome false (customerService.vs_message verdict)
            (Some subscription_invalid) None None None None
            (customerService.vs_warnings verdict) false None, w)
    else if inside c
    then barcodeService.processExit now w c
    else barcodeService.processEntry now w c (Some (default ["gym"] sv)).
Proof.
  intros Hb Hc. unfold barcodeService.processBarcodeEntry.
  rewrite Hb. simpl negb. cbv iota.
  unfold customerService.getCustomerByBarcode. rewrite Hb. simpl negb. cbv iota.
  unfold customerService.getCustomerById.
  rewrite (validBarcode_trim_truthy _ Hb), Hc. reflexivity.
Qed.

(** C2 (the code departs from it): [enrichCustomerData] computes
    [isValid = !isExpired && !isSuspended && status == active], but the
    verdict that gates a scan, [validateSubscription], leaves the status test
    out: a membership that is neither expired nor suspended and whose status
    is not 'active' gets [isValid = false] from the first and [true] from the
    second, and its scan is not rejected as [subscription_invalid]. *)
Theorem inactive_status_passes_scan (now : Z) (w : World) (barcode : string)
    (sv : option (list string)) (c : Customer) (m : Membership) :
  Validators.isValid (Validators.validateBarcode barcode) = true ->
  trim barcode = customerId c ->
  dataService.getCustomerById (data w) (customerId c) = Some c ->
  membership c = Some m ->
  status m <> "active" ->
  status m <> "suspended" ->
  DateUtils.isSubscriptionExpired now (endDate m) = false ->
  customerService.isValid
    (customerService.subscriptionStatus (customerService.enrichCustomerData now c)) = false
  /\ customerService.vs_isValid
       (customerService.validateSubscription now (data w) (customerId c)) = true
  /\ type (barcodeService.processBarcodeEntry now w barcode sv).1
     <> Some subscription_invalid.
Proof.
  intros Hb Ht Hc Hm Hact Hsus Hexp.
  destruct (enrich_flags now c m Hm) as (He & _ & Hs & Hv).
  pose proof (verdict_isValid now (data w) c m Hc Hm) as Hverdict.
  apply String.eqb_neq in Hact. apply String.eqb_neq in Hsus.
  rewrite Hexp, Hsus in Hverdict. simpl in Hverdict.
  split; [|split]; [| exact Hverdict |].
  - rewrite Hv, Hact. by rewrite andb_false_r.
  - rewrite <- Ht in Hc.
    rewrite (processBarcodeEntry_resolved now w barcode sv c Hb Hc).
    cbv zeta. rewrite Hverdict. simpl negb. cbv iota.
    destruct (inside c).
    + pose proof (processExit_type now w c) as H. simpl in H.
      intros E. rewrite E in H. intuition discriminate.
    + destruct (processEntry_type now w c (Some (default ["gym"] sv))) as [E|E];
        rewrite E; discriminate.
Qed.

End SubscriptionEligibilityAnyZone.

Lemma inactive_status_passes_scan_witness :
  customerService.isValid
    (customerService.subscriptionStatus
       (customerService.enrichCustomerData Samples.t0 Samples.customerE)) = false
  /\ customerService.vs_isValid
       (customerService.validateSubscription Samples.t0 (data Samples.world) "00000005") = true
  /\ type (barcodeService.processBarcodeEntry Samples.t0 Samples.world "00000005" None).1
     <> Some subscription_invalid.
Proof.
  apply (inactive_status_passes_scan Samples.t0 Samples.world "00000005" None
           Samples.customerE
           (mkMembership "annual" (IsoDate (Samples.t0 - 5 * MS_PER_DAY))
              (IsoDate (Samples.t0 + 30 * MS_PER_DAY)) "expired" ["gym"; "spa"]));
    try reflexivity; simpl; discriminate.
Defined.

Example inactive_status_scan_enters :
  type (barcodeService.processBarcodeEntry Samples.t0 Samples.world "00000005" None).1
  = Some entry.
Proof. vm_compute. reflexivity. Qed.

Section SubscriptionEligibility2AnyZone.

Context {zone : TimeZone}.

(** C3 (as the code has it): the expiry test is the strict [endDate < now],
    so a membership whose end date equals [now] is not expired and is
    expiring soon.  The warning window is closed at both ends and reaches
    from [now] to [now] moved on by seven calendar days of the terminal's
    local time: a membership that ends at that instant is expiring soon and
    not expired, and is valid when its status is active.  The instant is
    [now] plus seven times 24 hours when the zone has the same offset at
    both ends, and differs from it by the change of offset otherwise. *)
Theorem eligibility_boundary (now : Z) (ds : DataService) (c : Customer) (m : Membership) :
  dataService.getCustomerById ds (customerId c) = Some c ->
  membership c = Some m ->
  let st := customerService.subscriptionStatus (customerService.enrichCustomerData now c) in
  let verdict := customerService.validateSubscription now ds (customerId c) in
  let warning := DateUtils.addDays now 7 in
  (endDate m = IsoDate now ->
     customerService.isExpired st = false
     /\ customerService.isExpiringSoon st = true)
  /\ (endDate m = IsoDate warning ->
     customerService.isExpiringSoon st = true
     /\ customerService.isExpired st = false
     /\ (status m = "active" ->
         customerService.isValid st = true
         /\ customerService.vs_isValid verdict = true))
  /\ (forall e, endDate m = IsoDate e ->
        (customerService.isExpiringSoon st = true <-> now <= e <= warning))
  /\ warning
     = now + 7 * MS_PER_DAY
       - (offsetOfLocal (DateUtils.LocalTime now + 7 * MS_PER_DAY) - offsetAt now).
Proof.
  intros Hc Hm st verdict warning.
  destruct (enrich_flags now c m Hm) as (He & Hso & Hs & Hv).
  fold st in He, Hso, Hs, Hv.
  pose proof (verdict_isValid now ds c m Hc Hm) as Hverdict. fold verdict in Hverdict.
  assert (Hwarning : warning
                     = now + 7 * MS_PER_DAY
                       - (offsetOfLocal (DateUtils.LocalTime now + 7 * MS_PER_DAY)
                          - offsetAt now)).
  { unfold warning, DateUtils.addDays, DateUtils.UTC, DateUtils.LocalTime. lia. }
  assert (Hlater : now <= warning).
  { pose proof (offsetAt_bound now) as B1.
    pose proof (offsetOfLocal_bound (DateUtils.LocalTime now + 7 * MS_PER_DAY)) as B2.
    rewrite Hwarning. unfold MS_PER_DAY in *. lia. }
  assert (Hsoon : forall e, endDate m = IsoDate e ->
                    (customerService.isExpiringSoon st = true <-> now <= e <= warning)).
  { intros e Hend. rewrite Hso, Hend.
    unfold DateUtils.isSubscriptionExpiringSoon, num_ge, num_le.
    cbn [truthyDate negb newDate]. fold warning.
    rewrite andb_true_iff, !Z.leb_le. lia. }
  assert (Hexp : forall e, endDate m = IsoDate e -> now <= e ->
                   customerService.isExpired st = false).
  { intros e Hend Hle. rewrite He, Hend.
    unfold DateUtils.isSubscriptionExpired, num_lt. cbn [truthyDate negb newDate].
    apply Z.ltb_ge. exact Hle. }
  split; [|split; [|split; [exact Hsoon | exact Hwarning]]].
  - intros Hend. split; [apply (Hexp now Hend); lia|]. apply (Hsoon now Hend). lia.
  - intros Hend. split; [apply (Hsoon warning Hend); lia|].
    pose proof (Hexp warning Hend Hlater) as Hnot. split; [exact Hnot|].
    intros Hact. split.
    + rewrite Hv, Hnot, Hs, Hact. reflexivity.
    + rewrite Hverdict, <- He, Hnot, Hact. reflexivity.
Qed.

End SubscriptionEligibility2AnyZone.

Lemma eligibility_boundary_witness :
  customerService.isExpiringSoon
    (customerService.subscriptionStatus
       (customerService.enrichCustomerData Samples.t0 Samples.customerG)) = true
  /\ customerService.vs_isValid
       (customerService.validateSubscription Samples.t0 Samples.store "00000007") = true.
Proof.
  pose proof (eligibility_boundary Samples.t0 Samples.store Samples.customerG
                (mkMembership "daily" (IsoDate (Samples.t0 - 5 * MS_PER_DAY))
                   (IsoDate (Samples.t0 + 7 * MS_PER_DAY)) "active" ["gym"])
                eq_refl eq_refl) as (_ & H & _).
  destruct (H ltac:(vm_compute; reflexivity)) as (Hsoon & _ & Hvalid).
  destruct (Hvalid eq_refl) as [_ Hv].
  split; assumption.
Defined.

(** The claim of C3 at [endDate == now]: it asks for [isExpired == true]. *)
Lemma eligibility_boundary_counterexample :
  (membership Samples.customerH ≫= fun m => Some (endDate m)) = Some (IsoDate Samples.t0)
  /\ DateUtils.isSubscriptionExpired Samples.t0 (IsoDate Samples.t0) <> true
  /\ customerService.isExpired
       (customerService.subscriptionStatus
          (customerService.enrichCustomerData Samples.t0 Samples.customerH)) <> true.
Proof. vm_compute. repeat split; discriminate. Qed.

(** Across a clock change the window is not seven times 24 hours: on Monday
    22 April 2024 at noon in Cairo, four days before summer time, it closes
    an hour earlier, and a membership ending seven times 24 hours later is
    not reported as expiring soon. *)
Example warning_window_across_clock_change :
  DateUtils.addDays Samples.tSpring 7 = Samples.tSpring + 7 * MS_PER_DAY - MS_PER_HOUR
  /\ (membership Samples.customerS ≫= fun m => Some (endDate m))
     = Some (IsoDate (Samples.tSpring + 7 * MS_PER_DAY))
  /\ customerService.isExpiringSoon
       (customerService.subscriptionStatus
          (customerService.enrichCustomerData Samples.tSpring Samples.customerS)) = false.
Proof. vm_compute. repeat split. Qed.

Section SubscriptionEligibility3AnyZone.

Context {zone : TimeZone}.

(** C4 (the code departs from it): a missing end date is treated as
    expired, but an end date that does not parse is not: every comparison
    with the invalid date is false, so the membership is reported as not
    expired, and as valid when its status is active. *)
Theorem malformed_endDate_not_expired (now : Z) (ds : DataService) (c : Customer)
    (m : Membership) :
  dataService.getCustomerById ds (customerId c) = Some c ->
  membership c = Some m ->
  status m = "active" ->
  let st := customerService.subscriptionStatus (customerService.enrichCustomerData now c) in
  (endDate m = NoDate ->
     customerService.isExpired st = true /\ customerService.isValid st = false)
  /\ (endDate m = BadDate ->
     customerService.isExpired st = false
     /\ customerService.isValid st = true
     /\ customerService.vs_isValid
          (customerService.validateSubscription now ds (customerId c)) = true).
Proof.
  intros Hc Hm Hact st.
  destruct (enrich_flags now c m Hm) as (He & _ & Hs & Hv). fold st in He, Hs, Hv.
  pose proof (verdict_isValid now ds c m Hc Hm) as Hverdict.
  rewrite Hact in *.
  split; intros Hend; rewrite Hend in *.
  - split; [exact He|]. rewrite Hv, He. reflexivity.
  - split; [exact He|]. split.
    + rewrite Hv, He, Hs. reflexivity.
    + rewrite Hverdict. reflexivity.
Qed.

End SubscriptionEligibility3AnyZone.

Lemma malformed_endDate_not_expired_witness :
  customerService.isExpired
    (customerService.subscriptionStatus
       (customerService.enrichCustomerData Samples.t0 Samples.customerF)) = false
  /\ customerService.isValid
       (customerService.subscriptionStatus
          (customerService.enrichCustomerData Samples.t0 Samples.customerF)) = true
  /\ customerService.vs_isValid
       (customerService.validateSubscription Samples.t0 Samples.store "00000006") = true.
Proof.
  pose proof (malformed_endDate_not_expired Samples.t0 Samples.store Samples.customerF
                (mkMembership "daily" (IsoDate (Samples.t0 - 5 * MS_PER_DAY)) BadDate
                   "active" ["gym"])
                eq_refl eq_refl eq_refl) as [_ H].
  exact (H eq_refl).
Defined.

Example malformed_endDate_scan_enters :
  type (barcodeService.processBarcodeEntry Samples.t0 Samples.world "00000006" None).1
  = Some entry.
Proof. vm_compute. reflexivity. Qed.

Section RejectedScansAnyZone.

Context {zone : TimeZone}.

(** ** Rejected scans *)

(** C8: a scan that ends as [validation_error], [customer_not_found] or
    [subscription_invalid] leaves the whole state as it was: customers (with
    their [currentVisit]), visits, counters and scan history. *)
Theorem rejected_scan_no_mutation (now : Z) (w : World) (barcode : string)
    (sv : option (list string)) :
  In (type (barcodeService.processBarcodeEntry now w barcode sv).1)
     [Some validation_error; Some customer_not_found; Some subscription_invalid] ->
  (barcodeService.processBarcodeEntry now w barcode sv).2 = w.
Proof.
  unfold barcodeService.processBarcodeEntry.
  destruct (negb (Validators.isValid (Validators.validateBarcode barcode))); [done|].
  destruct (customerService.cr_data _) as [enriched|]; [|done].
  destruct (negb (customerService.vs_isValid _)); [done|].
  destruct (inside (customerService.base enriched)).
  - pose proof (processExit_type now w (customerService.base enriched)) as H.
    simpl in *. intros Hin.
    destruct (type (barcodeService.processExit now w (customerService.base enriched)).1)
      as [[]|]; intuition discriminate.
  - intros Hin.
    destruct (processEntry_type now w (customerService.base enriched)
                (Some (default ["gym"] sv))) as [E|E];
      rewrite E in Hin; simpl in Hin; intuition discriminate.
Qed.

End RejectedScansAnyZone.

Lemma rejected_scan_no_mutation_witness :
  type (barcodeService.processBarcodeEntry Samples.t0 Samples.world "00000004" None).1
    = Some subscription_invalid
  /\ (barcodeService.processBarcodeEntry Samples.t0 Samples.world "00000004" None).2
     = Samples.world
  /\ (barcodeService.processBarcodeEntry Samples.t0 Samples.world "99999999" None).2
     = Samples.world
  /\ (barcodeService.processBarcodeEntry Samples.t0 Samples.world "12ab" None).2
     = Samples.world.
Proof.
  split; [reflexivity|].
  split; [|split]; apply rejected_scan_no_mutation; vm_compute; tauto.
Defined.

Section EmergencyOverrideAnyZone.

Context {zone : TimeZone}.

(** ** Emergency override *)

Lemma find_hasCustomerId ds cid c :
  dataService.getCustomerById ds cid = Some c -> In c (customers ds) /\ customerId c = cid.
Proof.
  unfold dataService.getCustomerById. intros H. apply find_some in H as [Hin Heq].
  split; [exact Hin|]. by apply String.eqb_eq.
Qed.

Lemma falsy_false s : s <> "" -> falsy s = false.
Proof. by destruct s. Qed.

Lemma processEntry_visits now w c sv :
  visits (data (barcodeService.processEntry now w c sv).2)
  = visits (data w)
    ++ [mkVisit (dataService.makeVisitId (nextVisitId (data w))) (customerId c) now
          None None (default ["gym"] sv) (DateUtils.dateKey now)].
Proof.
  unfold barcodeService.processEntry. simpl.
  unfold dataService.updateCustomerVisitStatus.
  destruct (dataService.getCustomerById _ _); simpl; [|done].
  by destruct (personalInfo c).
Qed.

(** C10: an emergency override for a customer who is outside opens a visit
    whose services are gym and spa; the call takes a customer id and a
    reason only, so no other service set can be asked for. *)
Theorem emergency_override_opens_gym_and_spa (now : Z) (w : World) (cid reason : string)
    (c : Customer) :
  cid <> "" ->
  reason <> "" ->
  dataService.getCustomerById (data w) cid = Some c ->
  inside c = false ->
  exists v,
    visits (data (barcodeService.emergencyOverride now w cid reason).2)
      = visits (data w) ++ [v]
    /\ v_customerId v = cid
    /\ services v = ["gym"; "spa"]
    /\ exitTime v = None
    /\ entryTime v = now.
Proof.
  intros Hcid Hreason Hc Hout.
  destruct (find_hasCustomerId _ _ _ Hc) as [_ Hid].
  eexists. split.
  - unfold barcodeService.emergencyOverride.
    rewrite (falsy_false _ Hcid), (falsy_false _ Hreason). simpl orb. cbv iota.
    unfold customerService.getCustomerById. rewrite (falsy_false _ Hcid), Hc.
    simpl customerService.cr_data. cbv iota beta.
    simpl customerService.base. rewrite Hout.
    pose proof (processEntry_visits now w c (Some ["gym"; "spa"])) as Hv.
    destruct (barcodeService.processEntry now w c (Some ["gym"; "spa"])) as [result w1].
    simpl in Hv.
    destruct (success result); [|exact Hv].
    destruct (personalInfo c); exact Hv.
  - simpl. repeat split. exact Hid.
Qed.

End EmergencyOverrideAnyZone.

Lemma emergency_override_opens_gym_and_spa_witness :
  exists v,
    visits (data (barcodeService.emergencyOverride Samples.t0 Samples.world
                    "00000004" "fire drill").2) = [v]
    /\ v_customerId v = "00000004"
    /\ services v = ["gym"; "spa"]
    /\ exitTime v = None
    /\ entryTime v = Samples.t0.
Proof.
  apply (emergency_override_opens_gym_and_spa Samples.t0 Samples.world
           "00000004" "fire drill" Samples.customerD);
    try discriminate; reflexivity.
Defined.

Section DuplicateScansAnyZone.

Context {zone : TimeZone}.

(** ** Duplicate scans *)

Lemma processBarcodeEntry_history_blind now ds h1 h2 barcode sv :
  (barcodeService.processBarcodeEntry now (mkWorld ds h1) barcode sv).1
  = (barcodeService.processBarcodeEntry now (mkWorld ds h2) barcode sv).1
  /\ data (barcodeService.processBarcodeEntry now (mkWorld ds h1) barcode sv).2
     = data (barcodeService.processBarcodeEntry now (mkWorld ds h2) barcode sv).2.
Proof.
  unfold barcodeService.processBarcodeEntry. simpl.
  destruct (negb (Validators.isValid (Validators.validateBarcode barcode))); [done|].
  destruct (customerService.cr_data _) as [enriched|]; [|done].
  destruct (negb (customerService.vs_isValid _)); [done|].
  destruct (inside (customerService.base enriched)) eqn:Hin.
  - unfold barcodeService.processExit. rewrite Hin. simpl.
    destruct (find _ _); [|done].
    destruct (dataService.endVisit _ _ _ _) as [[? ds1]|]; [|done].
    destruct (dataService.updateCustomerVisitStatus _ _ _ _ _); [|done].
    by destruct (personalInfo _).
  - unfold barcodeService.processEntry. simpl.
    destruct (dataService.updateCustomerVisitStatus _ _ _ _ _); [|done].
    by destruct (personalInfo _).
Qed.

(** The duplicate test is a query of its own, [checkForDuplicateEntry],
    true exactly when the scan history holds a line of that customer id
    stamped less than the window (5000 ms by default) before now.  No scan
    consults it: outcome and ledger effect of [processBarcodeEntry] do not
    depend on the scan history. *)
Lemma duplicate_check_is_separate (now : Z) (ds : DataService)
    (history : list ScanEntry) (barcode cid : string) (sv : option (list string)) :
  (barcodeService.checkForDuplicateEntry now (mkWorld ds history) cid None = true
   <-> exists e, In e history /\ h_customerId e = cid /\ now - h_timestamp e < 5000)
  /\ (barcodeService.processBarcodeEntry now (mkWorld ds history) barcode sv).1
     = (barcodeService.processBarcodeEntry now (mkWorld ds []) barcode sv).1
  /\ data (barcodeService.processBarcodeEntry now (mkWorld ds history) barcode sv).2
     = data (barcodeService.processBarcodeEntry now (mkWorld ds []) barcode sv).2.
Proof.
  split; [|apply processBarcodeEntry_history_blind].
  unfold barcodeService.checkForDuplicateEntry. simpl.
  set (p := fun scan : ScanEntry =>
              String.eqb (h_customerId scan) cid && (now - h_timestamp scan <? 5000)).
  split.
  - intros H. apply Nat.ltb_lt in H.
    destruct (List.filter p history) as [|e r] eqn:E; [simpl in H; lia|].
    assert (Hin : In e (List.filter p history)) by (rewrite E; left; reflexivity).
    apply filter_In in Hin as [Hin Hp]. unfold p in Hp.
    apply andb_true_iff in Hp as [Hid Hlt].
    exists e. split; [exact Hin|]. split; [by apply String.eqb_eq | by apply Z.ltb_lt].
  - intros (e & Hin & Hid & Hlt). apply Nat.ltb_lt.
    assert (Hf : In e (List.filter p history)).
    { apply filter_In. split; [exact Hin|]. unfold p.
      apply andb_true_iff. split; [by apply String.eqb_eq | by apply Z.ltb_lt]. }
    destruct (List.filter p history); [destruct Hf | simpl; lia].
Qed.

End DuplicateScansAnyZone.

Lemma repeated_scan_same_outcome :
  barcodeService.checkForDuplicateEntry (Samples.t0 + 1000) Samples.worldAfterEntry
    "00000003" None = true
  /\ barcodeService.checkForDuplicateEntry (Samples.t0 + 1000)
       (mkWorld (data Samples.worldAfterEntry) []) "00000003" None = false
  /\ (barcodeService.processBarcodeEntry (Samples.t0 + 1000) Samples.worldAfterEntry
        "00000003" None).1
     = (barcodeService.processBarcodeEntry (Samples.t0 + 1000)
          (mkWorld (data Samples.worldAfterEntry) []) "00000003" None).1.
Proof. vm_compute. repeat split. Qed.

(** No mark read off the outcome can tell a duplicate scan from a first one. *)
Corollary no_duplicate_mark_in_outcome :
  ~ exists mark : Outcome -> bool,
      forall (zone : TimeZone) now w barcode sv,
        mark (barcodeService.processBarcodeEntry now w barcode sv).1
        = barcodeService.checkForDuplicateEntry now w (trim barcode) None.
Proof.
  intros [mark H].
  pose proof (H Samples.zone (Samples.t0 + 1000) Samples.worldAfterEntry "00000003" None)
    as H1.
  pose proof (H Samples.zone (Samples.t0 + 1000)
                (mkWorld (data Samples.worldAfterEntry) []) "00000003" None) as H2.
  destruct repeated_scan_same_outcome as (D1 & D2 & E).
  change (trim "00000003") with "00000003" in H1, H2.
  rewrite D1 in H1. rewrite D2 in H2. rewrite E in H1. congruence.
Qed.

Section PeakHourAnyZone.

Context {zone : TimeZone}.

(** ** Peak hour *)

Section PeakHour.

Import statisticsService.

Lemma calculatePeakHour_snoc l x :
  calculatePeakHour (l ++ [x]) =
    let acc := calculatePeakHour l in
    if (peakEntries acc <? dataService.entries x)%nat
    then mkPeakHour (List.length l) (dataService.entries x)
    else acc.
Proof.
  unfold calculatePeakHour. rewrite imap_app, fold_left_app. simpl.
  by rewrite Nat.add_0_r.
Qed.

Lemma calculatePeakHour_peakOf l : peakOf l (calculatePeakHour l).
Proof.
  induction l as [|x l IH] using rev_ind.
  - split; [|split]; [| |by left]; intros h st Hl; destruct h; discriminate Hl.
  - rewrite calculatePeakHour_snoc. cbv zeta.
    destruct IH as (Hmax & Hfirst & Hat).
    set (acc := calculatePeakHour l) in *.
    assert (Hidx : hour acc = 0%nat \/ (hour acc < List.length l)%nat).
    { destruct Hat as [[? _]|Hat]; [by left | right].
      apply fmap_Some in Hat as (st & E & _).
      by apply lookup_lt_Some in E. }
    destruct (peakEntries acc <? dataService.entries x)%nat eqn:Hcmp.
    + apply Nat.ltb_lt in Hcmp. simpl. split; [|split].
      * intros h st Hl. simpl.
        apply lookup_snoc_Some in Hl as [[Hlt Hl]|[_ <-]]; [|lia].
        specialize (Hmax _ _ Hl). lia.
      * intros h st Hl Hlt. simpl in Hlt. simpl peakEntries.
        rewrite lookup_app_l in Hl by exact Hlt.
        specialize (Hmax _ _ Hl). lia.
      * right. by rewrite list_lookup_middle.
    + apply Nat.ltb_ge in Hcmp. split; [|split].
      * intros h st Hl. apply lookup_snoc_Some in Hl as [[Hlt Hl]|[_ <-]]; [|lia].
        exact (Hmax _ _ Hl).
      * intros h st Hl Hlt. apply lookup_snoc_Some in Hl as [[_ Hl]|[-> _]]; [|lia].
        exact (Hfirst _ _ Hl Hlt).
      * destruct Hat as [Hz|Hat]; [by left | right].
        assert (Hlt : (hour acc < List.length l)%nat).
        { apply fmap_Some in Hat as (st & E & _). by apply lookup_lt_Some in E. }
        by rewrite lookup_app_l.
Qed.

Lemma getHourlyVisitStats_length ds d :
  List.length (dataService.getHourlyVisitStats ds d) = 24%nat.
Proof.
  unfold dataService.getHourlyVisitStats.
  generalize (dataService.getVisitsByDate ds d).
  assert (H : List.length (replicate 24 (dataService.mkHourStat 0 0)) = 24%nat)
    by apply length_replicate.
  revert H. generalize (replicate 24 (dataService.mkHourStat 0 0)).
  intros l H vs. revert l H.
  induction vs as [|v vs IH]; intros l H; simpl; [exact H|].
  apply IH. destruct (exitTime v); by rewrite ?length_alter.
Qed.

(** C6: the peak hour reported for a day is one of the hours 0..23, no
    hour of that day has more entries, and every lower-numbered hour has
    strictly fewer: among hours of maximal entries the lowest is reported. *)
Theorem peakHour_lowest_maximum (ds : DataService) (d : Z) :
  let stats := getDailyStatistics ds d in
  let hourly := dataService.getHourlyVisitStats ds d in
  List.length hourly = 24%nat
  /\ hourlyData stats = formatHourlyData hourly
  /\ (hour (peakHour stats) < 24)%nat
  /\ dataService.entries <$> hourly !! hour (peakHour stats)
     = Some (peakEntries (peakHour stats))
  /\ (forall h st, hourly !! h = Some st ->
        (dataService.entries st <= peakEntries (peakHour stats))%nat)
  /\ (forall h st, hourly !! h = Some st -> (h < hour (peakHour stats))%nat ->
        (dataService.entries st < peakEntries (peakHour stats))%nat).
Proof.
  intros stats hourly.
  pose proof (getHourlyVisitStats_length ds d) as Hlen. fold hourly in Hlen.
  destruct (calculatePeakHour_peakOf hourly) as (Hmax & Hfirst & Hat).
  change (calculatePeakHour hourly) with (peakHour stats) in *.
  assert (Hlook : dataService.entries <$> hourly !! hour (peakHour stats)
                  = Some (peakEntries (peakHour stats))).
  { destruct Hat as [[Hh He]|Hat]; [|exact Hat].
    rewrite Hh, He. destruct (hourly !! 0%nat) as [st|] eqn:E.
    - specialize (Hmax _ _ E). simpl. f_equal. lia.
    - apply lookup_ge_None in E. lia. }
  split; [exact Hlen|]. split; [reflexivity|].
  split; [|split; [exact Hlook|split; [exact Hmax|exact Hfirst]]].
  clear Hat.
  apply fmap_Some in Hlook as (st & E & _).
  apply lookup_lt_Some in E. lia.
Qed.

End PeakHour.

End PeakHourAnyZone.

Example peakHour_tie_sample :
  statisticsService.calculatePeakHour
    (alter dataService.countEntry 17%nat
       (alter dataService.countEntry 9%nat (replicate 24 (dataService.mkHourStat 0 0))))
  = statisticsService.mkPeakHour 9 1.
Proof. reflexivity. Qed.

Section RevenueEstimateAnyZone.

Context {zone : TimeZone}.

(** ** Revenue estimate *)

Lemma tally_total stats type :
  let stats' := dataService.tally stats type in
  (dataService.daily stats' + dataService.monthly stats' + dataService.annual stats')%nat
  = (dataService.daily stats + dataService.monthly stats + dataService.annual stats
     + if String.eqb type "daily" || String.eqb type "monthly" || String.eqb type "annual"
       then 1 else 0)%nat.
Proof.
  unfold dataService.tally.
  destruct (String.eqb type "daily"); simpl; [lia|].
  destruct (String.eqb type "monthly"); simpl; [lia|].
  destruct (String.eqb type "annual"); simpl; lia.
Qed.

Lemma membershipStats_counts_recognised ds d :
  let stats := dataService.getMembershipTypeStats ds d in
  (dataService.daily stats + dataService.monthly stats + dataService.annual stats)%nat
  = List.length (List.filter (recognisedMember ds) (dataService.getVisitsByDate ds d)).
Proof.
  unfold dataService.getMembershipTypeStats.
  generalize (dataService.getVisitsByDate ds d). intros vs.
  enough (G : forall acc,
             let stats := fold_left
               (fun stats visit =>
                  match dataService.getCustomerById ds (v_customerId visit) with
                  | Some customer =>
                      match membership customer with
                      | Some m => dataService.tally stats (m_type m)
                      | None => stats
                      end
                  | None => stats
                  end) vs acc in
             (dataService.daily stats + dataService.monthly stats
              + dataService.annual stats)%nat
             = (dataService.daily acc + dataService.monthly acc + dataService.annual acc
                + List.length (List.filter (recognisedMember ds) vs))%nat).
  { specialize (G (dataService.mkMembershipStats 0 0 0)). simpl in G. exact G. }
  induction vs as [|v vs IH]; intros acc; simpl; [lia|].
  rewrite IH. unfold recognisedMember at 2.
  destruct (dataService.getCustomerById ds (v_customerId v)) as [c|]; [|lia].
  destruct (membership c) as [m|]; [|lia].
  rewrite tally_total.
  destruct (String.eqb (m_type m) "daily" || String.eqb (m_type m) "monthly"
            || String.eqb (m_type m) "annual"); simpl; lia.
Qed.

Lemma calculateDailyRevenue_average counts :
  let n := (dataService.daily counts + dataService.monthly counts
            + dataService.annual counts)%nat in
  statisticsService.averagePerVisit (statisticsService.calculateDailyRevenue counts)
  = (if Nat.eqb n 0 then 0
     else dataService.roundQ (statisticsService.rawTotal counts / inject_Z (Z.of_nat n))%Q).
Proof.
  unfold statisticsService.calculateDailyRevenue, statisticsService.countQ. simpl.
  by destruct (dataService.daily counts + dataService.monthly counts
               + dataService.annual counts)%nat.
Qed.

(** C7 (as the code has it): [revenue.total] is the rounded sum [T] of
    count times daily rate (50, 500/30, 5000/365) over the three membership
    types; [averagePerVisit] is the rounding of the unrounded [T] divided by
    [n], the sum of the three counts, and 0 when [n] is 0; [n] is the number
    of that day's visits whose customer resolves to a membership of one of
    the three types, which is at most [totalVisits] and equal to it when
    every visit of the day resolves so. *)
Theorem averagePerVisit_over_counted_visits (ds : DataService) (d : Z) :
  let stats := statisticsService.getDailyStatistics ds d in
  let counts := statisticsService.membershipBreakdown stats in
  let n := (dataService.daily counts + dataService.monthly counts
            + dataService.annual counts)%nat in
  let T := statisticsService.rawTotal counts in
  (T == 50 * inject_Z (Z.of_nat (dataService.daily counts))
        + (500 / 30) * inject_Z (Z.of_nat (dataService.monthly counts))
        + (5000 / 365) * inject_Z (Z.of_nat (dataService.annual counts)))%Q
  /\ statisticsService.total (statisticsService.revenue stats) = dataService.roundQ T
  /\ statisticsService.averagePerVisit (statisticsService.revenue stats)
     = (if Nat.eqb n 0 then 0 else dataService.roundQ (T / inject_Z (Z.of_nat n))%Q)
  /\ n = List.length (List.filter (recognisedMember ds) (dataService.getVisitsByDate ds d))
  /\ (n <= dataService.totalVisits (statisticsService.overview stats))%nat
  /\ (forallb (recognisedMember ds) (dataService.getVisitsByDate ds d) = true ->
      n = dataService.totalVisits (statisticsService.overview stats)).
Proof.
  intros stats counts n T.
  pose proof (membershipStats_counts_recognised ds d) as Hn.
  cbv zeta in Hn. fold counts in Hn. fold n in Hn.
  split; [|split; [|split; [|split; [|split]]]].
  - unfold T, statisticsService.rawTotal, statisticsService.countQ,
      statisticsService.dailyRates.daily, statisticsService.dailyRates.monthly,
      statisticsService.dailyRates.annual, statisticsService.pricing.daily,
      statisticsService.pricing.monthly, statisticsService.pricing.annual.
    ring.
  - reflexivity.
  - apply calculateDailyRevenue_average.
  - exact Hn.
  - unfold n, counts, stats. simpl. rewrite Hn. apply filter_length_le.
  - intros Hall. unfold n, counts, stats. simpl. rewrite Hn.
    clear Hn. induction (dataService.getVisitsByDate ds d) as [|v vs IH];
      simpl in *; [done|].
    apply andb_true_iff in Hall as [Hv Hvs]. rewrite Hv. simpl.
    by rewrite (IH Hvs).
Qed.

End RevenueEstimateAnyZone.

(** The claim of C7 on a day with one visit of a daily member and one of a
    monthly member: the total is 67, there are 2 visits, and the reported
    average is 33, not [round(67 / 2) = 34]. *)
Lemma averagePerVisit_counterexample :
  statisticsService.total (statisticsService.revenue Samples.revenueStats) = 67
  /\ dataService.totalVisits (statisticsService.overview Samples.revenueStats) = 2%nat
  /\ statisticsService.averagePerVisit (statisticsService.revenue Samples.revenueStats) = 33
  /\ statisticsService.averagePerVisit (statisticsService.revenue Samples.revenueStats)
     <> dataService.roundQ
          (inject_Z (statisticsService.total (statisticsService.revenue Samples.revenueStats))
           / inject_Z (Z.of_nat (dataService.totalVisits
                                   (statisticsService.overview Samples.revenueStats))))%Q.
Proof. vm_compute. repeat split. discriminate. Qed.

Section TheLedgerAndTheCurrentVisitCacheAnyZone.

Context {zone : TimeZone}.

(** ** The ledger and the [currentVisit] cache *)

(** *** Visit ids issued by the counter are pairwise distinct *)

Lemma readNat_toString n : readNat (toString n) = Some n.
Proof.
  unfold readNat, toString. rewrite NilEmpty.usu. simpl.
  by rewrite DecimalNat.Unsigned.of_to.
Qed.

Lemma readNat_zero s : readNat (String "0" s) = readNat s.
Proof.
  unfold readNat. simpl. by destruct (NilEmpty.uint_of_string s).
Qed.

Lemma readNat_padStart k s : readNat (padStart k "0" s) = readNat s.
Proof.
  unfold padStart. induction (k - String.length s)%nat as [|j IH]; [done|].
  change (readNat (String "0" (repeatChar j "0" +:+ s)) = readNat s).
  by rewrite readNat_zero.
Qed.

Lemma makeVisitId_inj n n' :
  dataService.makeVisitId n = dataService.makeVisitId n' -> n = n'.
Proof.
  unfold dataService.makeVisitId. intros H.
  apply (inj (String.app "visit")) in H.
  apply (f_equal readNat) in H.
  rewrite !readNat_padStart, !readNat_toString in H. congruence.
Qed.

Lemma NoDup_map_injective {A B : Type} (f : A -> B) (l : list A) :
  (forall x y, f x = f y -> x = y) -> List.NoDup l -> List.NoDup (map f l).
Proof.
  intros Hf. induction 1 as [|x l Hx _ IH]; simpl; constructor; [|exact IH].
  intros Hin. apply in_map_iff in Hin as (y & Hy & Hin).
  apply Hf in Hy. by subst y.
Qed.

(** A seed ledger numbered [visit001 .. visitN], as the constructor's
    counter expects, has distinct ids and leaves the counter ahead of them. *)
Lemma dense_seed_ids (customersData : list Customer) (visitsData : list Visit)
    (maxCustomerId : Z) :
  map visitId visitsData = map dataService.makeVisitId (seq 1 (List.length visitsData)) ->
  let ds := dataService.newDataService customersData visitsData maxCustomerId in
  List.NoDup (map visitId (visits ds))
  /\ (forall n, (nextVisitId ds <= n)%nat ->
        ~ In (dataService.makeVisitId n) (map visitId (visits ds))).
Proof.
  intros Hids. cbn [dataService.newDataService visits nextVisitId]. rewrite Hids. split.
  - apply NoDup_map_injective; [exact makeVisitId_inj | apply seq_NoDup].
  - intros n Hn Hin. apply in_map_iff in Hin as (k & Hk & Hin).
    apply makeVisitId_inj in Hk. apply in_seq in Hin. lia.
Qed.

(** *** Counting under the three kinds of write *)

Lemma count_snoc {A : Type} (p : A -> bool) (l : list A) (x : A) :
  List.length (List.filter p (l ++ [x]))
  = (List.length (List.filter p l) + if p x then 1 else 0)%nat.
Proof.
  rewrite List.filter_app, length_app. simpl. by destruct (p x).
Qed.

Lemma map_updateFirst {A B : Type} (g : A -> B) (p : A -> bool) (f : A -> A) (l : list A) :
  (forall x, g (f x) = g x) -> map g (updateFirst p f l) = map g l.
Proof.
  intros Hg. induction l as [|x r IH]; simpl; [done|].
  destruct (p x); simpl; by rewrite ?Hg, ?IH.
Qed.

Lemma count_cons {A : Type} (p : A -> bool) (x : A) (r : list A) :
  List.length (List.filter p (x :: r))
  = ((if p x then 1 else 0) + List.length (List.filter p r))%nat.
Proof. simpl. by destruct (p x). Qed.

Lemma insideCount_absent (l : list Customer) (cid : string) :
  ~ In cid (map customerId l) -> List.length (List.filter (insideAs cid) l) = 0%nat.
Proof.
  induction l as [|x r IH]; [done|]. intros Hnot. simpl in Hnot.
  rewrite count_cons, IH by tauto. unfold insideAs.
  destruct (String.eqb_spec (customerId x) cid) as [E|E]; [tauto|].
  by rewrite andb_false_r.
Qed.

Lemma insideCount_found (l : list Customer) (cid : string) (c : Customer) :
  List.NoDup (map customerId l) ->
  find (dataService.hasCustomerId cid) l = Some c ->
  List.length (List.filter (insideAs cid) l) = if inside c then 1%nat else 0%nat.
Proof.
  induction l as [|x r IH]; [discriminate|].
  intros Hnd Hfind. simpl in Hnd, Hfind.
  apply List.NoDup_cons_iff in Hnd as [Hx Hnd].
  rewrite count_cons. unfold dataService.hasCustomerId in Hfind at 1. unfold insideAs at 1.
  destruct (String.eqb_spec (customerId x) cid) as [E|E].
  - injection Hfind as ->. subst cid.
    rewrite andb_true_r, (insideCount_absent r _ Hx).
    by destruct (inside c).
  - rewrite andb_false_r. simpl. auto.
Qed.

Lemma insideCount_update (l : list Customer) (cid cid' : string) (cv : CurrentVisit)
    (c : Customer) :
  List.NoDup (map customerId l) ->
  find (dataService.hasCustomerId cid) l = Some c ->
  List.length (List.filter (insideAs cid')
            (updateFirst (dataService.hasCustomerId cid)
               (dataService.setCurrentVisit cv) l))
  = if String.eqb cid cid' then (if isInside cv then 1%nat else 0%nat)
    else List.length (List.filter (insideAs cid') l).
Proof.
  induction l as [|x r IH]; [discriminate|].
  intros Hnd Hfind. simpl in Hnd, Hfind.
  apply List.NoDup_cons_iff in Hnd as [Hx Hnd].
  unfold dataService.hasCustomerId in Hfind at 1.
  cbn [updateFirst]. unfold dataService.hasCustomerId at 1.
  destruct (String.eqb_spec (customerId x) cid) as [E|E].
  - subst cid. rewrite !count_cons. unfold insideAs at 1 3.
    cbn [dataService.setCurrentVisit customerId]. unfold inside at 1.
    cbn [dataService.setCurrentVisit currentVisit].
    destruct (String.eqb_spec (customerId x) cid') as [E'|E'].
    + subst cid'. rewrite (insideCount_absent r _ Hx), andb_true_r.
      by destruct (isInside cv).
    + by rewrite !andb_false_r.
  - rewrite !count_cons, (IH Hnd Hfind). unfold insideAs at 1 2.
    destruct (String.eqb_spec cid cid') as [E'|E']; [|done].
    subst cid'. destruct (String.eqb_spec (customerId x) cid); [done|].
    by rewrite andb_false_r.
Qed.

Lemma openCount_close (l : list Visit) (v : Visit) (T : Z) (cid' : string) :
  List.NoDup (map visitId l) ->
  In v l ->
  dataService.isOpen v = true ->
  (List.length (List.filter (openFor cid')
             (updateFirst (dataService.hasVisitId (visitId v))
                (dataService.closeVisit T) l))
   + (if String.eqb (v_customerId v) cid' then 1 else 0)
   = List.length (List.filter (openFor cid') l))%nat.
Proof.
  induction l as [|x r IH]; [intros _ []|].
  intros Hnd Hin Hopen. simpl in Hnd.
  apply List.NoDup_cons_iff in Hnd as [Hx Hnd].
  cbn [updateFirst]. unfold dataService.hasVisitId at 1.
  destruct (String.eqb_spec (visitId x) (visitId v)) as [E|E].
  - assert (x = v) as ->.
    { destruct Hin as [|Hin]; [done|]. exfalso. apply Hx. rewrite E.
      by apply in_map. }
    rewrite !count_cons. unfold openFor at 1 3.
    cbn [dataService.closeVisit dataService.isOpen exitTime v_customerId].
    change (match exitTime v with Some _ => false | None => true end)
      with (dataService.isOpen v).
    rewrite Hopen. simpl andb.
    destruct (String.eqb (v_customerId v) cid'); lia.
  - destruct Hin as [->|Hin]; [done|].
    rewrite !count_cons. specialize (IH Hnd Hin Hopen). lia.
Qed.

Lemma find_open_visit (ds : DataService) (cid : string) (v : Visit) :
  find (fun x => String.eqb (v_customerId x) cid) (dataService.getCurrentVisits ds) = Some v ->
  In v (visits ds) /\ dataService.isOpen v = true /\ v_customerId v = cid.
Proof.
  intros H. apply find_some in H as [Hin Hid].
  apply filter_In in Hin as [Hin Hopen].
  repeat split; auto. by apply String.eqb_eq.
Qed.

Lemma NoDup_snoc {A : Type} (l : list A) (a : A) :
  List.NoDup l -> ~ In a l -> List.NoDup (l ++ [a]).
Proof.
  intros Hl Ha. apply List.NoDup_app; [exact Hl | |].
  - constructor; [intros [] | constructor].
  - intros b Hb [<-|[]]. contradiction.
Qed.

Lemma insideCount_positive (l : list Customer) (cid : string) :
  (0 < List.length (List.filter (insideAs cid) l))%nat ->
  exists c, find (dataService.hasCustomerId cid) l = Some c.
Proof.
  induction l as [|x r IH]; [simpl; lia|].
  rewrite count_cons. cbn [find]. unfold dataService.hasCustomerId at 1, insideAs at 1.
  destruct (String.eqb (customerId x) cid); [eauto|].
  rewrite andb_false_r. exact IH.
Qed.

(** *** The two composite writes *)

(** Appending an open visit for an outside customer and setting the
    customer's [currentVisit] to inside. *)
Lemma open_then_mark_inside (now : Z) (ds : DataService) (c : Customer) (vd : VisitData)
    (e x : option Z) :
  wellFormed ds ->
  dataService.getCustomerById ds (customerId c) = Some c ->
  inside c = false ->
  vd_customerId vd = customerId c ->
  vd_exitTime vd = None ->
  exists ds2,
    dataService.updateCustomerVisitStatus (dataService.addVisit now ds vd).2
      (customerId c) true e x = Some ds2
    /\ wellFormed ds2.
Proof.
  intros [Hcids Hvids Hctr Hbal] Hc Hout Hvd Hexit.
  unfold dataService.updateCustomerVisitStatus, dataService.getCustomerById.
  cbn [dataService.addVisit snd customers].
  unfold dataService.getCustomerById in Hc. rewrite Hc.
  eexists. split; [reflexivity|].
  constructor; cbn [customers visits nextVisitId].
  - by rewrite map_updateFirst.
  - rewrite map_app. cbn [map visitId]. apply NoDup_snoc; [exact Hvids|].
    apply Hctr. lia.
  - intros n Hn. rewrite map_app. cbn [map visitId].
    intros Hin. apply in_app_or in Hin as [Hin|[Heq|[]]].
    + apply (Hctr n); [lia | exact Hin].
    + apply makeVisitId_inj in Heq. lia.
  - intros cid. unfold openVisitsOf, insideCustomersOf. cbn [customers visits].
    rewrite count_snoc, (insideCount_update _ _ cid _ c Hcids Hc).
    specialize (Hbal cid). unfold openVisitsOf, insideCustomersOf in Hbal. rewrite Hbal.
    unfold openFor at 1. cbn [dataService.isOpen exitTime v_customerId].
    rewrite Hexit, Hvd. cbn [andb isInside].
    destruct (String.eqb_spec (customerId c) cid) as [E|E];
      [|rewrite andb_false_r; lia].
    subst cid. rewrite (insideCount_found _ _ c Hcids Hc), Hout. reflexivity.
Qed.

(** Closing the open visit found for [cid] and setting the customer's
    [currentVisit] to outside. *)
Lemma close_then_mark_outside (now : Z) (ds : DataService) (cid : string) (v r : Visit)
    (T : Z) (ds1 : DataService) :
  wellFormed ds ->
  find (fun x => String.eqb (v_customerId x) cid) (dataService.getCurrentVisits ds) = Some v ->
  dataService.endVisit now ds (visitId v) (Some T) = Some (r, ds1) ->
  exists ds2,
    dataService.updateCustomerVisitStatus ds1 cid false None (Some T) = Some ds2
    /\ wellFormed ds2.
Proof.
  intros [Hcids Hvids Hctr Hbal] Hfind Hend.
  destruct (find_open_visit _ _ _ Hfind) as (Hin & Hopen & Hid).
  unfold dataService.endVisit in Hend.
  destruct (dataService.getVisitById ds (visitId v)); [|discriminate].
  injection Hend as _ <-. cbn [default].
  assert (Hpos : (0 < insideCustomersOf ds cid)%nat).
  { rewrite <- Hbal. unfold openVisitsOf.
    assert (Hv : In v (List.filter (openFor cid) (visits ds))).
    { apply filter_In. split; [exact Hin|]. unfold openFor.
      rewrite Hopen, Hid. by rewrite String.eqb_refl. }
    destruct (List.filter (openFor cid) (visits ds)); [destruct Hv | simpl; lia]. }
  destruct (insideCount_positive _ _ Hpos) as [c Hc].
  unfold dataService.updateCustomerVisitStatus, dataService.getCustomerById.
  cbn [customers]. rewrite Hc.
  eexists. split; [reflexivity|].
  constructor; cbn [customers visits nextVisitId].
  - by rewrite map_updateFirst.
  - by rewrite map_updateFirst.
  - intros n Hn. rewrite map_updateFirst by done. by apply Hctr.
  - intros cid'. unfold openVisitsOf, insideCustomersOf. cbn [customers visits].
    rewrite (insideCount_update _ _ cid' _ c Hcids Hc). cbn [isInside].
    pose proof (openCount_close (visits ds) v T cid' Hvids Hin Hopen) as Hclose.
    specialize (Hbal cid'). unfold openVisitsOf, insideCustomersOf in Hbal.
    rewrite Hid in Hclose.
    destruct (String.eqb_spec cid cid') as [E|E].
    + subst cid'. rewrite (insideCount_found _ _ c Hcids Hc) in Hbal.
      destruct (inside c); lia.
    + lia.
Qed.

(** *** Each operation keeps the store well formed *)

Lemma processEntry_wellFormed now w c sv :
  wellFormed (data w) ->
  dataService.getCustomerById (data w) (customerId c) = Some c ->
  inside c = false ->
  wellFormed (data (barcodeService.processEntry now w c sv).2).
Proof.
  intros Hwf Hc Hout. unfold barcodeService.processEntry.
  set (vd := {| vd_customerId := customerId c; vd_entryTime := Some now;
                vd_exitTime := None; vd_duration := None;
                vd_services := Some (default ["gym"] sv);
                vd_date := Some (DateUtils.dateKey now) |}).
  destruct (open_then_mark_inside now (data w) c vd (Some now) None Hwf Hc Hout
              eq_refl eq_refl) as (ds2 & Hu & Hwf2).
  destruct (dataService.addVisit now (data w) vd) as [newVisit ds1].
  cbn [snd] in Hu. rewrite Hu.
  by destruct (personalInfo c).
Qed.

Lemma processExit_wellFormed now w c :
  wellFormed (data w) ->
  wellFormed (data (barcodeService.processExit now w c).2).
Proof.
  intros Hwf. unfold barcodeService.processExit.
  destruct (negb (inside c)); [exact Hwf|].
  destruct (find _ _) as [v|] eqn:Hfind; [|exact Hwf].
  destruct (dataService.endVisit _ _ _ _) as [[r ds1]|] eqn:Hend; [|exact Hwf].
  destruct (close_then_mark_outside _ _ _ _ _ _ _ Hwf Hfind Hend) as (ds2 & Hu & Hwf2).
  rewrite Hu. by destruct (personalInfo c).
Qed.

Lemma forceExitVisitor_wellFormed now w cid reason :
  wellFormed (data w) ->
  wellFormed (data (visitorsService.forceExitVisitor now w cid reason).2).
Proof.
  intros Hwf. unfold visitorsService.forceExitVisitor.
  destruct (falsy cid); [exact Hwf|].
  destruct (visitorsService.getVisitorById now (data w) cid) as [vis|]; [|exact Hwf].
  destruct (find _ _) as [v|] eqn:Hfind; [|exact Hwf].
  destruct (dataService.endVisit _ _ _ _) as [[r ds1]|] eqn:Hend; [|exact Hwf].
  destruct (close_then_mark_outside _ _ _ _ _ _ _ Hwf Hfind Hend) as (ds2 & Hu & Hwf2).
  rewrite Hu. by destruct (personalInfo (visitorsService.visitor vis)).
Qed.

Lemma service_lookup now ds cid enriched :
  customerService.cr_data (customerService.getCustomerById now ds cid) = Some enriched ->
  dataService.getCustomerById ds (customerId (customerService.base enriched))
  = Some (customerService.base enriched).
Proof.
  unfold customerService.getCustomerById.
  destruct (falsy cid); [discriminate|].
  destruct (dataService.getCustomerById ds cid) as [c|] eqn:Hc; [|discriminate].
  intros [= <-]. cbn [customerService.enrichCustomerData customerService.base].
  destruct (find_hasCustomerId _ _ _ Hc) as [_ ->]. exact Hc.
Qed.

Lemma barcode_lookup now ds barcode enriched :
  customerService.cr_data (customerService.getCustomerByBarcode now ds barcode)
  = Some enriched ->
  dataService.getCustomerById ds (customerId (customerService.base enriched))
  = Some (customerService.base enriched).
Proof.
  unfold customerService.getCustomerByBarcode.
  destruct (negb _); [discriminate|]. apply service_lookup.
Qed.

Lemma processBarcodeEntry_wellFormed now w barcode sv :
  wellFormed (data w) ->
  wellFormed (data (barcodeService.processBarcodeEntry now w barcode sv).2).
Proof.
  intros Hwf. unfold barcodeService.processBarcodeEntry.
  destruct (negb (Validators.isValid _)); [exact Hwf|].
  destruct (customerService.cr_data _) as [enriched|] eqn:Hc; [|exact Hwf].
  apply barcode_lookup in Hc.
  destruct (negb (customerService.vs_isValid _)); [exact Hwf|].
  destruct (inside (customerService.base enriched)) eqn:Hin.
  - by apply processExit_wellFormed.
  - by apply processEntry_wellFormed.
Qed.

Lemma manualEntryExit_wellFormed now w cid action sv :
  wellFormed (data w) ->
  wellFormed (data (barcodeService.manualEntryExit now w cid action sv).2).
Proof.
  intros Hwf. unfold barcodeService.manualEntryExit.
  destruct (falsy cid); [exact Hwf|].
  destruct (negb _); [exact Hwf|].
  destruct (customerService.cr_data _) as [enriched|] eqn:Hc; [|exact Hwf].
  apply service_lookup in Hc.
  destruct (String.eqb action "entry").
  - destruct (inside (customerService.base enriched)) eqn:Hin; [exact Hwf|].
    by apply processEntry_wellFormed.
  - destruct (negb (inside (customerService.base enriched))); [exact Hwf|].
    by apply processExit_wellFormed.
Qed.

Lemma emergencyOverride_wellFormed now w cid reason :
  wellFormed (data w) ->
  wellFormed (data (barcodeService.emergencyOverride now w cid reason).2).
Proof.
  intros Hwf. unfold barcodeService.emergencyOverride.
  destruct (falsy cid || falsy reason); [exact Hwf|].
  destruct (customerService.cr_data _) as [enriched|] eqn:Hc; [|exact Hwf].
  apply service_lookup in Hc.
  assert (H1 : wellFormed
                 (data (if inside (customerService.base enriched)
                        then barcodeService.processExit now w (customerService.base enriched)
                        else barcodeService.processEntry now w (customerService.base enriched)
                               (Some ["gym"; "spa"])).2)).
  { destruct (inside (customerService.base enriched)) eqn:Hin.
    - by apply processExit_wellFormed.
    - by apply processEntry_wellFormed. }
  destruct (if inside (customerService.base enriched) then _ else _) as [result w1].
  cbn [snd] in H1.
  destruct (success result); [|exact H1].
  by destruct (personalInfo (customerService.base enriched)).
Qed.

Lemma validCustomerData_has_id now customerData :
  Validators.isValid (Validators.validateCustomerData now customerData) = true ->
  falsy (customerId customerData) = false.
Proof.
  unfold Validators.validateCustomerData. cbn [Validators.isValid].
  intros H. repeat (apply andb_true_iff in H as [H _]).
  unfold Validators.validateCustomerId in H.
  by destruct (falsy (customerId customerData)).
Qed.

Lemma unique_not_in ds cid :
  dataService.isCustomerIdUnique ds cid = true -> ~ In cid (map customerId (customers ds)).
Proof.
  unfold dataService.isCustomerIdUnique. intros H Hin.
  apply negb_true_iff in H. apply in_map_iff in Hin as (c & Hid & Hc).
  assert (existsb (dataService.hasCustomerId cid) (customers ds) = true); [|congruence].
  apply existsb_exists. exists c. split; [exact Hc|].
  unfold dataService.hasCustomerId. rewrite Hid. apply String.eqb_refl.
Qed.

Lemma registerCustomer_wellFormed now ds customerData :
  wellFormed ds ->
  wellFormed (customerService.registerCustomer now ds customerData).2.
Proof.
  intros Hwf. unfold customerService.registerCustomer.
  destruct (Validators.isValid _) eqn:Hvalid; cbn [negb]; [|exact Hwf].
  rewrite (validCustomerData_has_id _ _ Hvalid). cbn [negb andb].
  destruct (dataService.isCustomerIdUnique ds (customerId customerData)) eqn:Hu;
    cbn [negb]; [|exact Hwf].
  apply unique_not_in in Hu. destruct Hwf as [Hcids Hvids Hctr Hbal].
  unfold dataService.addCustomer. rewrite (validCustomerData_has_id _ _ Hvalid).
  constructor; cbn [snd customers visits nextVisitId].
  - rewrite map_app. cbn [map customerId]. by apply NoDup_snoc.
  - exact Hvids.
  - exact Hctr.
  - intros cid. unfold openVisitsOf, insideCustomersOf. cbn [customers visits].
    rewrite count_snoc. specialize (Hbal cid).
    unfold openVisitsOf, insideCustomersOf in Hbal. rewrite Hbal.
    match goal with
    | |- context [insideAs cid ?new] =>
        change (insideAs cid new) with false
    end.
    cbv iota. lia.
Qed.

Lemma run_wellFormed now op w :
  wellFormed (data w) -> wellFormed (data (run now op w)).
Proof.
  destruct op; cbn [run].
  - apply processBarcodeEntry_wellFormed.
  - apply manualEntryExit_wellFormed.
  - apply emergencyOverride_wellFormed.
  - apply forceExitVisitor_wellFormed.
  - apply registerCustomer_wellFormed.
Qed.

Lemma find_of_NoDup (l : list Customer) (c : Customer) :
  List.NoDup (map customerId l) -> In c l ->
  find (dataService.hasCustomerId (customerId c)) l = Some c.
Proof.
  induction l as [|x r IH]; [intros _ []|].
  intros Hnd Hin. simpl in Hnd. apply List.NoDup_cons_iff in Hnd as [Hx Hnd].
  cbn [find]. unfold dataService.hasCustomerId at 1.
  destruct (String.eqb_spec (customerId x) (customerId c)) as [E|E].
  - destruct Hin as [->|Hin]; [done|]. exfalso. apply Hx. rewrite E. by apply in_map.
  - destruct Hin as [->|Hin]; [done|]. auto.
Qed.

Lemma wellFormed_open_count ds c :
  wellFormed ds -> In c (customers ds) ->
  openVisitsOf ds (customerId c) = if inside c then 1%nat else 0%nat.
Proof.
  intros [Hcids _ _ Hbal] Hin. rewrite Hbal. unfold insideCustomersOf.
  apply insideCount_found; [exact Hcids|]. by apply find_of_NoDup.
Qed.

(** C1 (as the code keeps it): from an initial store that is well formed
    (customer ids pairwise distinct; visit ids pairwise distinct and
    different from every id the visit counter will still issue; for every
    customer id as many open visits as inside customers with that id), every
    state reached by scans, manual entries and exits, emergency overrides,
    forced exits and registrations is well formed again, and in it every
    customer is inside iff exactly one of the customer's visits is open, and
    outside iff none is. *)
Theorem reachable_inside_iff_one_open (w0 w : World) :
  wellFormed (data w0) ->
  reachable w0 w ->
  wellFormed (data w)
  /\ insideIffOneOpen (data w)
  /\ (forall c, In c (customers (data w)) ->
        openVisitsOf (data w) (customerId c) = if inside c then 1%nat else 0%nat).
Proof.
  intros Hwf0 Hreach.
  assert (Hwf : wellFormed (data w)).
  { induction Hreach as [|w now op _ IH]; [exact Hwf0 | by apply run_wellFormed]. }
  split; [exact Hwf|]. split.
  - intros c Hin. rewrite (wellFormed_open_count _ _ Hwf Hin).
    destruct (inside c); split; congruence.
  - intros c Hin. by apply wellFormed_open_count.
Qed.

End TheLedgerAndTheCurrentVisitCacheAnyZone.

Lemma reachable_inside_iff_one_open_witness :
  wellFormed (data Samples.worldAfterEntry)
  /\ insideIffOneOpen (data Samples.worldAfterEntry)
  /\ (forall c, In c (customers (data Samples.worldAfterEntry)) ->
        openVisitsOf (data Samples.worldAfterEntry) (customerId c)
        = if inside c then 1%nat else 0%nat).
Proof.
  apply (reachable_inside_iff_one_open Samples.world).
  - constructor.
    + repeat constructor; simpl; intuition discriminate.
    + constructor.
    + intros n _ [].
    + intros cid. reflexivity.
  - apply (reachable_step _ _ Samples.t0 (Scan "00000003" None)). constructor.
Defined.

(** The claim of C1 on a seed whose ledger holds an open visit under the id
    of a customer who is not on file yet: the equivalence holds at the start
    (customer D is outside and has no open visit); registering customer C
    stores her as outside while the visit under her id is open. *)
Lemma inside_iff_one_open_counterexample :
  insideIffOneOpen (data Samples.orphanWorld)
  /\ reachable Samples.orphanWorld Samples.orphanWorldAfterRegistration
  /\ In Samples.customerC (customers (data Samples.orphanWorldAfterRegistration))
  /\ inside Samples.customerC = false
  /\ openVisitsOf (data Samples.orphanWorldAfterRegistration) "00000003" = 1%nat
  /\ ~ insideIffOneOpen (data Samples.orphanWorldAfterRegistration).
Proof.
  split; [|split; [|split; [|split; [|split]]]].
  - intros c [<-|[]]; vm_compute; split; discriminate.
  - repeat constructor.
  - vm_compute. right. left. reflexivity.
  - reflexivity.
  - reflexivity.
  - intros H.
    assert (Hin : In Samples.customerC
                    (customers (data Samples.orphanWorldAfterRegistration)))
      by (vm_compute; right; left; reflexivity).
    apply H in Hin. vm_compute in Hin. destruct Hin as [_ Hin].
    discriminate (Hin eq_refl).
Qed.

(** The same on a seed ledger whose only visit carries the id the counter
    issues next ([visits.length + 1]): the equivalence holds at the start
    and after the entry scan; the exit scan closes the seed record found
    under the shared id, and the customer ends outside with her visit still
    open. *)
Example seed_id_collision_breaks_equivalence :
  insideIffOneOpen (data Samples.seedWorld)
  /\ insideIffOneOpen (data Samples.seedWorldAfterEntry)
  /\ reachable Samples.seedWorld Samples.seedWorldAfterExit
  /\ ~ insideIffOneOpen (data Samples.seedWorldAfterExit).
Proof.
  split; [|split; [|split]].
  - intros c [<-|[<-|[]]]; vm_compute; split; discriminate.
  - intros c Hin. vm_compute in Hin. destruct Hin as [<-|[<-|[]]]; vm_compute;
      split; (discriminate || reflexivity).
  - repeat constructor.
  - intros H.
    assert (Hin : In Samples.customerCAfterExit (customers (data Samples.seedWorldAfterExit)))
      by (vm_compute; left; reflexivity).
    apply H in Hin. vm_compute in Hin. destruct Hin as [_ Hin].
    discriminate (Hin eq_refl).
Qed.

Example seed_exit_closes_other_record :
  visits (data Samples.seedWorldAfterExit)
  = [mkVisit "visit002" "00000004" (Samples.t0 - 3 * MS_PER_HOUR)
       (Some (Samples.t0 + 95 * MS_PER_MINUTE)) (Some 275) ["gym"] 19675;
     mkVisit "visit002" "00000003" Samples.t0 None None ["gym"] 19675].
Proof. vm_compute. reflexivity. Qed.

Section FurtherPropertiesOfTheServicesAnyZone.

Context {zone : TimeZone}.

(** * Further properties of the services *)

(** ** More list helpers *)

Lemma find_exists {A : Type} (p : A -> bool) (l : list A) (x : A) :
  In x l -> p x = true -> exists y, find p l = Some y.
Proof.
  induction l as [|a r IH]; [intros []|].
  intros Hin Hp. cbn [find]. destruct (p a) eqn:Ha; [eauto|].
  destruct Hin as [->|Hin]; [congruence | auto].
Qed.

Lemma find_none_iff {A : Type} (p : A -> bool) (l : list A) :
  find p l = None <-> forall x, In x l -> p x = false.
Proof.
  split; [apply find_none|].
  induction l as [|a r IH]; [done|]. intros H. cbn [find].
  rewrite (H a (or_introl eq_refl)). apply IH. intros x Hx. apply H. by right.
Qed.

Lemma find_app_r {A : Type} (p : A -> bool) (l1 l2 : list A) :
  (forall x, In x l1 -> p x = false) -> find p (l1 ++ l2) = find p l2.
Proof.
  induction l1 as [|a r IH]; [done|]. intros H. cbn [app find].
  rewrite (H a (or_introl eq_refl)). apply IH. intros x Hx. apply H. by right.
Qed.

Lemma updateFirst_app_r {A : Type} (p : A -> bool) (f : A -> A) (l1 l2 : list A) :
  (forall x, In x l1 -> p x = false) ->
  updateFirst p f (l1 ++ l2) = l1 ++ updateFirst p f l2.
Proof.
  induction l1 as [|a r IH]; [done|]. intros H. cbn [app updateFirst].
  rewrite (H a (or_introl eq_refl)). f_equal. apply IH. intros x Hx. apply H. by right.
Qed.

Lemma find_filter {A : Type} (p q : A -> bool) (l : list A) :
  find p (List.filter q l) = find (fun x => q x && p x) l.
Proof.
  induction l as [|a r IH]; [done|]. cbn [List.filter find].
  destruct (q a); cbn [find andb]; [|exact IH]. by destruct (p a).
Qed.

Lemma count_zero_none {A : Type} (p : A -> bool) (l : list A) :
  List.length (List.filter p l) = 0%nat -> forall x, In x l -> p x = false.
Proof.
  induction l as [|a r IH]; [intros _ x []|].
  rewrite count_cons. intros H x [->|Hx].
  - destruct (p x); [simpl in H; lia | done].
  - apply IH; [|exact Hx]. destruct (p a); simpl in H; lia.
Qed.

(** ** Entry and exit, step by step *)

Lemma lookup_after_update (ds : DataService) (cid : string) (cv : CurrentVisit)
    (c : Customer) (vs : list Visit) (n : nat) (k : Z) :
  dataService.getCustomerById ds cid = Some c ->
  dataService.getCustomerById
    {| customers := updateFirst (dataService.hasCustomerId cid)
                      (dataService.setCurrentVisit cv) (customers ds);
       visits := vs; nextVisitId := n; nextCustomerId := k |} cid
  = Some (dataService.setCurrentVisit cv c).
Proof.
  unfold dataService.getCustomerById. cbn [customers].
  by apply find_updateFirst.
Qed.

(** What [processEntry] returns and writes for a customer on file. *)
Lemma processEntry_effect (now : Z) (w : World) (c : Customer) (p : PersonalInfo)
    (sv : option (list string)) :
  dataService.getCustomerById (data w) (customerId c) = Some c ->
  personalInfo c = Some p ->
  barcodeService.processEntry now w c sv =
    (mkOutcome true SUCCESS_MESSAGES.ENTRY_RECORDED (Some entry) (Some now) None None
       sv [] false None,
     mkWorld
       {| customers :=
            updateFirst (dataService.hasCustomerId (customerId c))
              (dataService.setCurrentVisit (mkCurrentVisit true (Some now) None))
              (customers (data w));
          visits :=
            visits (data w)
            ++ [mkVisit (dataService.makeVisitId (nextVisitId (data w))) (customerId c)
                  now None None (default ["gym"] sv) (DateUtils.dateKey now)];
          nextVisitId := S (nextVisitId (data w));
          nextCustomerId := nextCustomerId (data w) |}
       (barcodeService.addToScanHistory (scanHistory w)
          (mkScanEntry (customerId c) (customerName p) "entry" now sv None None false))).
Proof.
  intros Hc Hp. unfold barcodeService.processEntry.
  cbn [dataService.addVisit vd_customerId vd_entryTime vd_exitTime vd_duration
       vd_services vd_date default].
  unfold dataService.updateCustomerVisitStatus, dataService.getCustomerById.
  cbn [customers]. unfold dataService.getCustomerById in Hc. rewrite Hc, Hp.
  reflexivity.
Qed.

(** What [processExit] returns and writes for an inside customer on file
    whose open visit is [v]. *)
Lemma processExit_effect (now : Z) (w : World) (c : Customer) (p : PersonalInfo)
    (v : Visit) :
  dataService.getCustomerById (data w) (customerId c) = Some c ->
  personalInfo c = Some p ->
  inside c = true ->
  find (fun x => String.eqb (v_customerId x) (customerId c))
       (dataService.getCurrentVisits (data w)) = Some v ->
  barcodeService.processExit now w c =
    (mkOutcome true SUCCESS_MESSAGES.EXIT_RECORDED (Some exit)
       (currentVisit c ≫= cv_entryTime) (Some now)
       (Some (DateUtils.calculateDuration (currentVisit c ≫= cv_entryTime) now))
       None [] false None,
     mkWorld
       {| customers :=
            updateFirst (dataService.hasCustomerId (customerId c))
              (dataService.setCurrentVisit (mkCurrentVisit false None (Some now)))
              (customers (data w));
          visits :=
            updateFirst (dataService.hasVisitId (visitId v)) (dataService.closeVisit now)
              (visits (data w));
          nextVisitId := nextVisitId (data w);
          nextCustomerId := nextCustomerId (data w) |}
       (barcodeService.addToScanHistory (scanHistory w)
          (mkScanEntry (customerId c) (customerName p) "exit" now None
             (Some (DateUtils.calculateDuration (currentVisit c ≫= cv_entryTime) now))
             None false))).
Proof.
  intros Hc Hp Hin Hfind. unfold barcodeService.processExit.
  rewrite Hin. cbn [negb]. rewrite Hfind.
  destruct (find_open_visit _ _ _ Hfind) as (Hv & _ & _).
  destruct (find_exists (dataService.hasVisitId (visitId v)) _ v Hv
              (String.eqb_refl _)) as [v0 Hv0].
  unfold dataService.endVisit, dataService.getVisitById. rewrite Hv0.
  cbn [default].
  unfold dataService.updateCustomerVisitStatus, dataService.getCustomerById.
  cbn [customers]. unfold dataService.getCustomerById in Hc. rewrite Hc, Hp.
  reflexivity.
Qed.

(** On a well-formed store an inside customer has an open visit to find. *)
Lemma inside_has_open_visit (ds : DataService) (c : Customer) :
  wellFormed ds ->
  In c (customers ds) ->
  inside c = true ->
  exists v,
    find (fun x => String.eqb (v_customerId x) (customerId c))
         (dataService.getCurrentVisits ds) = Some v.
Proof.
  intros Hwf Hin Hinside.
  pose proof (wellFormed_open_count ds c Hwf Hin) as Hcount. rewrite Hinside in Hcount.
  unfold openVisitsOf in Hcount.
  destruct (List.filter (openFor (customerId c)) (visits ds)) as [|v r] eqn:E;
    [discriminate|].
  assert (Hv : In v (List.filter (openFor (customerId c)) (visits ds)))
    by (rewrite E; by left).
  apply filter_In in Hv as [Hv Hopen]. unfold openFor in Hopen.
  apply andb_true_iff in Hopen as [Ho Hid].
  apply (find_exists _ _ v); [|exact Hid].
  apply filter_In. by split.
Qed.

(** ** Manual entry and exit *)

Lemma manualEntryExit_resolved now w cid action sv c :
  cid <> "" ->
  (action = "entry" \/ action = "exit") ->
  dataService.getCustomerById (data w) cid = Some c ->
  barcodeService.manualEntryExit now w cid action sv =
    if String.eqb action "entry" then
      if inside c
      then (failure ERROR_MESSAGES.ALREADY_INSIDE (Some already_inside), w)
      else barcodeService.processEntry now w c (Some (default ["gym"] sv))
    else
      if negb (inside c)
      then (failure ERROR_MESSAGES.NOT_INSIDE (Some not_inside), w)
      else barcodeService.processExit now w c.
Proof.
  intros Hcid Hact Hc. unfold barcodeService.manualEntryExit.
  rewrite (falsy_false _ Hcid).
  assert (Ha : String.eqb action "entry" || String.eqb action "exit" = true)
    by (destruct Hact as [->| ->]; reflexivity).
  rewrite Ha. cbn [negb]. unfold customerService.getCustomerById.
  rewrite (falsy_false _ Hcid), Hc. reflexivity.
Qed.

(** X1: a manual entry for an outside customer succeeds; asking for the
    entry again is refused with [already_inside] and changes nothing. *)
Theorem manual_entry_twice (now now' : Z) (w : World) (cid : string)
    (sv sv' : option (list string)) (c : Customer) (p : PersonalInfo) :
  cid <> "" ->
  dataService.getCustomerById (data w) cid = Some c ->
  personalInfo c = Some p ->
  inside c = false ->
  let first := barcodeService.manualEntryExit now w cid "entry" sv in
  let second := barcodeService.manualEntryExit now' first.2 cid "entry" sv' in
  success first.1 = true
  /\ type first.1 = Some entry
  /\ (exists c', dataService.getCustomerById (data first.2) cid = Some c'
                 /\ inside c' = true)
  /\ success second.1 = false
  /\ type second.1 = Some already_inside
  /\ second.2 = first.2.
Proof.
  intros Hcid Hc Hp Hout first second.
  destruct (find_hasCustomerId _ _ _ Hc) as [_ Hid]. subst cid.
  assert (Hfirst : first = barcodeService.processEntry now w c (Some (default ["gym"] sv))).
  { unfold first. rewrite (manualEntryExit_resolved now w _ "entry" sv c Hcid
                             (or_introl eq_refl) Hc).
    cbn [String.eqb]. simpl. by rewrite Hout. }
  rewrite (processEntry_effect now w c p _ Hc Hp) in Hfirst.
  assert (Hc1 : dataService.getCustomerById (data first.2) (customerId c)
                = Some (dataService.setCurrentVisit (mkCurrentVisit true (Some now) None) c)).
  { rewrite Hfirst. cbn [snd data]. by apply lookup_after_update. }
  assert (Hsecond : second = (failure ERROR_MESSAGES.ALREADY_INSIDE (Some already_inside),
                              first.2)).
  { unfold second.
    by rewrite (manualEntryExit_resolved now' first.2 _ "entry" sv' _ Hcid
                  (or_introl eq_refl) Hc1). }
  rewrite Hsecond. rewrite Hfirst at 1 2. cbn [fst snd success type failure].
  split; [done|]. split; [done|]. split; [eauto|]. done.
Qed.

End FurtherPropertiesOfTheServicesAnyZone.

Lemma manual_entry_twice_witness :
  type (barcodeService.manualEntryExit Samples.t0 Samples.world "00000004" "entry" None).1
    = Some entry
  /\ type (barcodeService.manualEntryExit (Samples.t0 + 1)
             (barcodeService.manualEntryExit Samples.t0 Samples.world "00000004" "entry" None).2
             "00000004" "entry" None).1
     = Some already_inside.
Proof.
  destruct (manual_entry_twice Samples.t0 (Samples.t0 + 1) Samples.world "00000004"
              None None Samples.customerD (Samples.info "Karim" "Nabil"))
    as (_ & H1 & _ & _ & H2 & _); try reflexivity; [discriminate|].
  split; assumption.
Defined.

Section ManualEntryAndExitAnyZone.

Context {zone : TimeZone}.

(** X2: on a well-formed store a manual exit for an inside customer
    succeeds and leaves the customer outside with no open visit; asking for
    the exit again is refused with [not_inside] and changes nothing. *)
Theorem manual_exit_twice (now now' : Z) (w : World) (cid : string)
    (sv sv' : option (list string)) (c : Customer) (p : PersonalInfo) :
  wellFormed (data w) ->
  cid <> "" ->
  dataService.getCustomerById (data w) cid = Some c ->
  personalInfo c = Some p ->
  inside c = true ->
  let first := barcodeService.manualEntryExit now w cid "exit" sv in
  let second := barcodeService.manualEntryExit now' first.2 cid "exit" sv' in
  success first.1 = true
  /\ type first.1 = Some exit
  /\ dataService.getCustomerById (data first.2) cid
     = Some (dataService.setCurrentVisit (mkCurrentVisit false None (Some now)) c)
  /\ openVisitsOf (data first.2) cid = 0%nat
  /\ success second.1 = false
  /\ type second.1 = Some not_inside
  /\ second.2 = first.2.
Proof.
  intros Hwf Hcid Hc Hp Hin first second.
  destruct (find_hasCustomerId _ _ _ Hc) as [Hmem Hid]. subst cid.
  destruct (inside_has_open_visit _ _ Hwf Hmem Hin) as [v Hv].
  assert (Hfirst : first = barcodeService.processExit now w c).
  { unfold first. rewrite (manualEntryExit_resolved now w _ "exit" sv c Hcid
                             (or_intror eq_refl) Hc).
    simpl. by rewrite Hin. }
  assert (Hwf1 : wellFormed (data first.2))
    by (rewrite Hfirst; by apply processExit_wellFormed).
  rewrite (processExit_effect now w c p v Hc Hp Hin Hv) in Hfirst.
  assert (Hc1 : dataService.getCustomerById (data first.2) (customerId c)
                = Some (dataService.setCurrentVisit (mkCurrentVisit false None (Some now)) c)).
  { rewrite Hfirst. cbn [snd data]. by apply lookup_after_update. }
  assert (Hsecond : second = (failure ERROR_MESSAGES.NOT_INSIDE (Some not_inside), first.2)).
  { unfold second.
    by rewrite (manualEntryExit_resolved now' first.2 _ "exit" sv' _ Hcid
                  (or_intror eq_refl) Hc1). }
  split; [by rewrite Hfirst|]. split; [by rewrite Hfirst|]. split; [exact Hc1|].
  split.
  - destruct (find_hasCustomerId _ _ _ Hc1) as [Hmem1 _].
    pose proof (wellFormed_open_count _ _ Hwf1 Hmem1) as Hcount. exact Hcount.
  - by rewrite Hsecond.
Qed.

End ManualEntryAndExitAnyZone.

(** Well-formedness of the sample worlds. *)
Lemma sample_world_wellFormed : wellFormed (data Samples.world).
Proof.
  constructor.
  - repeat constructor; simpl; intuition discriminate.
  - constructor.
  - intros n _ [].
  - intros cid. reflexivity.
Qed.

Lemma sample_worldAfterEntry_wellFormed : wellFormed (data Samples.worldAfterEntry).
Proof. apply processBarcodeEntry_wellFormed, sample_world_wellFormed. Qed.

Lemma manual_exit_twice_witness :
  type (barcodeService.manualEntryExit (Samples.t0 + 60000) Samples.worldAfterEntry
          "00000003" "exit" None).1 = Some exit
  /\ type (barcodeService.manualEntryExit (Samples.t0 + 60001)
             (barcodeService.manualEntryExit (Samples.t0 + 60000) Samples.worldAfterEntry
                "00000003" "exit" None).2
             "00000003" "exit" None).1 = Some not_inside.
Proof.
  destruct (manual_exit_twice (Samples.t0 + 60000) (Samples.t0 + 60001)
              Samples.worldAfterEntry "00000003" None None Samples.customerCInside
              (Samples.info "Salma" "Adel"))
    as (_ & H1 & _ & _ & _ & H2 & _);
    [apply sample_worldAfterEntry_wellFormed | discriminate
    | reflexivity | reflexivity | reflexivity |].
  split; assumption.
Defined.

Section AScanInFollowedByAScanOutAnyZone.

Context {zone : TimeZone}.

(** ** A scan in followed by a scan out *)

Lemma verdict_of_membership now ds c m :
  dataService.getCustomerById ds (customerId c) = Some c ->
  membership c = Some m ->
  status m <> "suspended" ->
  DateUtils.isSubscriptionExpired now (endDate m) = false ->
  customerService.vs_isValid (customerService.validateSubscription now ds (customerId c))
  = true.
Proof.
  intros Hc Hm Hs He. rewrite (verdict_isValid now ds c m Hc Hm), He.
  apply String.eqb_neq in Hs. by rewrite Hs.
Qed.

(** X3: on a well-formed store, a scan by an eligible outside customer at
    [T0] and the next scan at [T1] are an entry and an exit; the exit reports
    [floor((T1 - T0) / 60 s)] minutes, the ledger gains exactly one visit,
    closed, carrying that same duration, and the customer is outside again. *)
Theorem scan_in_then_scan_out (T0 T1 : Z) (w : World) (barcode : string)
    (sv sv' : option (list string)) (c : Customer) (m : Membership) (p : PersonalInfo) :
  wellFormed (data w) ->
  Validators.isValid (Validators.validateBarcode barcode) = true ->
  dataService.getCustomerById (data w) (trim barcode) = Some c ->
  personalInfo c = Some p ->
  inside c = false ->
  membership c = Some m ->
  status m <> "suspended" ->
  DateUtils.isSubscriptionExpired T0 (endDate m) = false ->
  DateUtils.isSubscriptionExpired T1 (endDate m) = false ->
  let first := barcodeService.processBarcodeEntry T0 w barcode sv in
  let second := barcodeService.processBarcodeEntry T1 first.2 barcode sv' in
  type first.1 = Some entry
  /\ type second.1 = Some exit
  /\ o_duration second.1 = Some ((T1 - T0) / MS_PER_MINUTE)
  /\ visits (data second.2)
     = visits (data w)
       ++ [mkVisit (dataService.makeVisitId (nextVisitId (data w))) (customerId c) T0
             (Some T1) (Some ((T1 - T0) / MS_PER_MINUTE)) (default ["gym"] sv)
             (DateUtils.dateKey T0)]
  /\ dataService.getCustomerById (data second.2) (trim barcode)
     = Some (dataService.setCurrentVisit (mkCurrentVisit false None (Some T1)) c).
Proof.
  intros Hwf Hb Hc Hp Hout Hm Hs He0 He1 first second.
  destruct (find_hasCustomerId _ _ _ Hc) as [Hmem Hid].
  pose proof Hc as Hbc. rewrite <- Hid in Hc.
  set (nv := mkVisit (dataService.makeVisitId (nextVisitId (data w))) (customerId c) T0
               None None (default ["gym"] sv) (DateUtils.dateKey T0)).
  set (c1 := dataService.setCurrentVisit (mkCurrentVisit true (Some T0) None) c).
  (* the entry *)
  assert (Hfirst : first = barcodeService.processEntry T0 w c (Some (default ["gym"] sv))).
  { unfold first. rewrite (processBarcodeEntry_resolved T0 w barcode sv c Hb Hbc).
    cbv zeta. by rewrite (verdict_of_membership T0 (data w) c m), Hout. }
  rewrite (processEntry_effect T0 w c p _ Hc Hp) in Hfirst.
  cbn [default] in Hfirst. fold nv in Hfirst.
  assert (Hc1 : dataService.getCustomerById (data first.2) (customerId c) = Some c1).
  { rewrite Hfirst. cbn [snd data]. by apply lookup_after_update. }
  assert (Hvisits1 : visits (data first.2) = visits (data w) ++ [nv])
    by (by rewrite Hfirst).
  (* no open visit of the customer, and no visit under the new id, before *)
  assert (Hnone : forall x, In x (visits (data w)) -> openFor (customerId c) x = false).
  { apply count_zero_none.
    pose proof (wellFormed_open_count _ _ Hwf Hmem) as H0. by rewrite Hout in H0. }
  assert (Hfresh : forall x, In x (visits (data w)) ->
                     dataService.hasVisitId (visitId nv) x = false).
  { intros x Hx. unfold dataService.hasVisitId.
    destruct (String.eqb_spec (visitId x) (visitId nv)) as [E|E]; [|done].
    exfalso. apply (wf_counter _ Hwf (nextVisitId (data w)) (Nat.le_refl _)).
    change (dataService.makeVisitId (nextVisitId (data w))) with (visitId nv).
    rewrite <- E. by apply in_map. }
  assert (Hopen1 : find (fun x => String.eqb (v_customerId x) (customerId c1))
                        (dataService.getCurrentVisits (data first.2)) = Some nv).
  { unfold dataService.getCurrentVisits. rewrite Hvisits1, find_filter, find_app_r.
    - cbn [find nv dataService.isOpen exitTime v_customerId andb c1
           dataService.setCurrentVisit customerId].
      by rewrite String.eqb_refl.
    - intros x Hx. specialize (Hnone x Hx). unfold openFor in Hnone. exact Hnone. }
  (* the exit *)
  assert (Hsecond : second = barcodeService.processExit T1 first.2 c1).
  { unfold second. rewrite (processBarcodeEntry_resolved T1 first.2 barcode sv' c1 Hb).
    - cbv zeta. by rewrite (verdict_of_membership T1 (data first.2) c1 m).
    - rewrite <- Hid. exact Hc1. }
  rewrite (processExit_effect T1 first.2 c1 p nv Hc1 Hp eq_refl Hopen1) in Hsecond.
  split; [by rewrite Hfirst|]. rewrite Hsecond. cbn [fst snd type o_duration data visits].
  split; [done|]. split; [done|]. split.
  - rewrite Hvisits1, updateFirst_app_r by exact Hfresh.
    cbn [updateFirst]. unfold dataService.hasVisitId at 1.
    by rewrite String.eqb_refl.
  - rewrite <- Hid. change (customerId c) with (customerId c1).
    unfold dataService.getCustomerById. cbn [customers].
    unfold dataService.getCustomerById in Hc1.
    rewrite (find_updateFirst _ _ _ c1); [done | done | exact Hc1].
Qed.

End AScanInFollowedByAScanOutAnyZone.

Lemma scan_in_then_scan_out_witness :
  type (barcodeService.processBarcodeEntry Samples.t0 Samples.world "00000003" None).1
    = Some entry
  /\ o_duration
       (barcodeService.processBarcodeEntry (Samples.t0 + 150 * MS_PER_MINUTE)
          (barcodeService.processBarcodeEntry Samples.t0 Samples.world "00000003" None).2
          "00000003" None).1 = Some 150.
Proof.
  destruct (scan_in_then_scan_out Samples.t0 (Samples.t0 + 150 * MS_PER_MINUTE)
              Samples.world "00000003" None None Samples.customerC
              (mkMembership "monthly" (IsoDate (Samples.t0 - 5 * MS_PER_DAY))
                 (IsoDate (Samples.t0 + 30 * MS_PER_DAY)) "active" ["gym"])
              (Samples.info "Salma" "Adel"))
    as (H1 & _ & H2 & _); try reflexivity;
    [apply sample_world_wellFormed | discriminate |].
  split; [exact H1 | exact H2].
Defined.

Section AScanInFollowedByAScanOut2AnyZone.

Context {zone : TimeZone}.

(** X4: an inside customer whose open visit is missing from the ledger
    cannot leave by scan or by manual exit: the answer is [no_active_visit],
    nothing is written, and the customer stays inside. *)
Theorem exit_without_open_visit (now : Z) (w : World) (c : Customer)
    (sv : option (list string)) :
  (customerId c) <> "" ->
  dataService.getCustomerById (data w) (customerId c) = Some c ->
  inside c = true ->
  openVisitsOf (data w) (customerId c) = 0%nat ->
  barcodeService.processExit now w c
    = (failure "No active visit found" (Some no_active_visit), w)
  /\ barcodeService.manualEntryExit now w (customerId c) "exit" sv
    = (failure "No active visit found" (Some no_active_visit), w).
Proof.
  intros Hcid Hc Hin Hzero.
  assert (Hexit : barcodeService.processExit now w c
                  = (failure "No active visit found" (Some no_active_visit), w)).
  { unfold barcodeService.processExit. rewrite Hin. cbn [negb].
    unfold dataService.getCurrentVisits. rewrite find_filter.
    assert (Hnone : find (fun x => dataService.isOpen x
                                   && String.eqb (v_customerId x) (customerId c))
                         (visits (data w)) = None).
    { apply find_none_iff. by apply count_zero_none. }
    by rewrite Hnone. }
  split; [exact Hexit|].
  rewrite (manualEntryExit_resolved now w _ "exit" sv c Hcid (or_intror eq_refl) Hc).
  simpl. by rewrite Hin.
Qed.

End AScanInFollowedByAScanOut2AnyZone.

Lemma exit_without_open_visit_witness :
  barcodeService.manualEntryExit Samples.t0 Samples.ghostWorld "00000003" "exit" None
  = (failure "No active visit found" (Some no_active_visit), Samples.ghostWorld).
Proof.
  destruct (exit_without_open_visit Samples.t0 Samples.ghostWorld Samples.customerCInside
              None) as [_ H];
    [discriminate | reflexivity | reflexivity | reflexivity | exact H].
Defined.

Section EligibilityAndTheWayOutAnyZone.

Context {zone : TimeZone}.

(** ** Eligibility and the way out *)

(** X5: the scan checks eligibility before it looks at the direction, so an
    inside customer whose subscription is no longer valid is answered
    [subscription_invalid] and stays inside, although [validateCustomerAccess]
    reports [canExit] for the same barcode. *)
Theorem lapsed_member_cannot_scan_out (now : Z) (w : World) (barcode : string)
    (sv : option (list string)) (c : Customer) :
  Validators.isValid (Validators.validateBarcode barcode) = true ->
  dataService.getCustomerById (data w) (trim barcode) = Some c ->
  inside c = true ->
  customerService.vs_isValid
    (customerService.validateSubscription now (data w) (trim barcode)) = false ->
  type (barcodeService.processBarcodeEntry now w barcode sv).1 = Some subscription_invalid
  /\ (barcodeService.processBarcodeEntry now w barcode sv).2 = w
  /\ barcodeService.canExit (barcodeService.validateCustomerAccess now w barcode) = true
  /\ barcodeService.canEnter (barcodeService.validateCustomerAccess now w barcode) = false.
Proof.
  intros Hb Hc Hin Hv.
  destruct (find_hasCustomerId _ _ _ Hc) as [_ Hid].
  rewrite (processBarcodeEntry_resolved now w barcode sv c Hb Hc). cbv zeta.
  rewrite Hid, Hv. cbn [negb fst snd type].
  split; [done|]. split; [done|].
  unfold barcodeService.validateCustomerAccess. rewrite Hb. cbn [negb].
  unfold customerService.getCustomerByBarcode. rewrite Hb. cbn [negb].
  unfold customerService.getCustomerById.
  rewrite (validBarcode_trim_truthy _ Hb), Hc.
  cbn [customerService.cr_data customerService.base customerService.enrichCustomerData
       barcodeService.canExit barcodeService.canEnter].
  rewrite Hid, Hv, Hin. done.
Qed.

End EligibilityAndTheWayOutAnyZone.

Lemma lapsed_member_cannot_scan_out_witness :
  type (barcodeService.processBarcodeEntry Samples.t0 Samples.lapsedWorld "00000003" None).1
    = Some subscription_invalid
  /\ barcodeService.canExit
       (barcodeService.validateCustomerAccess Samples.t0 Samples.lapsedWorld "00000003")
     = true.
Proof.
  destruct (lapsed_member_cannot_scan_out Samples.t0 Samples.lapsedWorld "00000003" None
              Samples.lapsedInside) as (H1 & _ & H2 & _);
    [reflexivity | reflexivity | reflexivity | reflexivity |].
  split; assumption.
Defined.

Section EmergencyOverrideAndForcedExitAnyZone.

Context {zone : TimeZone}.

(** ** Emergency override and forced exit *)

Lemma processEntry_success now w c sv :
  success (barcodeService.processEntry now w c sv).1 = true ->
  type (barcodeService.processEntry now w c sv).1 = Some entry.
Proof.
  destruct (processEntry_type now w c sv) as [E|E]; [done|].
  unfold barcodeService.processEntry in *. simpl in *.
  destruct (dataService.updateCustomerVisitStatus _ _ _ _ _); [|discriminate].
  destruct (personalInfo c); [done | discriminate].
Qed.

(** X6: an emergency override lets in any customer on file who is outside,
    whatever the membership says (expired, suspended or absent): the outcome
    is a successful entry marked as override with its reason, the customer
    is inside afterwards, and the scan history gets the ordinary entry line
    followed by an [emergency_entry] line carrying the reason. *)
Theorem emergency_override_bypasses_eligibility (now : Z) (w : World)
    (cid reason : string) (c : Customer) (p : PersonalInfo) :
  cid <> "" ->
  reason <> "" ->
  dataService.getCustomerById (data w) cid = Some c ->
  personalInfo c = Some p ->
  inside c = false ->
  let result := barcodeService.emergencyOverride now w cid reason in
  success result.1 = true
  /\ type result.1 = Some entry
  /\ isEmergencyOverride result.1 = true
  /\ overrideReason result.1 = Some reason
  /\ dataService.getCustomerById (data result.2) cid
     = Some (dataService.setCurrentVisit (mkCurrentVisit true (Some now) None) c)
  /\ scanHistory result.2
     = barcodeService.addToScanHistory
         (barcodeService.addToScanHistory (scanHistory w)
            (mkScanEntry cid (customerName p) "entry" now (Some ["gym"; "spa"])
               None None false))
         (mkScanEntry cid (customerName p) "emergency_entry" now None None
            (Some reason) true).
Proof.
  intros Hcid Hreason Hc Hp Hout result.
  destruct (find_hasCustomerId _ _ _ Hc) as [_ Hid]. subst cid.
  unfold result, barcodeService.emergencyOverride.
  rewrite (falsy_false _ Hcid), (falsy_false _ Hreason). cbn [orb].
  unfold customerService.getCustomerById. rewrite (falsy_false _ Hcid), Hc.
  cbn [customerService.cr_data customerService.base customerService.enrichCustomerData].
  rewrite Hout, (processEntry_effect now w c p _ Hc Hp), Hp.
  cbn [success fst snd type isEmergencyOverride overrideReason data scanHistory
       barcodeService.actionName].
  repeat (split; [reflexivity|]).
  split; [by apply lookup_after_update | reflexivity].
Qed.

End EmergencyOverrideAndForcedExitAnyZone.

Lemma emergency_override_bypasses_eligibility_witness :
  type (barcodeService.processBarcodeEntry Samples.t0 Samples.world "00000004" None).1
    = Some subscription_invalid
  /\ type (barcodeService.emergencyOverride Samples.t0 Samples.world
             "00000004" "lost card").1 = Some entry.
Proof.
  split; [reflexivity|].
  destruct (emergency_override_bypasses_eligibility Samples.t0 Samples.world
              "00000004" "lost card" Samples.customerD (Samples.info "Karim" "Nabil"))
    as (_ & H & _);
    [discriminate | discriminate | reflexivity | reflexivity | reflexivity | exact H].
Defined.

Section EmergencyOverrideAndForcedExit2AnyZone.

Context {zone : TimeZone}.

Lemma In_insertVisitor x y l :
  In x (visitorsService.insertVisitor y l) <-> x = y \/ In x l.
Proof.
  induction l as [|a r IH]; simpl; [intuition|].
  destruct (visitorsService.sortKey y <? visitorsService.sortKey a); simpl;
    rewrite ?IH; intuition.
Qed.

Lemma In_sortVisitors x l : In x (visitorsService.sortVisitors l) <-> In x l.
Proof.
  unfold visitorsService.sortVisitors.
  induction l as [|a r IH]; simpl; [done|].
  rewrite In_insertVisitor, IH. intuition.
Qed.

(** The visitors of [getCurrentVisitors] are the inside customers, each with
    the first open visit under the customer's id. *)
Lemma In_getCurrentVisitors now ds vis :
  In vis (visitorsService.getCurrentVisitors now ds) ->
  In (visitorsService.visitor vis) (customers ds)
  /\ inside (visitorsService.visitor vis) = true
  /\ visitorsService.currentVisitData vis
     = find (fun v => String.eqb (v_customerId v) (customerId (visitorsService.visitor vis))
                      && dataService.isOpen v) (visits ds)
  /\ visitorsService.vr_entryTime vis = entryTime <$> visitorsService.currentVisitData vis
  /\ visitorsService.currentDuration vis
     = DateUtils.calculateDuration (visitorsService.vr_entryTime vis) now.
Proof.
  unfold visitorsService.getCurrentVisitors, dataService.getCurrentVisitors.
  rewrite In_sortVisitors, map_map, in_map_iff.
  intros (c & <- & Hc). apply filter_In in Hc as [Hc Hin]. cbn. auto.
Qed.

Lemma visitor_of_inside now ds c :
  In c (customers ds) -> inside c = true ->
  exists vis, In vis (visitorsService.getCurrentVisitors now ds)
              /\ visitorsService.visitor vis = c.
Proof.
  intros Hc Hin.
  unfold visitorsService.getCurrentVisitors, dataService.getCurrentVisitors.
  eexists. rewrite In_sortVisitors, map_map, in_map_iff. split.
  - exists c. split; [reflexivity|]. by apply filter_In.
  - reflexivity.
Qed.

Lemma find_ext {A : Type} (p q : A -> bool) (l : list A) :
  (forall x, p x = q x) -> find p l = find q l.
Proof.
  intros H. induction l as [|a r IH]; [done|]. cbn [find]. by rewrite H, IH.
Qed.

(** X7: on a well-formed store a forced exit of an inside customer needs
    no eligibility check: it succeeds as [force_exit] with the given reason
    (or 'Manual override'), reports the minutes since the open visit's entry,
    leaves the customer outside with no open visit, and writes nothing to the
    scan history. *)
Theorem force_exit_inside (now : Z) (w : World) (cid : string) (reason : option string)
    (c : Customer) (p : PersonalInfo) :
  wellFormed (data w) ->
  cid <> "" ->
  dataService.getCustomerById (data w) cid = Some c ->
  personalInfo c = Some p ->
  inside c = true ->
  let result := visitorsService.forceExitVisitor now w cid reason in
  success result.1 = true
  /\ type result.1 = Some force_exit
  /\ overrideReason result.1 = Some (default "Manual override" reason)
  /\ (exists v, In v (visits (data w)) /\ exitTime v = None /\ v_customerId v = cid
                /\ o_duration result.1 = Some ((now - entryTime v) / MS_PER_MINUTE))
  /\ dataService.getCustomerById (data result.2) cid
     = Some (dataService.setCurrentVisit (mkCurrentVisit false None (Some now)) c)
  /\ openVisitsOf (data result.2) cid = 0%nat
  /\ scanHistory result.2 = scanHistory w.
Proof.
  intros Hwf Hcid Hc Hp Hin result.
  destruct (find_hasCustomerId _ _ _ Hc) as [Hmem Hid]. subst cid.
  assert (Hwf' : wellFormed (data result.2)) by by apply forceExitVisitor_wellFormed.
  destruct (inside_has_open_visit _ _ Hwf Hmem Hin) as [v Hv].
  destruct (find_open_visit _ _ _ Hv) as (Hvin & Hvopen & Hvid).
  (* the visitor record found for the id is the customer's *)
  destruct (visitor_of_inside now (data w) c Hmem Hin) as (vis0 & Hvis0 & Hvis0c).
  destruct (find_exists (fun x => String.eqb (customerId (visitorsService.visitor x))
                                    (customerId c)) _ vis0 Hvis0)
    as [vis Hvis]; [rewrite Hvis0c; apply String.eqb_refl|].
  pose proof Hvis as Hfound. apply find_some in Hfound as [Hvisin Hvisid].
  apply String.eqb_eq in Hvisid.
  destruct (In_getCurrentVisitors _ _ _ Hvisin) as (Hcin & _ & Hdata & Hentry & _).
  assert (Hsame : visitorsService.visitor vis = c).
  { pose proof (find_of_NoDup _ _ (wf_customerIds _ Hwf) Hcin) as H1.
    rewrite Hvisid in H1. unfold dataService.getCustomerById in Hc. congruence. }
  assert (Hentry' : visitorsService.vr_entryTime vis = Some (entryTime v)).
  { rewrite Hentry, Hdata, Hsame.
    unfold dataService.getCurrentVisits in Hv. rewrite find_filter in Hv.
    rewrite (find_ext _ (fun x => dataService.isOpen x
                                  && String.eqb (v_customerId x) (customerId c)));
      [by rewrite Hv | intros x; apply andb_comm]. }
  destruct (find_exists (dataService.hasVisitId (visitId v)) _ v Hvin
              (String.eqb_refl _)) as [v0 Hv0].
  assert (Hres : result =
    (mkOutcome true "Visitor successfully exited" (Some force_exit) None (Some now)
       (Some ((now - entryTime v) / MS_PER_MINUTE)) None [] false
       (Some (default "Manual override" reason)),
     mkWorld
       {| customers :=
            updateFirst (dataService.hasCustomerId (customerId c))
              (dataService.setCurrentVisit (mkCurrentVisit false None (Some now)))
              (customers (data w));
          visits :=
            updateFirst (dataService.hasVisitId (visitId v)) (dataService.closeVisit now)
              (visits (data w));
          nextVisitId := nextVisitId (data w);
          nextCustomerId := nextCustomerId (data w) |}
       (scanHistory w))).
  { unfold result, visitorsService.forceExitVisitor, visitorsService.getVisitorById.
    rewrite (falsy_false _ Hcid), Hvis, Hv, Hentry', Hsame.
    unfold dataService.endVisit, dataService.getVisitById. rewrite Hv0.
    cbn [default].
    unfold dataService.updateCustomerVisitStatus, dataService.getCustomerById.
    cbn [customers]. unfold dataService.getCustomerById in Hc. rewrite Hc, Hp.
    reflexivity. }
  assert (Hc1 : dataService.getCustomerById (data result.2) (customerId c)
                = Some (dataService.setCurrentVisit (mkCurrentVisit false None (Some now)) c)).
  { rewrite Hres. cbn [snd data]. by apply lookup_after_update. }
  split; [by rewrite Hres|]. split; [by rewrite Hres|]. split; [by rewrite Hres|].
  split.
  { exists v. split; [exact Hvin|]. split.
    - unfold dataService.isOpen in Hvopen. by destruct (exitTime v).
    - split; [exact Hvid | by rewrite Hres]. }
  split; [exact Hc1|]. split; [|by rewrite Hres].
  destruct (find_hasCustomerId _ _ _ Hc1) as [Hmem1 _].
  exact (wellFormed_open_count _ _ Hwf' Hmem1).
Qed.

End EmergencyOverrideAndForcedExit2AnyZone.

Lemma force_exit_inside_witness :
  type (visitorsService.forceExitVisitor (Samples.t0 + 95 * MS_PER_MINUTE)
          Samples.worldAfterEntry "00000003" None).1 = Some force_exit
  /\ overrideReason
       (visitorsService.forceExitVisitor (Samples.t0 + 95 * MS_PER_MINUTE)
          Samples.worldAfterEntry "00000003" None).1 = Some "Manual override".
Proof.
  destruct (force_exit_inside (Samples.t0 + 95 * MS_PER_MINUTE) Samples.worldAfterEntry
              "00000003" None Samples.customerCInside (Samples.info "Salma" "Adel"))
    as (_ & H1 & H2 & _);
    [apply sample_worldAfterEntry_wellFormed | discriminate
    | reflexivity | reflexivity | reflexivity |].
  split; assumption.
Defined.

Section EmergencyOverrideAndForcedExit3AnyZone.

Context {zone : TimeZone}.

(** X8: a forced exit for an id under which no customer is inside (outside,
    or not on file) is refused and changes nothing. *)
Theorem force_exit_not_inside (now : Z) (w : World) (cid : string)
    (reason : option string) :
  (forall c, In c (customers (data w)) -> customerId c = cid -> inside c = false) ->
  success (visitorsService.forceExitVisitor now w cid reason).1 = false
  /\ (visitorsService.forceExitVisitor now w cid reason).2 = w.
Proof.
  intros Hout. unfold visitorsService.forceExitVisitor.
  destruct (falsy cid); [done|].
  assert (Hnone : visitorsService.getVisitorById now (data w) cid = None).
  { unfold visitorsService.getVisitorById. destruct (falsy cid); [done|].
    apply find_none_iff. intros vis Hvis.
    destruct (In_getCurrentVisitors _ _ _ Hvis) as (Hc & Hin & _).
    destruct (String.eqb_spec (customerId (visitorsService.visitor vis)) cid) as [E|E];
      [|done].
    rewrite (Hout _ Hc E) in Hin. discriminate. }
  by rewrite Hnone.
Qed.

End EmergencyOverrideAndForcedExit3AnyZone.

Lemma force_exit_not_inside_witness :
  (visitorsService.forceExitVisitor Samples.t0 Samples.world "00000003" None).2
  = Samples.world.
Proof.
  destruct (force_exit_not_inside Samples.t0 Samples.world "00000003" None) as [_ H];
    [|exact H].
  intros c Hc _. simpl in Hc.
  repeat (destruct Hc as [<-|Hc]; [reflexivity|]). destruct Hc.
Defined.

Section ScanHistoryAnyZone.

Context {zone : TimeZone}.

(** ** Scan history *)

Lemma addToScanHistory_suffix h e :
  exists k, (k <= List.length h)%nat
            /\ barcodeService.addToScanHistory h e = skipn k (h ++ [e])
            /\ List.length (barcodeService.addToScanHistory h e)
               = Nat.min (List.length h + 1) 100.
Proof.
  unfold barcodeService.addToScanHistory. cbv zeta.
  assert (Hlen : List.length (h ++ [e]) = (List.length h + 1)%nat)
    by (rewrite length_app; reflexivity).
  rewrite Hlen.
  destruct (100 <? List.length h + 1)%nat eqn:E.
  - apply Nat.ltb_lt in E.
    exists (List.length h + 1 - 100)%nat. split; [lia|]. split; [done|].
    rewrite length_skipn, Hlen. lia.
  - apply Nat.ltb_ge in E.
    exists 0%nat. split; [lia|]. split; [done|]. rewrite Hlen. lia.
Qed.

Lemma addToScanHistory_last h e : In e (barcodeService.addToScanHistory h e).
Proof.
  destruct (addToScanHistory_suffix h e) as (k & Hk & -> & _).
  rewrite skipn_app. apply in_or_app. right.
  replace (k - List.length h)%nat with 0%nat by lia. by left.
Qed.

Lemma addToScanHistory_Forall (P : ScanEntry -> Prop) h e :
  Forall P h -> P e -> Forall P (barcodeService.addToScanHistory h e).
Proof.
  intros Hh He. destruct (addToScanHistory_suffix h e) as (k & _ & -> & _).
  apply Forall_forall. intros x Hx.
  assert (Hin : In x (h ++ [e])).
  { rewrite <- (firstn_skipn k (h ++ [e])). apply in_or_app. by right. }
  apply in_app_or in Hin as [Hin|[<-|[]]]; [|exact He].
  rewrite Forall_forall in Hh. by apply Hh.
Qed.

Lemma processExit_success now w c :
  success (barcodeService.processExit now w c).1 = true ->
  type (barcodeService.processExit now w c).1 = Some exit.
Proof.
  unfold barcodeService.processExit.
  destruct (negb (inside c)); [discriminate|].
  destruct (find _ _); [|discriminate].
  destruct (dataService.endVisit _ _ _ _) as [[? ?]|]; [|discriminate].
  destruct (dataService.updateCustomerVisitStatus _ _ _ _ _); [|discriminate].
  by destruct (personalInfo c).
Qed.

(** What [processEntry] and [processExit] do to the scan history. *)
Lemma processEntry_history now w c sv :
  let r := barcodeService.processEntry now w c sv in
  (success r.1 = false /\ scanHistory r.2 = scanHistory w)
  \/ (success r.1 = true
      /\ exists e, scanHistory r.2 = barcodeService.addToScanHistory (scanHistory w) e
                   /\ h_customerId e = customerId c /\ h_timestamp e = now
                   /\ h_action e = "entry" /\ h_isEmergencyOverride e = false).
Proof.
  unfold barcodeService.processEntry. simpl.
  destruct (dataService.updateCustomerVisitStatus _ _ _ _ _); [|by left].
  destruct (personalInfo c); [|by left].
  right. split; [done|]. eexists. split; [reflexivity|]. done.
Qed.

Lemma processExit_history now w c :
  let r := barcodeService.processExit now w c in
  (success r.1 = false /\ scanHistory r.2 = scanHistory w)
  \/ (success r.1 = true
      /\ exists e, scanHistory r.2 = barcodeService.addToScanHistory (scanHistory w) e
                   /\ h_customerId e = customerId c /\ h_timestamp e = now
                   /\ h_action e = "exit" /\ h_isEmergencyOverride e = false).
Proof.
  unfold barcodeService.processExit.
  destruct (negb (inside c)); [by left|].
  destruct (find _ _); [|by left].
  destruct (dataService.endVisit _ _ _ _) as [[? ?]|]; [|by left].
  destruct (dataService.updateCustomerVisitStatus _ _ _ _ _); [|by left].
  destruct (personalInfo c); [|by left].
  right. split; [done|]. eexists. split; [reflexivity|]. done.
Qed.

(** X9: for some seconds after a successful scan the duplicate query
    answers true for that customer: once [processBarcodeEntry] has succeeded
    at [now], [checkForDuplicateEntry] for the scanned id is true at every
    instant less than the window (5000 ms by default) after [now]. *)
Theorem duplicate_query_after_scan (now now' : Z) (w : World) (barcode : string)
    (sv : option (list string)) (window : option Z) :
  success (barcodeService.processBarcodeEntry now w barcode sv).1 = true ->
  now' - now < default 5000 window ->
  barcodeService.checkForDuplicateEntry now'
    (barcodeService.processBarcodeEntry now w barcode sv).2 (trim barcode) window = true.
Proof.
  intros Hs Hw.
  assert (He : exists e, In e (scanHistory (barcodeService.processBarcodeEntry
                                              now w barcode sv).2)
                         /\ h_customerId e = trim barcode /\ h_timestamp e = now).
  { revert Hs. unfold barcodeService.processBarcodeEntry.
    destruct (negb (Validators.isValid _)); [discriminate|].
    unfold customerService.getCustomerByBarcode.
    destruct (negb (Validators.isValid _)); [discriminate|].
    unfold customerService.getCustomerById.
    destruct (falsy (trim barcode)); [discriminate|].
    destruct (dataService.getCustomerById (data w) (trim barcode)) as [c|] eqn:Hc;
      [|discriminate].
    cbn [customerService.cr_data customerService.base customerService.enrichCustomerData].
    destruct (find_hasCustomerId _ _ _ Hc) as [_ Hid].
    destruct (negb (customerService.vs_isValid _)); [discriminate|].
    destruct (inside c).
    - destruct (processExit_history now w c) as [[Hf _]|(_ & e & Hh & Hi & Ht & _)];
        [congruence|].
      intros _. exists e. rewrite Hh, Hi. split; [apply addToScanHistory_last | done].
    - destruct (processEntry_history now w c (Some (default ["gym"] sv)))
        as [[Hf _]|(_ & e & Hh & Hi & Ht & _)]; [congruence|].
      intros _. exists e. rewrite Hh, Hi. split; [apply addToScanHistory_last | done]. }
  destruct He as (e & Hin & Hid & Ht).
  unfold barcodeService.checkForDuplicateEntry. apply Nat.ltb_lt.
  match goal with |- (0 < List.length (List.filter ?p ?l))%nat =>
    assert (Hf : In e (List.filter p l)) end.
  { apply filter_In. split; [exact Hin|]. rewrite Hid, Ht, String.eqb_refl.
    cbn [andb]. apply Z.ltb_lt. exact Hw. }
  match goal with |- (0 < List.length ?l)%nat => destruct l; [destruct Hf | simpl; lia] end.
Qed.

End ScanHistoryAnyZone.

Lemma duplicate_query_after_scan_witness :
  barcodeService.checkForDuplicateEntry (Samples.t0 + 4999)
    (barcodeService.processBarcodeEntry Samples.t0 Samples.world "00000003" None).2
    "00000003" None = true.
Proof.
  apply (duplicate_query_after_scan Samples.t0 (Samples.t0 + 4999) Samples.world
           "00000003" None None); [reflexivity | simpl; lia].
Defined.

Section DuplicateScan.

Context {zone : TimeZone}.

Lemma recent_line_is_duplicate (now : Z) (w : World) (cid : string) (window : option Z)
    (e : ScanEntry) :
  In e (scanHistory w) ->
  h_customerId e = cid ->
  now - h_timestamp e < default 5000 window ->
  barcodeService.checkForDuplicateEntry now w cid window = true.
Proof.
  intros Hin Hid Hw. unfold barcodeService.checkForDuplicateEntry. apply Nat.ltb_lt.
  match goal with |- (0 < List.length (List.filter ?p ?l))%nat =>
    assert (Hf : In e (List.filter p l)) end.
  { apply filter_In. split; [exact Hin|]. rewrite Hid, String.eqb_refl.
    cbn [andb]. apply Z.ltb_lt. exact Hw. }
  match goal with |- (0 < List.length ?l)%nat => destruct l; [destruct Hf | simpl; lia] end.
Qed.

(** C9 (the code departs from it): the service has the duplicate test,
    [checkForDuplicateEntry], written to prevent rapid consecutive scans, but
    no scan calls it and the outcome of a scan has no member for a flag.
    When an eligible member on a well-formed store scans in at [T0] and the
    barcode is read again at [T1], less than 5000 ms later, the test answers
    true for the member, and the second scan is taken as a plain exit of zero
    minutes: its outcome is the one the same scan gets on a cleared history,
    for which the test answers false, and the member is outside again. *)
Theorem duplicate_scan_goes_unflagged (T0 T1 : Z) (w : World) (barcode : string)
    (sv sv' : option (list string)) (c : Customer) (m : Membership) (p : PersonalInfo) :
  wellFormed (data w) ->
  Validators.isValid (Validators.validateBarcode barcode) = true ->
  dataService.getCustomerById (data w) (trim barcode) = Some c ->
  personalInfo c = Some p ->
  inside c = false ->
  membership c = Some m ->
  status m <> "suspended" ->
  DateUtils.isSubscriptionExpired T0 (endDate m) = false ->
  DateUtils.isSubscriptionExpired T1 (endDate m) = false ->
  T0 <= T1 ->
  T1 - T0 < 5000 ->
  let first := barcodeService.processBarcodeEntry T0 w barcode sv in
  let second := barcodeService.processBarcodeEntry T1 first.2 barcode sv' in
  type first.1 = Some entry
  /\ barcodeService.checkForDuplicateEntry T1 first.2 (trim barcode) None = true
  /\ second.1
     = mkOutcome true SUCCESS_MESSAGES.EXIT_RECORDED (Some exit) (Some T0) (Some T1)
         (Some 0) None [] false None
  /\ second.1
     = (barcodeService.processBarcodeEntry T1 (mkWorld (data first.2) []) barcode sv').1
  /\ barcodeService.checkForDuplicateEntry T1 (mkWorld (data first.2) []) (trim barcode)
       None = false
  /\ dataService.getCustomerById (data second.2) (trim barcode)
     = Some (dataService.setCurrentVisit (mkCurrentVisit false None (Some T1)) c).
Proof.
  intros Hwf Hb Hc Hp Hout Hm Hs He0 He1 Hle Hlt first second.
  destruct (find_hasCustomerId _ _ _ Hc) as [Hmem Hid].
  pose proof Hc as Hbc. rewrite <- Hid in Hc.
  set (nv := mkVisit (dataService.makeVisitId (nextVisitId (data w))) (customerId c) T0
               None None (default ["gym"] sv) (DateUtils.dateKey T0)).
  set (c1 := dataService.setCurrentVisit (mkCurrentVisit true (Some T0) None) c).
  (* the entry *)
  assert (Hfirst : first = barcodeService.processEntry T0 w c (Some (default ["gym"] sv))).
  { unfold first. rewrite (processBarcodeEntry_resolved T0 w barcode sv c Hb Hbc).
    cbv zeta. by rewrite (verdict_of_membership T0 (data w) c m), Hout. }
  rewrite (processEntry_effect T0 w c p _ Hc Hp) in Hfirst.
  cbn [default] in Hfirst. fold nv in Hfirst.
  assert (Hc1 : dataService.getCustomerById (data first.2) (customerId c) = Some c1).
  { rewrite Hfirst. cbn [snd data]. by apply lookup_after_update. }
  assert (Hvisits1 : visits (data first.2) = visits (data w) ++ [nv])
    by (by rewrite Hfirst).
  assert (Hnone : forall x, In x (visits (data w)) -> openFor (customerId c) x = false).
  { apply count_zero_none.
    pose proof (wellFormed_open_count _ _ Hwf Hmem) as H0. by rewrite Hout in H0. }
  assert (Hopen1 : find (fun x => String.eqb (v_customerId x) (customerId c1))
                        (dataService.getCurrentVisits (data first.2)) = Some nv).
  { unfold dataService.getCurrentVisits. rewrite Hvisits1, find_filter, find_app_r.
    - cbn [find nv dataService.isOpen exitTime v_customerId andb c1
           dataService.setCurrentVisit customerId].
      by rewrite String.eqb_refl.
    - intros x Hx. specialize (Hnone x Hx). unfold openFor in Hnone. exact Hnone. }
  (* the line the entry wrote makes the second reading a duplicate *)
  assert (Hdup : barcodeService.checkForDuplicateEntry T1 first.2 (trim barcode) None
                 = true).
  { apply (recent_line_is_duplicate T1 first.2 (trim barcode) None
             (mkScanEntry (customerId c) (customerName p) "entry" T0
                (Some (default ["gym"] sv)) None None false)).
    - rewrite Hfirst. cbn [snd scanHistory]. apply addToScanHistory_last.
    - exact Hid.
    - cbn [h_timestamp default]. exact Hlt. }
  (* the second reading is the exit *)
  assert (Hsecond : second = barcodeService.processExit T1 first.2 c1).
  { unfold second. rewrite (processBarcodeEntry_resolved T1 first.2 barcode sv' c1 Hb).
    - cbv zeta. by rewrite (verdict_of_membership T1 (data first.2) c1 m).
    - rewrite <- Hid. exact Hc1. }
  rewrite (processExit_effect T1 first.2 c1 p nv Hc1 Hp eq_refl Hopen1) in Hsecond.
  assert (Hzero : DateUtils.calculateDuration (currentVisit c1 ≫= cv_entryTime) T1 = 0).
  { cbn. apply Z.div_small. unfold MS_PER_MINUTE. lia. }
  rewrite Hzero in Hsecond.
  assert (Hout2 : second.1
                  = mkOutcome true SUCCESS_MESSAGES.EXIT_RECORDED (Some exit) (Some T0)
                      (Some T1) (Some 0) None [] false None)
    by (by rewrite Hsecond).
  split; [by rewrite Hfirst|]. split; [exact Hdup|]. split; [exact Hout2|].
  split; [|split].
  - unfold second. destruct first.2 as [ds1 h1]. cbn [data].
    apply processBarcodeEntry_history_blind.
  - reflexivity.
  - rewrite Hsecond. cbn [snd data]. rewrite <- Hid.
    change (customerId c) with (customerId c1).
    unfold dataService.getCustomerById. cbn [customers].
    unfold dataService.getCustomerById in Hc1.
    rewrite (find_updateFirst _ _ _ c1); [done | done | exact Hc1].
Qed.

End DuplicateScan.

Lemma duplicate_scan_goes_unflagged_witness :
  barcodeService.checkForDuplicateEntry (Samples.t0 + 1000) Samples.worldAfterEntry
    "00000003" None = true
  /\ (barcodeService.processBarcodeEntry (Samples.t0 + 1000) Samples.worldAfterEntry
        "00000003" None).1
     = mkOutcome true "Exit recorded successfully" (Some exit)
         (Some Samples.t0) (Some (Samples.t0 + 1000)) (Some 0) None [] false None.
Proof.
  destruct (duplicate_scan_goes_unflagged Samples.t0 (Samples.t0 + 1000)
              Samples.world "00000003" None None Samples.customerC
              (mkMembership "monthly" (IsoDate (Samples.t0 - 5 * MS_PER_DAY))
                 (IsoDate (Samples.t0 + 30 * MS_PER_DAY)) "active" ["gym"])
              (Samples.info "Salma" "Adel"))
    as (_ & H1 & H2 & _);
    [apply sample_world_wellFormed | reflexivity | reflexivity | reflexivity
    | reflexivity | reflexivity | discriminate | reflexivity | reflexivity
    | lia | lia |].
  split; [exact H1 | exact H2].
Defined.

Section ScanHistory2AnyZone.

Context {zone : TimeZone}.

(** Every operation leaves the scan history alone or appends one or two
    lines stamped with the instant of the call. *)
Lemma run_history now op w :
  exists es, Forall (loggedAt now) es
             /\ scanHistory (run now op w)
                = fold_left barcodeService.addToScanHistory es (scanHistory w).
Proof.
  assert (Hentry : forall c sv, exists es, Forall (loggedAt now) es
            /\ scanHistory (barcodeService.processEntry now w c sv).2
               = fold_left barcodeService.addToScanHistory es (scanHistory w)).
  { intros c sv.
    destruct (processEntry_history now w c sv)
      as [[_ H]|(_ & e & H & _ & Ht & Ha & Hf)].
    - exists []. by split.
    - exists [e]. split; [|exact H]. constructor; [|constructor].
      split; [exact Ht|]. left. split; [by left | exact Hf]. }
  assert (Hexit : forall c, exists es, Forall (loggedAt now) es
            /\ scanHistory (barcodeService.processExit now w c).2
               = fold_left barcodeService.addToScanHistory es (scanHistory w)).
  { intros c.
    destruct (processExit_history now w c) as [[_ H]|(_ & e & H & _ & Ht & Ha & Hf)].
    - exists []. by split.
    - exists [e]. split; [|exact H]. constructor; [|constructor].
      split; [exact Ht|]. left. split; [by right | exact Hf]. }
  assert (Hsame : exists es, Forall (loggedAt now) es
            /\ scanHistory w = fold_left barcodeService.addToScanHistory es (scanHistory w))
    by (exists []; by split).
  destruct op as [barcode sv|cid action sv|cid reason|cid reason|customerData];
    cbn [run].
  - unfold barcodeService.processBarcodeEntry.
    destruct (negb (Validators.isValid _)); [exact Hsame|].
    destruct (customerService.cr_data _) as [enriched|]; [|exact Hsame].
    destruct (negb (customerService.vs_isValid _)); [exact Hsame|].
    destruct (inside _); [apply Hexit | apply Hentry].
  - unfold barcodeService.manualEntryExit.
    destruct (falsy cid); [exact Hsame|].
    destruct (negb _); [exact Hsame|].
    destruct (customerService.cr_data _) as [enriched|]; [|exact Hsame].
    destruct (String.eqb action "entry").
    + destruct (inside _); [exact Hsame | apply Hentry].
    + destruct (negb (inside _)); [exact Hsame | apply Hexit].
  - unfold barcodeService.emergencyOverride.
    destruct (falsy cid || falsy reason); [exact Hsame|].
    destruct (customerService.cr_data _) as [enriched|]; [|exact Hsame].
    set (c := customerService.base enriched).
    assert (H1 : exists es, Forall (loggedAt now) es
              /\ scanHistory (if inside c then barcodeService.processExit now w c
                              else barcodeService.processEntry now w c
                                     (Some ["gym"; "spa"])).2
                 = fold_left barcodeService.addToScanHistory es (scanHistory w)
              /\ (success (if inside c then barcodeService.processExit now w c
                           else barcodeService.processEntry now w c
                                  (Some ["gym"; "spa"])).1 = true ->
                  In (type (if inside c then barcodeService.processExit now w c
                            else barcodeService.processEntry now w c
                                   (Some ["gym"; "spa"])).1) [Some entry; Some exit])).
    { destruct (inside c).
      - destruct (Hexit c) as (es & Hes & Hh). exists es. split; [done|]. split; [done|].
        intros Hs. rewrite (processExit_success _ _ _ Hs). simpl. tauto.
      - destruct (Hentry c (Some ["gym"; "spa"])) as (es & Hes & Hh).
        exists es. split; [done|]. split; [done|].
        intros Hs. rewrite (processEntry_success _ _ _ _ Hs). simpl. tauto. }
    destruct H1 as (es & Hes & Hh & Ht).
    destruct (if inside c then _ else _) as [result w1]. cbn [fst snd] in *.
    destruct (success result); [|eauto].
    destruct (personalInfo c); [|eauto].
    eexists (es ++ [_]). split; cycle 1.
    + cbn [snd scanHistory]. rewrite fold_left_app, Hh. reflexivity.
    + apply Forall_app. split; [exact Hes|]. constructor; [|constructor].
      split; [reflexivity|]. right. cbn [h_action h_isEmergencyOverride].
      split; [|reflexivity].
      destruct (Ht eq_refl) as [<-|[<-|[]]]; simpl; tauto.
  - unfold visitorsService.forceExitVisitor.
    destruct (falsy cid); [exact Hsame|].
    destruct (visitorsService.getVisitorById _ _ _); [|exact Hsame].
    destruct (find _ _); [|exact Hsame].
    destruct (dataService.endVisit _ _ _ _) as [[? ?]|]; [|exact Hsame].
    destruct (dataService.updateCustomerVisitStatus _ _ _ _ _); [|exact Hsame].
    destruct (personalInfo _); exact Hsame.
  - exact Hsame.
Qed.

Lemma fold_addToScanHistory_bound es h :
  (List.length h <= 100)%nat ->
  (List.length (fold_left barcodeService.addToScanHistory es h) <= 100)%nat.
Proof.
  revert h. induction es as [|e es IH]; intros h Hh; [exact Hh|].
  cbn [fold_left]. apply IH.
  destruct (addToScanHistory_suffix h e) as (_ & _ & _ & ->). lia.
Qed.

Lemma fold_addToScanHistory_Forall (P : ScanEntry -> Prop) es h :
  Forall P h -> Forall P es ->
  Forall P (fold_left barcodeService.addToScanHistory es h).
Proof.
  revert h. induction es as [|e es IH]; intros h Hh Hes; [exact Hh|].
  cbn [fold_left]. inversion Hes; subst. apply IH; [|assumption].
  by apply addToScanHistory_Forall.
Qed.

(** X10: the scan history never holds more than 100 lines: from a history
    within the bound (the empty one of a fresh service) every operation
    leads to a history within the bound. *)
Theorem scan_history_bounded (w0 w : World) :
  (List.length (scanHistory w0) <= 100)%nat ->
  reachable w0 w ->
  (List.length (scanHistory w) <= 100)%nat.
Proof.
  intros H0 Hreach. induction Hreach as [|w now op _ IH]; [exact H0|].
  destruct (run_history now op w) as (es & _ & ->).
  by apply fold_addToScanHistory_bound.
Qed.

End ScanHistory2AnyZone.

Lemma scan_history_bounded_witness :
  (List.length (scanHistory Samples.worldAfterEntry) <= 100)%nat.
Proof.
  apply (scan_history_bounded Samples.world).
  - simpl. lia.
  - apply (reachable_step _ _ Samples.t0 (Scan "00000003" None)). constructor.
Defined.

Section ScanHistory3AnyZone.

Context {zone : TimeZone}.

(** X11: [getScanHistory(limit)] with a positive limit returns the [limit]
    most recent lines, newest first (all of them when there are fewer); with
    limit 0 it returns the whole history, newest first, not an empty list. *)
Theorem getScanHistory_most_recent_first (w : World) (limit : nat) :
  barcodeService.getScanHistory w (Some limit)
  = (if Nat.eqb limit 0 then rev (scanHistory w)
     else firstn limit (rev (scanHistory w)))
  /\ List.length (barcodeService.getScanHistory w (Some limit))
     = (if Nat.eqb limit 0 then List.length (scanHistory w)
        else Nat.min limit (List.length (scanHistory w))).
Proof.
  unfold barcodeService.getScanHistory. simpl default.
  destruct (Nat.eqb limit 0).
  - split; [reflexivity|]. by rewrite length_rev.
  - rewrite <- firstn_rev. split; [reflexivity|].
    by rewrite length_firstn, length_rev.
Qed.

Lemma logged_partition (l : list ScanEntry) :
  Forall logged l ->
  List.length l
  = (List.length (List.filter (fun scan => String.eqb (h_action scan) "entry") l)
     + List.length (List.filter (fun scan => String.eqb (h_action scan) "exit") l)
     + List.length (List.filter h_isEmergencyOverride l))%nat.
Proof.
  induction 1 as [|e l He _ IH]; [reflexivity|].
  rewrite !count_cons. cbn [List.length]. rewrite IH.
  destruct He as [_ [[[Ha|Ha] Hf]|[[Ha|Ha] Hf]]]; rewrite Ha, Hf; simpl; lia.
Qed.

(** X12: in the scan statistics of a day every line of that day is counted
    exactly once, as an entry, an exit or an emergency override, on every
    history written by the services; an emergency override contributes its
    ordinary line and its override line. *)
Theorem scan_statistics_partition (w0 w : World) (now : Z) (date : option Z) :
  Forall logged (scanHistory w0) ->
  reachable w0 w ->
  let stats := barcodeService.getScanStatistics now w date in
  barcodeService.totalScans stats
  = (barcodeService.st_entries stats + barcodeService.st_exits stats
     + barcodeService.emergencyOverrides stats)%nat
  /\ barcodeService.st_currentlyInside stats
     = Z.of_nat (barcodeService.st_entries stats) - Z.of_nat (barcodeService.st_exits stats).
Proof.
  intros H0 Hreach.
  assert (Hall : Forall logged (scanHistory w)).
  { induction Hreach as [|w now' op _ IH]; [exact H0|].
    destruct (run_history now' op w) as (es & Hes & ->).
    apply fold_addToScanHistory_Forall; [exact IH|].
    eapply Forall_impl; [|exact Hes]. intros e [Ht He]. unfold logged, loggedAt.
    by split. }
  split; [|reflexivity].
  cbn [barcodeService.getScanStatistics barcodeService.totalScans barcodeService.st_entries
       barcodeService.st_exits barcodeService.emergencyOverrides].
  apply logged_partition.
  apply Forall_forall. intros e He. apply filter_In in He as [He _].
  rewrite Forall_forall in Hall. by apply Hall.
Qed.

End ScanHistory3AnyZone.

Lemma scan_statistics_partition_witness :
  barcodeService.totalScans
    (barcodeService.getScanStatistics Samples.t0
       (run Samples.t0 (EmergencyOverride "00000004" "lost card") Samples.world) None)
  = 2%nat.
Proof.
  destruct (scan_statistics_partition Samples.world
              (run Samples.t0 (EmergencyOverride "00000004" "lost card") Samples.world)
              Samples.t0 None) as [H _];
    [constructor | apply reachable_step; constructor |].
  rewrite H. reflexivity.
Defined.

Section HourlyAndServiceTalliesAnyZone.

Context {zone : TimeZone}.

(** ** Hourly and service tallies *)

Lemma getHours_lt ts : (DateUtils.getHours ts < 24)%nat.
Proof.
  unfold DateUtils.getHours.
  pose proof (Z.mod_pos_bound (ts / MS_PER_HOUR) 24 ltac:(lia)). lia.
Qed.

Lemma alter_countEntry_sums (l : list dataService.HourStat) (i : nat) :
  (i < List.length l)%nat ->
  list_sum (map dataService.entries (alter dataService.countEntry i l))
    = S (list_sum (map dataService.entries l))
  /\ list_sum (map dataService.exits (alter dataService.countEntry i l))
     = list_sum (map dataService.exits l).
Proof.
  revert i. induction l as [|x l IH]; intros i Hi; [simpl in Hi; lia|].
  destruct i as [|i]; simpl.
  - split; reflexivity.
  - simpl in Hi. destruct (IH i ltac:(lia)) as [H1 H2].
    change (list_alter dataService.countEntry i l)
      with (alter dataService.countEntry i l).
    rewrite H1, H2. split; lia.
Qed.

Lemma alter_countExit_sums (l : list dataService.HourStat) (i : nat) :
  (i < List.length l)%nat ->
  list_sum (map dataService.entries (alter dataService.countExit i l))
    = list_sum (map dataService.entries l)
  /\ list_sum (map dataService.exits (alter dataService.countExit i l))
     = S (list_sum (map dataService.exits l)).
Proof.
  revert i. induction l as [|x l IH]; intros i Hi; [simpl in Hi; lia|].
  destruct i as [|i]; simpl.
  - split; reflexivity.
  - simpl in Hi. destruct (IH i ltac:(lia)) as [H1 H2].
    change (list_alter dataService.countExit i l)
      with (alter dataService.countExit i l).
    rewrite H1, H2. split; lia.
Qed.

(** X13: the hourly table of a day accounts for every visit of the day: the
    entries of the 24 hours add up to [totalVisits], the exits to
    [completedVisits], so the net flows add up to [currentlyInside], which is
    the number of the day's visits that are still open. *)
Theorem hourly_table_accounts_for_visits (ds : DataService) (d : Z) :
  let hourly := dataService.getHourlyVisitStats ds d in
  let stats := dataService.getVisitStatsByDate ds d in
  list_sum (map dataService.entries hourly) = dataService.totalVisits stats
  /\ list_sum (map dataService.exits hourly) = dataService.completedVisits stats
  /\ dataService.totalVisits stats
     = (dataService.completedVisits stats + dataService.currentlyInside stats)%nat
  /\ dataService.currentlyInside stats
     = List.length (List.filter dataService.isOpen (dataService.getVisitsByDate ds d)).
Proof.
  cbv zeta. unfold dataService.getHourlyVisitStats, dataService.getVisitStatsByDate.
  cbn [dataService.totalVisits dataService.completedVisits dataService.currentlyInside].
  generalize (dataService.getVisitsByDate ds d). intros vs.
  assert (Hfold : forall acc, List.length acc = 24%nat ->
            let r := fold_left
                       (fun hourlyStats visit =>
                          let withEntry :=
                            alter dataService.countEntry
                              (DateUtils.getHours (entryTime visit)) hourlyStats in
                          match exitTime visit with
                          | Some t => alter dataService.countExit (DateUtils.getHours t)
                                        withEntry
                          | None => withEntry
                          end) vs acc in
            list_sum (map dataService.entries r)
              = (list_sum (map dataService.entries acc) + List.length vs)%nat
            /\ list_sum (map dataService.exits r)
               = (list_sum (map dataService.exits acc)
                  + List.length (List.filter (fun v => negb (dataService.isOpen v)) vs))%nat).
  { induction vs as [|v vs IH]; intros acc Hacc; [simpl; lia|].
    cbn [fold_left]. cbv zeta.
    pose proof (getHours_lt (entryTime v)) as Hh.
    destruct (alter_countEntry_sums acc (DateUtils.getHours (entryTime v)) ltac:(lia))
      as [He1 He2].
    rewrite count_cons. unfold dataService.isOpen at 1.
    destruct (exitTime v) as [t|].
    - pose proof (getHours_lt t) as Ht.
      destruct (alter_countExit_sums
                  (alter dataService.countEntry (DateUtils.getHours (entryTime v)) acc)
                  (DateUtils.getHours t) ltac:(rewrite length_alter; lia)) as [Hx1 Hx2].
      destruct (IH (alter dataService.countExit (DateUtils.getHours t)
                      (alter dataService.countEntry (DateUtils.getHours (entryTime v)) acc)))
        as [H1 H2]; [by rewrite !length_alter|].
      cbv zeta in H1, H2. rewrite H1, H2, Hx1, Hx2, He1, He2. simpl. lia.
    - destruct (IH (alter dataService.countEntry (DateUtils.getHours (entryTime v)) acc))
        as [H1 H2]; [by rewrite length_alter|].
      cbv zeta in H1, H2. rewrite H1, H2, He1, He2. simpl. lia. }
  destruct (Hfold (replicate 24 (dataService.mkHourStat 0 0)) eq_refl) as [H1 H2].
  cbv zeta in H1, H2.
  assert (Hpart : List.length vs
                  = (List.length (List.filter (fun v => negb (dataService.isOpen v)) vs)
                     + List.length (List.filter dataService.isOpen vs))%nat).
  { clear. induction vs as [|v vs IH]; [done|]. rewrite !count_cons. cbn [List.length].
    destruct (dataService.isOpen v); simpl; lia. }
  split; [exact H1|]. split; [exact H2|]. split; lia.
Qed.

Lemma tallyServices_total stats v :
  let stats' := dataService.tallyServices stats v in
  (dataService.gym stats' + dataService.spa stats' + dataService.both stats')%nat
  = (dataService.gym stats + dataService.spa stats + dataService.both stats
     + if dataService.includes "gym" (services v) || dataService.includes "spa" (services v)
       then 1 else 0)%nat
  /\ dataService.both stats'
     = (dataService.both stats
        + if dataService.includes "gym" (services v) && dataService.includes "spa" (services v)
          then 1 else 0)%nat.
Proof.
  unfold dataService.tallyServices.
  destruct (dataService.includes "gym" (services v)),
           (dataService.includes "spa" (services v)); simpl; lia.
Qed.

Lemma fold_tallyServices (vs : list Visit) (acc : dataService.ServiceStats) :
  let stats := fold_left dataService.tallyServices vs acc in
  (dataService.gym stats + dataService.spa stats + dataService.both stats)%nat
  = (dataService.gym acc + dataService.spa acc + dataService.both acc
     + List.length (List.filter
                      (fun v => dataService.includes "gym" (services v)
                                || dataService.includes "spa" (services v)) vs))%nat
  /\ dataService.both stats
     = (dataService.both acc
        + List.length (List.filter
                         (fun v => dataService.includes "gym" (services v)
                                   && dataService.includes "spa" (services v)) vs))%nat.
Proof.
  revert acc. induction vs as [|v vs IH]; intros acc; [simpl; lia|].
  cbn [fold_left]. destruct (IH (dataService.tallyServices acc v)) as [H1 H2].
  cbv zeta in *. rewrite H1, H2, !count_cons.
  destruct (tallyServices_total acc v) as [T1 T2]. cbv zeta in T1, T2.
  rewrite T1, T2. split; lia.
Qed.

(** X14: the service tally of a day counts each visit at most once: gym,
    spa and both add up to the number of the day's visits that use the gym or
    the spa, [both] being those that use the two; a visit with neither
    service is in no bucket, so the three add up to [totalVisits] exactly
    when every visit of the day names the gym or the spa. *)
Theorem service_tally_counts_once (ds : DataService) (d : Z) :
  let stats := dataService.getServiceStats ds d in
  let visits := dataService.getVisitsByDate ds d in
  (dataService.gym stats + dataService.spa stats + dataService.both stats)%nat
  = List.length (List.filter
                   (fun v => dataService.includes "gym" (services v)
                             || dataService.includes "spa" (services v)) visits)
  /\ dataService.both stats
     = List.length (List.filter
                      (fun v => dataService.includes "gym" (services v)
                                && dataService.includes "spa" (services v)) visits)
  /\ (dataService.gym stats + dataService.spa stats + dataService.both stats
      <= dataService.totalVisits (dataService.getVisitStatsByDate ds d))%nat
  /\ statisticsService.calculateServiceStats visits = stats.
Proof.
  cbv zeta. unfold dataService.getServiceStats.
  destruct (fold_tallyServices (dataService.getVisitsByDate ds d)
              (dataService.mkServiceStats 0 0 0)) as [H1 H2].
  cbv zeta in H1, H2. simpl in H1, H2.
  split; [exact H1|]. split; [exact H2|]. split; [|reflexivity].
  rewrite H1. cbn [dataService.getVisitStatsByDate dataService.totalVisits].
  apply filter_length_le.
Qed.

(** ** Peaks: which maximum wins *)

Section LastMaximum.

Variable f : nat -> nat.

Let pick (a b : nat) : nat := if (f b <? f a)%nat then a else b.

(** The reduce of [calculatePeakScanningHour] over ascending keys keeps the
    latest key of maximal count. *)
Lemma reduce_last_maximum (ks : list nat) (a : nat) :
  StronglySorted lt (a :: ks) ->
  let r := fold_left pick ks a in
  In r (a :: ks)
  /\ (forall x, In x (a :: ks) -> (f x <= f r)%nat)
  /\ (forall x, In x (a :: ks) -> (r < x)%nat -> (f x < f r)%nat).
Proof.
  revert a. induction ks as [|b ks IH]; intros a Hs.
  - simpl. split; [by left|]. split; intros x [<-|[]]; lia.
  - cbn [fold_left]. apply StronglySorted_inv in Hs as [Hs Ha].
    pose proof Hs as Hs'. apply StronglySorted_inv in Hs' as [Hks Hb].
    rewrite Forall_forall in Ha, Hb.
    change (pick a b) with (if (f b <? f a)%nat then a else b).
    destruct (f b <? f a)%nat eqn:E.
    + apply Nat.ltb_lt in E.
      assert (Hsa : StronglySorted lt (a :: ks)).
      { constructor; [exact Hks|]. apply Forall_forall. intros x Hx. apply Ha. by right. }
      destruct (IH a Hsa) as (Hin & Hmax & Hlast). cbv zeta in *.
      split; [destruct Hin as [<-|Hin]; [by left | right; by right]|].
      pose proof (Hmax a (or_introl eq_refl)) as Har.
      split.
      * intros x [<-|[<-|Hx]]; [lia | lia | apply Hmax; by right].
      * intros x [<-|[<-|Hx]] Hlt; [apply Hlast; [by left | done] | lia
                                   | apply Hlast; [by right | done]].
    + apply Nat.ltb_ge in E.
      destruct (IH b Hs) as (Hin & Hmax & Hlast). cbv zeta in *.
      split; [by right|].
      pose proof (Hmax b (or_introl eq_refl)) as Hbr.
      split.
      * intros x [<-|Hx]; [lia | by apply Hmax].
      * intros x [<-|Hx] Hlt; [|by apply Hlast].
        exfalso. destruct Hin as [Heq|Hin].
        -- specialize (Ha b (or_introl eq_refl)). lia.
        -- specialize (Ha b (or_introl eq_refl)). specialize (Hb _ Hin). lia.
Qed.

End LastMaximum.

Lemma seq_StronglySorted start len : StronglySorted lt (seq start len).
Proof.
  revert start. induction len as [|len IH]; intros start; simpl; constructor; [apply IH|].
  apply Forall_forall. intros x Hx. apply in_seq in Hx. lia.
Qed.

Lemma filter_StronglySorted (p : nat -> bool) (l : list nat) :
  StronglySorted lt l -> StronglySorted lt (List.filter p l).
Proof.
  induction 1 as [|a l Hl IH Ha]; simpl; [constructor|].
  destruct (p a); [|exact IH]. constructor; [exact IH|].
  rewrite Forall_forall in *. intros x Hx. apply filter_In in Hx as [Hx _]. auto.
Qed.

Lemma hourCountsOf_length scans : List.length (barcodeService.hourCountsOf scans) = 24%nat.
Proof.
  unfold barcodeService.hourCountsOf.
  assert (H : List.length (replicate 24 0%nat) = 24%nat) by reflexivity.
  revert H. generalize (replicate 24 0%nat). induction scans as [|s scans IH];
    intros l H; [exact H|].
  cbn [fold_left]. apply IH. by rewrite length_alter.
Qed.

Lemma alter_S_sum (l : list nat) (i : nat) :
  (i < List.length l)%nat -> list_sum (alter S i l) = S (list_sum l).
Proof.
  revert i. induction l as [|x l IH]; intros i Hi; [simpl in Hi; lia|].
  destruct i as [|i]; [reflexivity|]. simpl in *.
  change (list_alter S i l) with (alter S i l). rewrite IH; lia.
Qed.

Lemma hourCountsOf_sum scans :
  list_sum (barcodeService.hourCountsOf scans) = List.length scans.
Proof.
  unfold barcodeService.hourCountsOf.
  enough (G : forall l, List.length l = 24%nat ->
                list_sum (fold_left
                            (fun hourCounts scan =>
                               alter S (DateUtils.getHours (h_timestamp scan)) hourCounts)
                            scans l)
                = (list_sum l + List.length scans)%nat)
    by (rewrite (G (replicate 24 0%nat) eq_refl); reflexivity).
  induction scans as [|s scans IH]; intros l Hl; [simpl; lia|].
  cbn [fold_left]. rewrite IH by (by rewrite length_alter).
  pose proof (getHours_lt (h_timestamp s)).
  rewrite alter_S_sum by lia. simpl. lia.
Qed.

Lemma In_hourKeys (counts : list nat) (h : nat) :
  In h (barcodeService.hourKeys counts)
  <-> (h < List.length counts)%nat /\ (0 < counts !!! h)%nat.
Proof.
  unfold barcodeService.hourKeys. rewrite filter_In, in_seq, Nat.ltb_lt. lia.
Qed.

Lemma list_sum_zero (l : list nat) :
  (forall h, (h < List.length l)%nat -> l !!! h = 0%nat) -> list_sum l = 0%nat.
Proof.
  induction l as [|x l IH]; [done|]. intros H. simpl.
  rewrite (IH (fun h Hh => H (S h) ltac:(simpl; lia))).
  specialize (H 0%nat ltac:(simpl; lia)). simpl in H. lia.
Qed.

(** X15: the peak scanning hour of a set of scans is an hour 0..23 whose
    count is maximal, and among hours of maximal count the latest one: every
    later hour has strictly fewer scans.  Without scans the hour is [null]
    and the count 0. *)
Theorem peak_scanning_hour_latest_maximum (scans : list ScanEntry) :
  let counts := barcodeService.hourCountsOf scans in
  let peak := barcodeService.calculatePeakScanningHour scans in
  (scans = [] -> peak = barcodeService.mkPeakScanningHour None 0)
  /\ (scans <> [] ->
      exists h,
        barcodeService.ps_hour peak = Some h
        /\ (h < 24)%nat
        /\ barcodeService.ps_count peak = counts !!! h
        /\ (0 < counts !!! h)%nat
        /\ (forall h', (h' < 24)%nat -> (counts !!! h' <= counts !!! h)%nat)
        /\ (forall h', (h' < 24)%nat -> (h < h')%nat -> (counts !!! h' < counts !!! h)%nat)).
Proof.
  cbv zeta. split; [by intros ->|]. intros Hne.
  pose proof (hourCountsOf_length scans) as Hlen.
  pose proof (hourCountsOf_sum scans) as Hsum.
  unfold barcodeService.calculatePeakScanningHour.
  set (counts := barcodeService.hourCountsOf scans) in *.
  pose proof (filter_StronglySorted (fun h => (0 <? counts !!! h)%nat) _
                (seq_StronglySorted 0 (List.length counts))) as Hsorted.
  change (List.filter _ _) with (barcodeService.hourKeys counts) in Hsorted.
  destruct (barcodeService.hourKeys counts) as [|k ks] eqn:Hkeys.
  - exfalso. assert (Hz : list_sum counts = 0%nat).
    { apply list_sum_zero. intros h Hh.
      destruct (counts !!! h) eqn:E; [done|]. exfalso.
      assert (Hin : In h (barcodeService.hourKeys counts))
        by (apply In_hourKeys; lia).
      rewrite Hkeys in Hin. destruct Hin. }
    rewrite Hz in Hsum. destruct scans; [done | discriminate].
  - destruct (reduce_last_maximum (fun h => counts !!! h) ks k Hsorted)
      as (Hin & Hmax & Hlast). cbv zeta in *.
    set (r := fold_left _ ks k) in *.
    rewrite <- Hkeys in Hin, Hmax, Hlast.
    apply In_hourKeys in Hin as [Hr Hpos]. rewrite Hlen in Hr.
    exists r. cbn [barcodeService.ps_hour barcodeService.ps_count].
    split; [done|]. split; [done|]. split; [done|]. split; [done|]. split.
    + intros h' Hh'. destruct (counts !!! h') eqn:E; [lia|]. rewrite <- E.
      apply Hmax, In_hourKeys. lia.
    + intros h' Hh' Hlt. destruct (counts !!! h') eqn:E; [lia|]. rewrite <- E.
      apply Hlast; [apply In_hourKeys; lia | done].
Qed.

End HourlyAndServiceTalliesAnyZone.

Lemma peak_scanning_hour_latest_maximum_witness :
  exists h,
    barcodeService.ps_hour (barcodeService.calculatePeakScanningHour Samples.twoScans)
    = Some h
    /\ (h < 24)%nat.
Proof.
  destruct (peak_scanning_hour_latest_maximum Samples.twoScans) as [_ H].
  destruct (H ltac:(discriminate)) as (h & Hh & Hlt & _).
  exists h. split; [exact Hh | exact Hlt].
Defined.

Section ACustomerSStatisticsAnyZone.

Context {zone : TimeZone}.

(** ** A customer's statistics *)

Lemma filter_negb_partition {A} (p : A -> bool) (l : list A) :
  List.length l
  = (List.length (List.filter (fun x => negb (p x)) l) + List.length (List.filter p l))%nat.
Proof.
  induction l as [|x l IH]; [done|]. rewrite !count_cons. cbn [List.length].
  destruct (p x); simpl; lia.
Qed.

(** X16: in a customer's statistics the most used service is a bucket of
    maximal count, and a tie goes to the later of gym, spa, both: gym wins
    only when strictly ahead of the two others, spa only when strictly ahead
    of both, so a customer without any visit is reported with 'both'.  The
    three buckets count each visit at most once, and the visits are the
    completed ones plus the open ones. *)
Theorem customer_statistics_most_used (ds : DataService) (cid : string)
    (st : customerService.CustomerStatistics) :
  customerService.getCustomerStatistics ds cid = Some st ->
  let u := customerService.serviceUsage st in
  let m := customerService.mostUsedService st in
  (forall k, In k ["gym"; "spa"; "both"] ->
             (customerService.usageOf u k <= customerService.usageOf u m)%nat)
  /\ (m = "gym" /\ (dataService.spa u < dataService.gym u)%nat
                /\ (dataService.both u < dataService.gym u)%nat
      \/ m = "spa" /\ (dataService.gym u <= dataService.spa u)%nat
                   /\ (dataService.both u < dataService.spa u)%nat
      \/ m = "both" /\ (dataService.gym u <= dataService.both u)%nat
                    /\ (dataService.spa u <= dataService.both u)%nat)
  /\ (customerService.cs_totalVisits st = 0%nat -> m = "both")
  /\ (dataService.gym u + dataService.spa u + dataService.both u
      <= customerService.cs_totalVisits st)%nat
  /\ customerService.cs_totalVisits st
     = (customerService.cs_completedVisits st
        + List.length (List.filter dataService.isOpen
                         (dataService.getVisitsByCustomerId ds cid)))%nat.
Proof.
  unfold customerService.getCustomerStatistics.
  destruct (falsy cid); [discriminate|].
  destruct (dataService.getCustomerById ds cid) as [c|]; [|discriminate].
  intros [= <-]. cbv zeta.
  cbn [customerService.serviceUsage customerService.mostUsedService
       customerService.cs_totalVisits customerService.cs_completedVisits].
  set (visits := dataService.getVisitsByCustomerId ds cid).
  destruct (fold_tallyServices visits (dataService.mkServiceStats 0 0 0)) as [Hsum _].
  cbv zeta in Hsum. simpl in Hsum.
  pose proof (filter_length_le
                (fun v => dataService.includes "gym" (services v)
                          || dataService.includes "spa" (services v)) visits) as Hle.
  set (u := fold_left dataService.tallyServices visits (dataService.mkServiceStats 0 0 0))
    in *.
  assert (Hm : customerService.mostUsed u = "gym"
               /\ (dataService.spa u < dataService.gym u)%nat
               /\ (dataService.both u < dataService.gym u)%nat
               \/ customerService.mostUsed u = "spa"
                  /\ (dataService.gym u <= dataService.spa u)%nat
                  /\ (dataService.both u < dataService.spa u)%nat
               \/ customerService.mostUsed u = "both"
                  /\ (dataService.gym u <= dataService.both u)%nat
                  /\ (dataService.spa u <= dataService.both u)%nat).
  { unfold customerService.mostUsed. cbn [fold_left].
    change (customerService.usageOf u "gym") with (dataService.gym u).
    change (customerService.usageOf u "spa") with (dataService.spa u).
    destruct (dataService.spa u <? dataService.gym u)%nat eqn:E1.
    - change (customerService.usageOf u "both") with (dataService.both u).
      change (customerService.usageOf u "gym") with (dataService.gym u).
      apply Nat.ltb_lt in E1.
      destruct (dataService.both u <? dataService.gym u)%nat eqn:E2.
      + apply Nat.ltb_lt in E2. left. done.
      + apply Nat.ltb_ge in E2. right. right. split; [done|]. lia.
    - change (customerService.usageOf u "both") with (dataService.both u).
      change (customerService.usageOf u "spa") with (dataService.spa u).
      apply Nat.ltb_ge in E1.
      destruct (dataService.both u <? dataService.spa u)%nat eqn:E2.
      + apply Nat.ltb_lt in E2. right. left. done.
      + apply Nat.ltb_ge in E2. right. right. split; [done|]. lia. }
  split; [|split; [exact Hm|split; [|split]]].
  - intros k Hk.
    assert (Hk' : customerService.usageOf u k = dataService.gym u
                  \/ customerService.usageOf u k = dataService.spa u
                  \/ customerService.usageOf u k = dataService.both u).
    { destruct Hk as [<-|[<-|[<-|[]]]]; [left | right; left | right; right]; reflexivity. }
    destruct Hm as [(-> & ? & ?)|[(-> & ? & ?)|(-> & ? & ?)]].
    + change (customerService.usageOf u "gym") with (dataService.gym u). lia.
    + change (customerService.usageOf u "spa") with (dataService.spa u). lia.
    + change (customerService.usageOf u "both") with (dataService.both u). lia.
  - intros H0. destruct Hm as [(_ & ? & ?)|[(_ & ? & ?)|(-> & _)]]; [lia | lia | done].
  - lia.
  - apply filter_negb_partition.
Qed.

End ACustomerSStatisticsAnyZone.

Lemma customer_statistics_most_used_witness :
  exists st,
    customerService.getCustomerStatistics Samples.store "00000003" = Some st
    /\ customerService.mostUsedService st = "both".
Proof.
  destruct (customerService.getCustomerStatistics Samples.store "00000003") as [st|] eqn:E;
    [|discriminate E].
  exists st. split; [reflexivity|].
  destruct (customer_statistics_most_used Samples.store "00000003" st E)
    as (_ & _ & H & _).
  apply H. injection E as <-. reflexivity.
Defined.

Section TheBusiestDayAnyZone.

Context {zone : TimeZone}.

(** ** The busiest day *)

Section BusiestDay.

Import statisticsService.

Let step (acc : option DayStat * nat) (day : DayStat) : option DayStat * nat :=
  if (acc.2 <? day_visits day)%nat then (Some day, day_visits day) else acc.

Lemma busiest_invariant (days : list DayStat) :
  let acc := fold_left step days (None, 0%nat) in
  Forall (fun x => (day_visits x <= acc.2)%nat) days
  /\ match acc.1 with
     | None => acc.2 = 0%nat
     | Some d =>
         acc.2 = day_visits d
         /\ (0 < day_visits d)%nat
         /\ exists pre post,
              days = pre ++ d :: post
              /\ Forall (fun x => (day_visits x < day_visits d)%nat) pre
     end.
Proof.
  induction days as [|x days IH] using rev_ind; [simpl; split; [constructor | done]|].
  cbv zeta in *. rewrite fold_left_app. cbn [fold_left].
  destruct IH as [Hall Hacc].
  destruct (fold_left step days (None, 0%nat)) as [o m] eqn:E.
  change (step (o, m) x)
    with (if (m <? day_visits x)%nat then (Some x, day_visits x) else (o, m)).
  cbn [fst snd] in *.
  destruct (m <? day_visits x)%nat eqn:Hlt; cbn [fst snd].
  - apply Nat.ltb_lt in Hlt. split.
    + apply Forall_app. split; [|by constructor].
      eapply Forall_impl; [|exact Hall]. simpl. intros; lia.
    + split; [done|]. split; [lia|]. exists days, []. split; [done|].
      eapply Forall_impl; [|exact Hall]. simpl. intros; lia.
  - apply Nat.ltb_ge in Hlt. split.
    + apply Forall_app. split; [exact Hall|]. by constructor.
    + destruct o as [d|]; [|exact Hacc].
      destruct Hacc as (Hm & Hpos & pre & post & -> & Hpre).
      split; [done|]. split; [done|]. exists pre, (post ++ [x]).
      split; [by rewrite <- app_assoc|done].
Qed.

End BusiestDay.

(** X17: the busiest day of a report is the first day of maximal visit
    count: every earlier day has strictly fewer visits and no later day has
    more.  The result is [null] exactly when no day has a visit. *)
Theorem busiest_day_first_maximum (days : list statisticsService.DayStat) :
  (statisticsService.findBusiestDay days = None
   <-> Forall (fun x => statisticsService.day_visits x = 0%nat) days)
  /\ (forall d, statisticsService.findBusiestDay days = Some d ->
        (0 < statisticsService.day_visits d)%nat
        /\ exists pre post,
             days = pre ++ d :: post
             /\ Forall (fun x => (statisticsService.day_visits x
                                  < statisticsService.day_visits d)%nat) pre
             /\ Forall (fun x => (statisticsService.day_visits x
                                  <= statisticsService.day_visits d)%nat) post).
Proof.
  pose proof (busiest_invariant days) as [Hall Hacc]. cbv zeta in *.
  unfold statisticsService.findBusiestDay.
  destruct (fold_left _ days (None, 0%nat)) as [o m] eqn:E. cbn [fst snd] in *.
  split; [split|].
  - intros ->. eapply Forall_impl; [|exact Hall]. simpl. intros; lia.
  - intros Hz. destruct o as [d|]; [|done]. exfalso.
    destruct Hacc as (_ & Hpos & pre & post & -> & _).
    apply Forall_app in Hz as [_ Hz]. apply Forall_inv in Hz. lia.
  - intros d ->. destruct Hacc as (-> & Hpos & pre & post & -> & Hpre).
    split; [done|]. exists pre, post. split; [done|]. split; [done|].
    apply Forall_app in Hall as [_ Hall]. by apply Forall_inv_tail in Hall.
Qed.

End TheBusiestDayAnyZone.

Lemma busiest_day_first_maximum_witness :
  exists d,
    statisticsService.findBusiestDay Samples.threeDays = Some d
    /\ statisticsService.day_date d = 19676.
Proof.
  destruct (statisticsService.findBusiestDay Samples.threeDays) as [d|] eqn:E;
    [|discriminate E].
  exists d. split; [reflexivity|].
  destruct (busiest_day_first_maximum Samples.threeDays) as [_ H].
  destruct (H d E) as (_ & pre & post & Hdays & Hpre & _).
  injection E as <-. reflexivity.
Defined.

Section RegistrationAnyZone.

Context {zone : TimeZone}.

(** ** Registration *)

Lemma validateCustomerData_later (now now' : Z) (customerData : Customer) :
  now <= now' ->
  Validators.isValid (Validators.validateCustomerData now customerData) = true ->
  Validators.isValid (Validators.validateCustomerData now' customerData) = true.
Proof.
  intros Hle. unfold Validators.validateCustomerData. cbn [Validators.isValid].
  rewrite !andb_true_iff. intros [[Hrest Hdob] Hm]. split; [split|]; [exact Hrest| |exact Hm].
  destruct (personalInfo customerData) as [p|]; [|done].
  destruct (truthyDate (dateOfBirth p)); [|done].
  apply andb_true_iff in Hdob as [Hv Hgt]. rewrite Hv. cbn [andb].
  unfold num_gt, num_lt in *. destruct (newDate (dateOfBirth p)) as [dob|]; [|done].
  apply negb_true_iff, Z.ltb_ge in Hgt. apply negb_true_iff, Z.ltb_ge. lia.
Qed.

Lemma validCustomerData_membership (now : Z) (customerData : Customer) (m : Membership) :
  Validators.isValid (Validators.validateCustomerData now customerData) = true ->
  membership customerData = Some m ->
  exists s e, startDate m = IsoDate s /\ endDate m = IsoDate e /\ s < e.
Proof.
  unfold Validators.validateCustomerData. cbn [Validators.isValid].
  intros H Hm. apply andb_true_iff in H as [_ H]. rewrite Hm in H.
  unfold Validators.validateDateRange, Validators.validateDate in H.
  destruct (startDate m) as [| |s]; try discriminate H.
  destruct (endDate m) as [| |e]; try discriminate H.
  cbn in H. exists s, e. split; [done|]. split; [done|].
  destruct (e <=? s) eqn:E; [discriminate H|]. by apply Z.leb_gt in E.
Qed.

Lemma validCustomerData_id_length (now : Z) (customerData : Customer) :
  Validators.isValid (Validators.validateCustomerData now customerData) = true ->
  (8 <= String.length (customerId customerData) <= 12)%nat.
Proof.
  unfold Validators.validateCustomerData. cbn [Validators.isValid].
  intros H. repeat (apply andb_true_iff in H as [H _]).
  unfold Validators.validateCustomerId, Validators.CUSTOMER_ID.MIN_LENGTH,
    Validators.CUSTOMER_ID.MAX_LENGTH in H.
  destruct (falsy (customerId customerData)); [discriminate H|].
  destruct (String.length (customerId customerData) <? 8)%nat eqn:E1; [discriminate H|].
  destruct (12 <? String.length (customerId customerData))%nat eqn:E2; [discriminate H|].
  apply Nat.ltb_ge in E1, E2. lia.
Qed.

Lemma unique_getCustomerById ds cid :
  dataService.isCustomerIdUnique ds cid = true <-> dataService.getCustomerById ds cid = None.
Proof.
  unfold dataService.isCustomerIdUnique, dataService.getCustomerById.
  rewrite negb_true_iff, find_none_iff. split.
  - intros H x Hx. destruct (dataService.hasCustomerId cid x) eqn:E; [|done].
    assert (existsb (dataService.hasCustomerId cid) (customers ds) = true); [|congruence].
    apply existsb_exists. eauto.
  - intros H. destruct (existsb _ _) eqn:E; [|done].
    apply existsb_exists in E as (x & Hx & Hp). rewrite (H x Hx) in Hp. discriminate.
Qed.

Lemma find_snoc_other {A} (p : A -> bool) (l : list A) (x : A) :
  p x = false -> find p (l ++ [x]) = find p l.
Proof.
  intros Hx. induction l as [|a l IH]; cbn [app find]; [by rewrite Hx|].
  destruct (p a); [done | exact IH].
Qed.

(** X18: a registration that succeeds stores the form under the caller's
    own id, which had 8 to 12 characters and was not in the store, with the
    customer outside the building; a membership on the form has parseable
    dates with the start before the end.  No other customer and no visit is
    touched, and sending the same form again, then or later, is refused with
    'Customer ID already exists' and changes nothing. *)
Theorem register_then_lookup (now now' : Z) (ds : DataService) (customerData : Customer) :
  let r := customerService.registerCustomer now ds customerData in
  customerService.cr_success r.1 = true ->
  now <= now' ->
  dataService.getCustomerById ds (customerId customerData) = None
  /\ (8 <= String.length (customerId customerData) <= 12)%nat
  /\ (exists c,
        dataService.getCustomerById r.2 (customerId customerData) = Some c
        /\ customerId c = customerId customerData
        /\ personalInfo c = personalInfo customerData
        /\ membership c = membership customerData
        /\ inside c = false)
  /\ (forall m, membership customerData = Some m ->
        exists s e, startDate m = IsoDate s /\ endDate m = IsoDate e /\ s < e)
  /\ (forall cid, cid <> customerId customerData ->
        dataService.getCustomerById r.2 cid = dataService.getCustomerById ds cid)
  /\ visits r.2 = visits ds
  /\ nextVisitId r.2 = nextVisitId ds
  /\ customerService.registerCustomer now' r.2 customerData
     = (customerService.mkCustomerResult false "Customer ID already exists" None, r.2).
Proof.
  intros r Hs Hle.
  set (newCustomer := mkCustomer (customerId customerData) (personalInfo customerData)
                        (membership customerData) (Some (mkCurrentVisit false None None))).
  set (ds' := mkDataService (customers ds ++ [newCustomer]) (visits ds) (nextVisitId ds)
                (nextCustomerId ds + 1)).
  assert (Hr : Validators.isValid (Validators.validateCustomerData now customerData) = true
               /\ falsy (customerId customerData) = false
               /\ dataService.isCustomerIdUnique ds (customerId customerData) = true
               /\ r.2 = ds').
  { subst r. unfold customerService.registerCustomer in *.
    destruct (Validators.isValid (Validators.validateCustomerData now customerData))
      eqn:Hvalid; cbn [negb] in *; [|discriminate Hs].
    pose proof (validCustomerData_has_id _ _ Hvalid) as Hid. rewrite Hid in *.
    cbn [negb andb] in *.
    destruct (dataService.isCustomerIdUnique ds (customerId customerData)) eqn:Hu;
      cbn [negb] in *; [|discriminate Hs].
    unfold dataService.addCustomer. rewrite Hid. done. }
  destruct Hr as (Hvalid & Hid & Hu & ->). clear r Hs.
  pose proof (proj1 (unique_getCustomerById _ _) Hu) as Hnone.
  assert (Hfound : dataService.getCustomerById ds' (customerId customerData)
                   = Some newCustomer).
  { unfold dataService.getCustomerById in *. cbn [ds' customers].
    rewrite find_app_r by (by apply find_none_iff). cbn [find].
    unfold dataService.hasCustomerId. cbn [newCustomer customerId].
    by rewrite String.eqb_refl. }
  split; [exact Hnone|]. split; [exact (validCustomerData_id_length _ _ Hvalid)|].
  split; [exists newCustomer; by rewrite Hfound|].
  split; [intros m Hm; exact (validCustomerData_membership _ _ _ Hvalid Hm)|].
  split.
  { intros cid Hcid. unfold dataService.getCustomerById. cbn [ds' customers].
    apply find_snoc_other. unfold dataService.hasCustomerId. cbn [newCustomer customerId].
    apply String.eqb_neq. congruence. }
  split; [reflexivity|]. split; [reflexivity|].
  unfold customerService.registerCustomer.
  rewrite (validateCustomerData_later now now' _ Hle Hvalid). cbn [negb]. rewrite Hid.
  cbn [negb andb].
  destruct (dataService.isCustomerIdUnique ds' (customerId customerData)) eqn:Hu';
    cbn [negb]; [|reflexivity].
  apply unique_getCustomerById in Hu'. congruence.
Qed.

End RegistrationAnyZone.

Lemma register_then_lookup_witness :
  dataService.getCustomerById
    (customerService.registerCustomer Samples.t0 Samples.store Samples.applicant).2
    "00000042"
  <> None.
Proof.
  destruct (register_then_lookup Samples.t0 (Samples.t0 + MS_PER_DAY) Samples.store
              Samples.applicant) as (_ & _ & (c & Hc & _) & _);
    [reflexivity | unfold MS_PER_DAY; lia |].
  change (customerId Samples.applicant) with "00000042" in Hc.
  rewrite Hc. discriminate.
Defined.

Section TheListOfCurrentVisitorsAnyZone.

Context {zone : TimeZone}.

(** ** The list of current visitors *)

Lemma insertVisitor_length x l :
  List.length (visitorsService.insertVisitor x l) = S (List.length l).
Proof.
  induction l as [|y r IH]; [done|]. simpl.
  destruct (visitorsService.sortKey x <? visitorsService.sortKey y); simpl; [|done].
  by rewrite IH.
Qed.

Lemma sortVisitors_length l :
  List.length (visitorsService.sortVisitors l) = List.length l.
Proof.
  unfold visitorsService.sortVisitors.
  induction l as [|x r IH]; [done|]. simpl. by rewrite insertVisitor_length, IH.
Qed.

Lemma insertVisitor_sorted x l :
  StronglySorted (fun a b => visitorsService.sortKey b <= visitorsService.sortKey a) l ->
  StronglySorted (fun a b => visitorsService.sortKey b <= visitorsService.sortKey a)
    (visitorsService.insertVisitor x l).
Proof.
  induction 1 as [|y r Hr IH Hy]; simpl; [repeat constructor|].
  rewrite Forall_forall in Hy.
  destruct (visitorsService.sortKey x <? visitorsService.sortKey y) eqn:E.
  - apply Z.ltb_lt in E. constructor; [exact IH|].
    apply Forall_forall. intros z Hz. apply In_insertVisitor in Hz as [->|Hz]; [lia|auto].
  - apply Z.ltb_ge in E. constructor; [by constructor; [|apply Forall_forall]|].
    constructor; [exact E|]. apply Forall_forall. intros z Hz. specialize (Hy z Hz). lia.
Qed.

Lemma sortVisitors_sorted l :
  StronglySorted (fun a b => visitorsService.sortKey b <= visitorsService.sortKey a)
    (visitorsService.sortVisitors l).
Proof.
  unfold visitorsService.sortVisitors.
  induction l as [|x r IH]; simpl; [constructor|]. by apply insertVisitor_sorted.
Qed.

Lemma roundQ_percent (count : nat) :
  dataService.roundQ (inject_Z (Z.of_nat count) / inject_Z (Z.of_nat 100) * 100)%Q
  = Z.of_nat count.
Proof.
  unfold dataService.roundQ.
  assert (H : (inject_Z (Z.of_nat count) / inject_Z (Z.of_nat 100) * 100 + (1 # 2)
               == (2 * Z.of_nat count + 1) # 2)%Q).
  { unfold Qeq, Qdiv, Qmult, Qplus, Qinv, inject_Z. simpl. lia. }
  rewrite H. unfold Qfloor. cbn [Qnum Qden].
  symmetry. apply (Z.div_unique _ _ _ 1); lia.
Qed.

(** X19: the list of current visitors holds one line for each customer
    marked inside, most recent entry first, and the visitor count reports
    its length, which with the capacity of 100 is also the percentage.  On a
    well-formed store every line carries the customer's open visit: its id,
    its entry time and the whole minutes elapsed since that entry. *)
Theorem current_visitors_listing (now : Z) (ds : DataService) :
  let listing := visitorsService.getCurrentVisitors now ds in
  let count := visitorsService.getVisitorCount ds in
  StronglySorted (fun a b => visitorsService.sortKey b <= visitorsService.sortKey a) listing
  /\ List.length listing = List.length (List.filter inside (customers ds))
  /\ visitorsService.current count = List.length listing
  /\ visitorsService.percentage count = Z.of_nat (List.length listing)
  /\ visitorsService.available count = 100 - Z.of_nat (List.length listing)
  /\ (forall c, In c (customers ds) -> inside c = true ->
        exists line, In line listing /\ visitorsService.visitor line = c)
  /\ (wellFormed ds ->
      forall line, In line listing ->
        exists v,
          visitorsService.currentVisitData line = Some v
          /\ In v (visits ds)
          /\ exitTime v = None
          /\ v_customerId v = customerId (visitorsService.visitor line)
          /\ visitorsService.vr_visitId line = Some (visitId v)
          /\ visitorsService.vr_entryTime line = Some (entryTime v)
          /\ visitorsService.currentDuration line = (now - entryTime v) / MS_PER_MINUTE).
Proof.
  cbv zeta.
  assert (Hlen : List.length (visitorsService.getCurrentVisitors now ds)
                 = List.length (List.filter inside (customers ds))).
  { unfold visitorsService.getCurrentVisitors, dataService.getCurrentVisitors.
    by rewrite sortVisitors_length, !length_map. }
  assert (Hcount : dataService.getVisitorCount ds
                   = List.length (visitorsService.getCurrentVisitors now ds)).
  { rewrite Hlen. unfold dataService.getVisitorCount, dataService.getCurrentVisitors.
    by rewrite length_map. }
  split; [apply sortVisitors_sorted|]. split; [exact Hlen|].
  unfold visitorsService.getVisitorCount.
  cbn [visitorsService.current visitorsService.percentage visitorsService.available].
  split; [exact Hcount|]. split; [by rewrite roundQ_percent, Hcount|].
  split; [by rewrite Hcount|].
  split; [intros c Hc Hin; by apply visitor_of_inside|].
  intros Hwf line Hline.
  pose proof Hline as Hsrc.
  unfold visitorsService.getCurrentVisitors, dataService.getCurrentVisitors in Hsrc.
  rewrite In_sortVisitors, map_map, in_map_iff in Hsrc.
  destruct Hsrc as (c & <- & Hc). apply filter_In in Hc as [Hc Hinside].
  cbn [visitorsService.currentVisitData visitorsService.visitor visitorsService.vr_visitId
       visitorsService.vr_entryTime visitorsService.currentDuration].
  destruct (inside_has_open_visit ds c Hwf Hc Hinside) as (v0 & Hv0).
  apply find_some in Hv0 as [Hv0 Hid0].
  unfold dataService.getCurrentVisits in Hv0. apply filter_In in Hv0 as [Hv0 Hopen0].
  destruct (find_exists
              (fun v => String.eqb (v_customerId v) (customerId c) && dataService.isOpen v)
              (visits ds) v0 Hv0 ltac:(cbv beta; by rewrite Hid0, Hopen0)) as (v & Hv).
  rewrite Hv. exists v. apply find_some in Hv as [Hin Hp].
  apply andb_true_iff in Hp as [Hid Hopen]. apply String.eqb_eq in Hid.
  unfold dataService.isOpen in Hopen.
  split; [done|]. split; [done|]. split; [by destruct (exitTime v)|].
  split; [done|]. split; [done|]. split; [done|]. reflexivity.
Qed.

End TheListOfCurrentVisitorsAnyZone.

Lemma current_visitors_listing_witness :
  exists line,
    visitorsService.getCurrentVisitors (Samples.t0 + 30 * MS_PER_MINUTE)
      (data Samples.worldAfterEntry) = [line]
    /\ visitorsService.currentDuration line = 30.
Proof.
  destruct (current_visitors_listing (Samples.t0 + 30 * MS_PER_MINUTE)
              (data Samples.worldAfterEntry)) as (_ & _ & _ & _ & _ & _ & H).
  specialize (H sample_worldAfterEntry_wellFormed).
  destruct (visitorsService.getCurrentVisitors (Samples.t0 + 30 * MS_PER_MINUTE)
              (data Samples.worldAfterEntry)) as [|line [|]] eqn:E;
    [discriminate E | | discriminate E].
  exists line. split; [reflexivity|].
  destruct (H line (or_introl eq_refl)) as (v & _).
  injection E as <-. reflexivity.
Defined.

Section TheAccessPreviewAndTheScanAnyZone.

Context {zone : TimeZone}.

(** ** The access preview and the scan *)

(** X20: the access preview and the scanner agree on who gets in, not on who
    gets out.  [canEnter] and [canExit] are never both set; a scan is refused
    as [subscription_invalid] exactly when the preview finds the customer and
    reports the subscription invalid, also when it reports [canExit]; and a
    scan that succeeds is an entry previewed by [canEnter], or an exit
    previewed by [canExit] together with a valid subscription. *)
Theorem access_preview_and_scan (now : Z) (w : World) (barcode : string)
    (sv : option (list string)) :
  let a := barcodeService.validateCustomerAccess now w barcode in
  let r := barcodeService.processBarcodeEntry now w barcode sv in
  barcodeService.canEnter a && barcodeService.canExit a = false
  /\ (barcodeService.a_success a = false ->
      success r.1 = false /\ r.2 = w
      /\ (type r.1 = Some validation_error \/ type r.1 = Some customer_not_found))
  /\ (type r.1 = Some subscription_invalid
      <-> barcodeService.a_success a = true /\ barcodeService.a_isValid a = false)
  /\ (barcodeService.canExit a = true -> barcodeService.a_isValid a = false ->
      success r.1 = false /\ r.2 = w)
  /\ (success r.1 = true ->
      barcodeService.canEnter a = true /\ type r.1 = Some entry
      \/ barcodeService.canExit a = true /\ barcodeService.a_isValid a = true
         /\ type r.1 = Some exit).
Proof.
  cbv zeta.
  unfold barcodeService.validateCustomerAccess, barcodeService.processBarcodeEntry.
  destruct (negb (Validators.isValid (Validators.validateBarcode barcode))).
  { cbn. split; [done|]. split; [auto|]. split; [split; [discriminate|intros [? _]; discriminate]|].
    split; discriminate. }
  destruct (customerService.cr_data
              (customerService.getCustomerByBarcode now (data w) barcode)) as [enriched|].
  2:{ cbn. split; [done|]. split; [auto|].
      split; [split; [discriminate|intros [? _]; discriminate]|]. split; discriminate. }
  set (c := customerService.base enriched).
  cbn [barcodeService.canEnter barcodeService.canExit barcodeService.a_success
       barcodeService.a_isValid].
  destruct (customerService.vs_isValid
              (customerService.validateSubscription now (data w) (customerId c))).
  - cbn [negb andb]. split; [by destruct (inside c)|]. split; [discriminate|].
    destruct (inside c) eqn:Hin.
    + pose proof (processExit_type now w c) as Ht.
      pose proof (processExit_success now w c) as Hs.
      split; [split; [|intros [_ ?]; discriminate]|].
      { intros E. rewrite E in Ht. simpl in Ht.
        destruct Ht as [?|[?|[?|[?|[]]]]]; discriminate. }
      split; [discriminate|]. intros H. right. auto.
    + pose proof (processEntry_type now w c (Some (default ["gym"] sv))) as Ht.
      pose proof (processEntry_success now w c (Some (default ["gym"] sv))) as Hs.
      split; [split; [|intros [_ ?]; discriminate]|].
      { intros E. rewrite E in Ht. destruct Ht; discriminate. }
      split; [discriminate|]. intros H. left. auto.
  - cbn [negb andb fst snd success type]. split; [done|]. split; [discriminate|].
    split; [done|]. split; [done|]. discriminate.
Qed.

End TheAccessPreviewAndTheScanAnyZone.

Lemma access_preview_and_scan_witness :
  barcodeService.canExit
    (barcodeService.validateCustomerAccess Samples.t0 Samples.lapsedWorld "00000003") = true
  /\ (barcodeService.processBarcodeEntry Samples.t0 Samples.lapsedWorld "00000003" None).2
     = Samples.lapsedWorld.
Proof.
  split; [reflexivity|].
  destruct (access_preview_and_scan Samples.t0 Samples.lapsedWorld "00000003" None)
    as (_ & _ & _ & H & _).
  destruct (H eq_refl eq_refl) as [_ Hw]. exact Hw.
Defined.

Section BarcodesAnyZone.

Context {zone : TimeZone}.

(** ** Barcodes *)

Lemma digit_not_whitespace (c : ascii) : isDigit c = true -> isWhitespace c = false.
Proof.
  unfold isDigit, isWhitespace. cbv zeta. intros H.
  apply andb_true_iff in H as [H1 H2]. apply Nat.leb_le in H1, H2.
  apply orb_false_iff. split; [apply andb_false_iff; right; apply Nat.leb_gt; lia|].
  apply Nat.eqb_neq. lia.
Qed.

Lemma list_ascii_of_string_rev_app (s1 s2 : string) :
  list_ascii_of_string (String.rev_app s1 s2)
  = rev (list_ascii_of_string s1) ++ list_ascii_of_string s2.
Proof.
  revert s2. induction s1 as [|c s1 IH]; intros s2; [done|].
  cbn [String.rev_app list_ascii_of_string rev]. rewrite IH, <- app_assoc. reflexivity.
Qed.

Lemma list_ascii_of_string_rev (s : string) :
  list_ascii_of_string (String.rev s) = rev (list_ascii_of_string s).
Proof.
  unfold String.rev. rewrite list_ascii_of_string_rev_app. apply app_nil_r.
Qed.

Lemma string_rev_involutive (s : string) : String.rev (String.rev s) = s.
Proof.
  rewrite <- (string_of_list_ascii_of_string (String.rev (String.rev s))).
  rewrite !list_ascii_of_string_rev, rev_involutive.
  apply string_of_list_ascii_of_string.
Qed.

Lemma trimStart_digits (s : string) :
  forallb isDigit (list_ascii_of_string s) = true -> trimStart s = s.
Proof.
  destruct s as [|c s]; [done|]. simpl. intros H. apply andb_true_iff in H as [H _].
  by rewrite (digit_not_whitespace c H).
Qed.

Lemma trim_digits (s : string) :
  forallb isDigit (list_ascii_of_string s) = true -> trim s = s.
Proof.
  intros H. unfold trim. rewrite (trimStart_digits s H).
  rewrite trimStart_digits; [apply string_rev_involutive|].
  rewrite list_ascii_of_string_rev. apply forallb_forall. intros c Hc.
  apply in_rev in Hc. rewrite forallb_forall in H. by apply H.
Qed.

Lemma string_length_list (s : string) :
  String.length s = List.length (list_ascii_of_string s).
Proof. induction s as [|c s IH]; [done|]. simpl. by rewrite IH. Qed.

Lemma validateCustomerId_spec (s : string) :
  Validators.isValid (Validators.validateCustomerId s) = true
  <-> (8 <= String.length s <= 12)%nat
      /\ forallb isDigit (list_ascii_of_string s) = true.
Proof.
  unfold Validators.validateCustomerId, Validators.CUSTOMER_ID.PATTERN,
    Validators.CUSTOMER_ID.MIN_LENGTH, Validators.CUSTOMER_ID.MAX_LENGTH.
  rewrite <- string_length_list.
  destruct s as [|c s]; [simpl; split; [discriminate | lia]|].
  cbn [falsy]. generalize (String c s). intros t.
  destruct (String.length t <? 8)%nat eqn:E1;
    [apply Nat.ltb_lt in E1; split; [discriminate | lia]|].
  destruct (12 <? String.length t)%nat eqn:E2;
    [apply Nat.ltb_lt in E2; split; [discriminate | lia]|].
  apply Nat.ltb_ge in E1, E2.
  destruct (String.length t =? 0)%nat eqn:E3; [apply Nat.eqb_eq in E3; lia|].
  cbn [negb andb]. destruct (forallb isDigit (list_ascii_of_string t)); cbn.
  - split; [intros _; split; [lia | done] | done].
  - split; [discriminate | intros [_ ?]; discriminate].
Qed.

(** X21: a barcode is accepted exactly when, with surrounding whitespace
    removed, it consists of 8 to 12 decimal digits.  The scanner and the
    access preview then work on the trimmed digits only: the barcode and its
    trimmed form are scanned with the same outcome and the same effect. *)
Theorem barcode_is_trimmed_digits (barcode : string) :
  (Validators.isValid (Validators.validateBarcode barcode) = true
   <-> (8 <= String.length (trim barcode) <= 12)%nat
       /\ forallb isDigit (list_ascii_of_string (trim barcode)) = true)
  /\ (Validators.isValid (Validators.validateBarcode barcode) = true ->
      trim (trim barcode) = trim barcode
      /\ Validators.isValid (Validators.validateCustomerId (trim barcode)) = true
      /\ forall now w services,
           barcodeService.processBarcodeEntry now w (trim barcode) services
           = barcodeService.processBarcodeEntry now w barcode services
           /\ barcodeService.validateCustomerAccess now w (trim barcode)
              = barcodeService.validateCustomerAccess now w barcode).
Proof.
  assert (Hspec : Validators.isValid (Validators.validateBarcode barcode) = true
                  <-> (8 <= String.length (trim barcode) <= 12)%nat
                      /\ forallb isDigit (list_ascii_of_string (trim barcode)) = true).
  { rewrite <- validateCustomerId_spec. unfold Validators.validateBarcode.
    destruct barcode as [|c s]; [by cbn|]. cbn [falsy]. cbv zeta.
    destruct (String.length (trim (String c s)) =? 0)%nat eqn:E; [|done].
    apply Nat.eqb_eq in E. rewrite validateCustomerId_spec.
    unfold Validators.bad. cbn [Validators.isValid].
    split; [discriminate | intros [? _]; lia]. }
  split; [exact Hspec|]. intros Hvalid.
  pose proof (proj1 Hspec Hvalid) as [Hlen Hdigits].
  pose proof (trim_digits _ Hdigits) as Htrim.
  assert (Hvalid' : Validators.isValid (Validators.validateBarcode (trim barcode)) = true).
  { unfold Validators.validateBarcode. rewrite Htrim.
    destruct (trim barcode) as [|c s] eqn:E; [simpl in Hlen; lia|].
    cbn [falsy String.length Nat.eqb]. rewrite <- E. apply validateCustomerId_spec.
    by rewrite E. }
  split; [exact Htrim|]. split; [by apply validateCustomerId_spec|].
  intros now w services.
  unfold barcodeService.processBarcodeEntry, barcodeService.validateCustomerAccess,
    customerService.getCustomerByBarcode.
  rewrite Hvalid, Hvalid', Htrim. split; reflexivity.
Qed.

End BarcodesAnyZone.

Lemma barcode_is_trimmed_digits_witness :
  type (barcodeService.processBarcodeEntry Samples.t0 Samples.world "  00000003 " None).1
  = Some entry.
Proof.
  destruct (barcode_is_trimmed_digits "  00000003 ") as [_ H].
  destruct (H eq_refl) as (_ & _ & Hscan).
  destruct (Hscan Samples.t0 Samples.world None) as [<- _]. reflexivity.
Defined.

Section SanitisingFormInputAnyZone.

Context {zone : TimeZone}.

(** ** Sanitising form input *)

Lemma list_ascii_of_string_app (s1 s2 : string) :
  list_ascii_of_string (s1 +:+ s2) = list_ascii_of_string s1 ++ list_ascii_of_string s2.
Proof.
  induction s1 as [|c s1 IH]; [done|].
  change (String c s1 +:+ s2) with (String c (s1 +:+ s2)).
  cbn [list_ascii_of_string]. by rewrite IH.
Qed.

Lemma In_replaceAll (c : ascii) (replacement s : string) (x : ascii) :
  In x (list_ascii_of_string (Validators.replaceAll c replacement s)) ->
  In x (list_ascii_of_string replacement) \/ (x <> c /\ In x (list_ascii_of_string s)).
Proof.
  induction s as [|a s IH]; [intros []|]. cbn [Validators.replaceAll].
  destruct (Ascii.eqb a c) eqn:E.
  - rewrite list_ascii_of_string_app, in_app_iff. intros [H|H]; [by left|].
    destruct (IH H) as [?|[? ?]]; [by left|]. right. split; [done|]. by right.
  - apply Ascii.eqb_neq in E. cbn [list_ascii_of_string]. intros [<-|H].
    + right. split; [done|]. by left.
    + destruct (IH H) as [?|[? ?]]; [by left|]. right. split; [done|]. by right.
Qed.

Lemma replaceAll_absent (c : ascii) (replacement s : string) :
  ~ In c (list_ascii_of_string s) -> Validators.replaceAll c replacement s = s.
Proof.
  induction s as [|a s IH]; [done|]. cbn [Validators.replaceAll list_ascii_of_string].
  intros H. destruct (Ascii.eqb a c) eqn:E.
  - apply Ascii.eqb_eq in E. exfalso. apply H. by left.
  - rewrite IH; [done|]. intros Hc. apply H. by right.
Qed.

Lemma string_length_app (s1 s2 : string) :
  String.length (s1 +:+ s2) = (String.length s1 + String.length s2)%nat.
Proof.
  induction s1 as [|c s1 IH]; [done|].
  change (String c s1 +:+ s2) with (String c (s1 +:+ s2)). simpl. by rewrite IH.
Qed.

Lemma replaceAll_length (c : ascii) (replacement s : string) :
  (1 <= String.length replacement)%nat ->
  (String.length s <= String.length (Validators.replaceAll c replacement s))%nat.
Proof.
  intros Hr. induction s as [|a s IH]; [done|]. cbn [Validators.replaceAll].
  destruct (Ascii.eqb a c).
  - rewrite string_length_app. simpl. lia.
  - simpl. lia.
Qed.

(** X22: sanitised input contains no angle bracket, no double or single
    quote and no slash; input that has none of these and no ampersand comes
    back unchanged, and sanitising never shortens the input. *)
Theorem sanitizeInput_output_safe (input : string) :
  (forall x, In x (list_ascii_of_string (Validators.sanitizeInput input)) ->
             ~ In x ["<"; ">"; ascii_of_nat 34; "'"; "/"]%char)
  /\ ((forall x, In x ["&"; "<"; ">"; ascii_of_nat 34; "'"; "/"]%char ->
                 ~ In x (list_ascii_of_string input)) ->
      Validators.sanitizeInput input = input)
  /\ (String.length input <= String.length (Validators.sanitizeInput input))%nat.
Proof.
  unfold Validators.sanitizeInput. split; [|split].
  - intros x Hx.
    repeat (apply In_replaceAll in Hx as [Hx|[? Hx]];
            [simpl in Hx; decompose [or] Hx; try done; subst x;
             simpl; intros Hd; decompose [or] Hd; done|]).
    simpl. intros Hd. decompose [or] Hd; try done; congruence.
  - intros H.
    rewrite (replaceAll_absent "&") by (apply H; simpl; tauto).
    rewrite (replaceAll_absent "<") by (apply H; simpl; tauto).
    rewrite (replaceAll_absent ">") by (apply H; simpl; tauto).
    rewrite (replaceAll_absent (ascii_of_nat 34)) by (apply H; simpl; tauto).
    rewrite (replaceAll_absent "'") by (apply H; simpl; tauto).
    apply replaceAll_absent. apply H. simpl. tauto.
  - repeat (etransitivity; [|apply replaceAll_length; simpl; lia]). done.
Qed.

Lemma sanitizeInput_output_safe_witness :
  Validators.sanitizeInput "Salma Adel" = "Salma Adel".
Proof.
  destruct (sanitizeInput_output_safe "Salma Adel") as (_ & H & _).
  apply H. intros x Hx Hin. simpl in Hx, Hin.
  decompose [or] Hx; try done; subst x; decompose [or] Hin; done.
Defined.

(** ** Week bounds *)

Lemma monday_arithmetic (L : Z) :
  let today := L / MS_PER_DAY in
  let sinceMonday := (today + 3) mod 7 in
  let monday := (today - sinceMonday) * MS_PER_DAY in
  (if DateUtils.getDay L =? 0 then 6 else DateUtils.getDay L - 1) = sinceMonday
  /\ (L - sinceMonday * MS_PER_DAY) / MS_PER_DAY * MS_PER_DAY = monday
  /\ (monday + 6 * MS_PER_DAY) / MS_PER_DAY * MS_PER_DAY + (MS_PER_DAY - 1)
     = monday + 7 * MS_PER_DAY - 1
  /\ DateUtils.getDay monday = 1
  /\ DateUtils.getDay (monday + 7 * MS_PER_DAY - 1) = 0
  /\ monday <= L <= monday + 7 * MS_PER_DAY - 1
  /\ (forall L', monday <= L' <= monday + 7 * MS_PER_DAY - 1 ->
        (L' / MS_PER_DAY - (L' / MS_PER_DAY + 3) mod 7) * MS_PER_DAY = monday).
Proof.
  cbv zeta. unfold DateUtils.getDay, MS_PER_DAY.
  destruct ((L / (1000 * 60 * 60 * 24) + 4) mod 7 =? 0) eqn:E;
    [apply Z.eqb_eq in E | apply Z.eqb_neq in E];
    (repeat split; [..|intros L' HL']); Z.to_euclidean_division_equations; lia.
Qed.

(** The bounds in terms of the local Monday, when the wall-clock reading of
    the instant exists on that Monday too. *)
Lemma getWeekBounds_monday (ts : Z) :
  let today := DateUtils.LocalTime ts / MS_PER_DAY in
  let sinceMonday := (today + 3) mod 7 in
  let monday := (today - sinceMonday) * MS_PER_DAY in
  wallClock (DateUtils.LocalTime ts - sinceMonday * MS_PER_DAY) ->
  DateUtils.getWeekBounds ts
  = DateUtils.mkWeekBounds (DateUtils.UTC monday)
      (DateUtils.setHoursEnd (DateUtils.addDays (DateUtils.UTC monday) 6)).
Proof.
  cbv zeta. intros H1. unfold wallClock in H1.
  destruct (monday_arithmetic (DateUtils.LocalTime ts)) as (Hk & Hm & _).
  cbv zeta in Hk, Hm.
  unfold DateUtils.getWeekBounds. rewrite Hk.
  assert (Hstart : DateUtils.setHoursStart
                     (DateUtils.addDays ts (- ((DateUtils.LocalTime ts / MS_PER_DAY + 3)
                                               mod 7)))
                   = DateUtils.UTC ((DateUtils.LocalTime ts / MS_PER_DAY
                                     - (DateUtils.LocalTime ts / MS_PER_DAY + 3) mod 7)
                                    * MS_PER_DAY)).
  { unfold DateUtils.setHoursStart, DateUtils.addDays.
    replace (DateUtils.LocalTime ts
             + - ((DateUtils.LocalTime ts / MS_PER_DAY + 3) mod 7) * MS_PER_DAY)
      with (DateUtils.LocalTime ts
            - (DateUtils.LocalTime ts / MS_PER_DAY + 3) mod 7 * MS_PER_DAY) by lia.
    by rewrite H1, Hm. }
  by rewrite Hstart.
Qed.

(** X23: the week of an instant is the week of the local calendar, from
    Monday 00:00:00.000 to Sunday 23:59:59.999, provided the zone's clock
    shows these two readings, the Sunday's midnight and the reading of the
    instant moved back to the Monday.  Read in local time the bounds contain
    the instant, and every instant of that local week has the same bounds.
    In elapsed time the bounds lie seven days less one millisecond apart,
    less the change of the zone's offset between them. *)
Theorem week_bounds_monday_to_sunday (ts : Z) :
  let b := DateUtils.getWeekBounds ts in
  let today := DateUtils.LocalTime ts / MS_PER_DAY in
  let sinceMonday := (today + 3) mod 7 in
  let monday := (today - sinceMonday) * MS_PER_DAY in
  wallClock (DateUtils.LocalTime ts - sinceMonday * MS_PER_DAY) ->
  wallClock monday ->
  wallClock (monday + 6 * MS_PER_DAY) ->
  wallClock (monday + 7 * MS_PER_DAY - 1) ->
  DateUtils.LocalTime (DateUtils.startOfWeek b) = monday
  /\ DateUtils.LocalTime (DateUtils.endOfWeek b) = monday + 7 * MS_PER_DAY - 1
  /\ DateUtils.getDay monday = 1
  /\ DateUtils.getDay (monday + 7 * MS_PER_DAY - 1) = 0
  /\ monday <= DateUtils.LocalTime ts <= monday + 7 * MS_PER_DAY - 1
  /\ DateUtils.endOfWeek b - DateUtils.startOfWeek b
     = 7 * MS_PER_DAY - 1
       - (offsetAt (DateUtils.endOfWeek b) - offsetAt (DateUtils.startOfWeek b))
  /\ (forall ts',
        monday <= DateUtils.LocalTime ts' <= monday + 7 * MS_PER_DAY - 1 ->
        wallClock (DateUtils.LocalTime ts'
                   - (DateUtils.LocalTime ts' / MS_PER_DAY + 3) mod 7 * MS_PER_DAY) ->
        DateUtils.getWeekBounds ts' = b).
Proof.
  cbv zeta. intros H1 H2 H3 H4.
  pose proof (getWeekBounds_monday ts H1) as Hb. cbv zeta in Hb.
  destruct (monday_arithmetic (DateUtils.LocalTime ts))
    as (_ & _ & Hend & Hmon & Hsun & Hin & Hsame).
  cbv zeta in Hend, Hmon, Hsun, Hin, Hsame.
  set (monday := (DateUtils.LocalTime ts / MS_PER_DAY
                  - (DateUtils.LocalTime ts / MS_PER_DAY + 3) mod 7) * MS_PER_DAY) in *.
  unfold wallClock in H2, H3, H4.
  assert (HendL : DateUtils.LocalTime
                    (DateUtils.setHoursEnd (DateUtils.addDays (DateUtils.UTC monday) 6))
                  = monday + 7 * MS_PER_DAY - 1).
  { unfold DateUtils.setHoursEnd, DateUtils.addDays. by rewrite H2, H3, Hend, H4. }
  rewrite Hb. cbn [DateUtils.startOfWeek DateUtils.endOfWeek].
  split; [exact H2|]. split; [exact HendL|]. split; [exact Hmon|]. split; [exact Hsun|].
  split; [exact Hin|]. split.
  - unfold DateUtils.LocalTime in H2, HendL. lia.
  - intros ts' Hts' H1'.
    rewrite (getWeekBounds_monday ts' H1'). cbv zeta.
    by rewrite (Hsame (DateUtils.LocalTime ts') Hts').
Qed.

End SanitisingFormInputAnyZone.

(** The week of the clock change of April 2024 in Cairo is an hour short. *)
Lemma week_bounds_monday_to_sunday_witness :
  DateUtils.endOfWeek (DateUtils.getWeekBounds Samples.tSpring)
  - DateUtils.startOfWeek (DateUtils.getWeekBounds Samples.tSpring)
  = 7 * MS_PER_DAY - 1 - MS_PER_HOUR.
Proof.
  destruct (week_bounds_monday_to_sunday Samples.tSpring)
    as (_ & _ & _ & _ & _ & H & _);
    [vm_compute; reflexivity | vm_compute; reflexivity | vm_compute; reflexivity
    | vm_compute; reflexivity |].
  rewrite H. vm_compute. reflexivity.
Defined.

Section UpdatingACustomerAnyZone.

Context {zone : TimeZone}.

(** ** Updating a customer *)

Lemma count_updateFirst {A : Type} (p q : A -> bool) (f : A -> A) (l : list A) :
  (forall x, p (f x) = p x) ->
  List.length (List.filter p (updateFirst q f l)) = List.length (List.filter p l).
Proof.
  intros Hp. induction l as [|x r IH]; [done|]. cbn [updateFirst].
  destruct (q x); rewrite !count_cons; [by rewrite Hp | by rewrite IH].
Qed.

Lemma In_updateFirst {A : Type} (p : A -> bool) (f : A -> A) (l : list A) (x : A) :
  find p l = Some x -> In (f x) (updateFirst p f l).
Proof.
  induction l as [|y r IH]; [discriminate|]. cbn [find updateFirst].
  destruct (p y); [intros [= ->]; by left | intros H; right; auto].
Qed.

Lemma updateFirst_keeps {A : Type} (p : A -> bool) (f : A -> A) (l : list A) (x : A) :
  In x l -> p x = false -> In x (updateFirst p f l).
Proof.
  induction l as [|y r IH]; [intros []|]. cbn [updateFirst]. intros [->|Hin] Hx.
  - rewrite Hx. by left.
  - destruct (p y); right; auto.
Qed.

Lemma updateFirst_clash (l : list Customer) (cid id' : string)
    (f : Customer -> Customer) (c other : Customer) :
  (forall x, customerId (f x) = id') ->
  id' <> cid ->
  find (dataService.hasCustomerId cid) l = Some c ->
  In other l -> customerId other = id' ->
  ~ List.NoDup (map customerId (updateFirst (dataService.hasCustomerId cid) f l)).
Proof.
  intros Hf Hne. induction l as [|x r IH]; [discriminate|].
  cbn [find updateFirst]. unfold dataService.hasCustomerId at 1 3.
  destruct (String.eqb_spec (customerId x) cid) as [E|E].
  - intros _ [->|Hin] Hid; [congruence|]. cbn [map]. rewrite Hf.
    intros Hnd. apply List.NoDup_cons_iff in Hnd as [Hnd _]. apply Hnd.
    apply in_map_iff. eauto.
  - intros Hfind [->|Hin] Hid; cbn [map]; intros Hnd;
      apply List.NoDup_cons_iff in Hnd as [Hhead Hnd].
    + apply Hhead. apply in_map_iff. exists (f c). split; [by rewrite Hf|].
      by apply In_updateFirst.
    + by apply (IH Hfind Hin Hid).
Qed.

(** X24: an update of a customer touches the customer list only: a refused
    update leaves the store as it was, and no update changes a visit or the
    visit counter.  An accepted update is one whose merged record passes the
    registration checks; when it leaves the id and [currentVisit] alone, the
    store stays well formed and nobody's inside flag changes.  The new id of
    an update is not compared with the ids on file: an accepted update that
    renames a customer to an id already held by another leaves two customers
    with that id. *)
Theorem update_customer_effect (now : Z) (ds : DataService) (cid : string)
    (updates : dataService.CustomerUpdates) :
  let r := customerService.updateCustomer now ds cid updates in
  (customerService.cr_success r.1 = false -> r.2 = ds)
  /\ visits r.2 = visits ds
  /\ nextVisitId r.2 = nextVisitId ds
  /\ (customerService.cr_success r.1 = true ->
      exists c,
        dataService.getCustomerById ds cid = Some c
        /\ Validators.isValid
             (Validators.validateCustomerData now (dataService.applyUpdates updates c)) = true
        /\ In (dataService.applyUpdates updates c) (customers r.2)
        /\ (dataService.u_customerId updates = None ->
            dataService.getCustomerById r.2 cid = Some (dataService.applyUpdates updates c)
            /\ map customerId (customers r.2) = map customerId (customers ds))
        /\ (dataService.u_customerId updates = None ->
            dataService.u_currentVisit updates = None ->
            (forall x, insideCustomersOf r.2 x = insideCustomersOf ds x)
            /\ (wellFormed ds -> wellFormed r.2))
        /\ (forall id' other,
              dataService.u_customerId updates = Some id' -> id' <> cid ->
              dataService.getCustomerById ds id' = Some other ->
              ~ List.NoDup (map customerId (customers r.2)))).
Proof.
  cbv zeta. unfold customerService.updateCustomer, dataService.updateCustomer.
  destruct (falsy cid); [cbn; split; [done|]; split; [done|]; split; [done|discriminate]|].
  destruct (dataService.getCustomerById ds cid) as [c|] eqn:Hc;
    [|cbn; split; [done|]; split; [done|]; split; [done|discriminate]].
  destruct (Validators.isValid
              (Validators.validateCustomerData now (dataService.applyUpdates updates c)))
    eqn:Hvalid; cbn [negb];
    [|cbn; split; [done|]; split; [done|]; split; [done|discriminate]].
  cbn [fst snd customerService.cr_success visits nextVisitId customers].
  split; [discriminate|]. split; [done|]. split; [done|]. intros _.
  exists c. split; [done|]. split; [done|].
  split; [by apply In_updateFirst|].
  split; [|split].
  - intros Hid.
    assert (Hsame : forall x, customerId (dataService.applyUpdates updates x) = customerId x)
      by (intros x; unfold dataService.applyUpdates; by rewrite Hid).
    split.
    + unfold dataService.getCustomerById in *. cbn [customers].
      apply find_updateFirst; [|exact Hc].
      intros y. unfold dataService.hasCustomerId. by rewrite Hsame.
    + by apply map_updateFirst.
  - intros Hid Hcv.
    assert (Hsame : forall x, customerId (dataService.applyUpdates updates x) = customerId x)
      by (intros x; unfold dataService.applyUpdates; by rewrite Hid).
    assert (Hinside : forall x, inside (dataService.applyUpdates updates x) = inside x)
      by (intros x; unfold dataService.applyUpdates, inside; cbn [currentVisit];
          by rewrite Hcv).
    assert (Hbal : forall x,
               insideCustomersOf
                 {| customers := updateFirst (dataService.hasCustomerId cid)
                                   (dataService.applyUpdates updates) (customers ds);
                    visits := visits ds;
                    nextVisitId := nextVisitId ds;
                    nextCustomerId := nextCustomerId ds |} x
               = insideCustomersOf ds x).
    { intros x. unfold insideCustomersOf. cbn [customers]. apply count_updateFirst.
      intros y. unfold insideAs. by rewrite Hinside, Hsame. }
    split; [exact Hbal|]. intros [Hcids Hvids Hctr Hbalance]. constructor.
    + cbn [customers]. by rewrite map_updateFirst.
    + exact Hvids.
    + exact Hctr.
    + intros x. rewrite Hbal, <- Hbalance. reflexivity.
  - intros id' other Hid Hne Hother.
    apply find_hasCustomerId in Hother as [Hin Hoid].
    apply (updateFirst_clash (customers ds) cid id' _ c other); try done.
    intros x. unfold dataService.applyUpdates. by rewrite Hid.
Qed.

End UpdatingACustomerAnyZone.

Lemma update_customer_effect_witness :
  wellFormed (customerService.updateCustomer Samples.t0 Samples.store "00000003"
                Samples.renewal).2.
Proof.
  destruct (update_customer_effect Samples.t0 Samples.store "00000003" Samples.renewal)
    as (_ & _ & _ & H).
  destruct (H eq_refl) as (c & _ & _ & _ & _ & Hwf & _).
  destruct (Hwf eq_refl eq_refl) as [_ Hkeep].
  apply Hkeep. exact sample_world_wellFormed.
Defined.

Section TheWeeklyTrendOfAMonthAnyZone.

Context {zone : TimeZone}.

(** ** The weekly trend of a month *)

Section WeeklyTrend.

Import statisticsService.







End WeeklyTrend.


End TheWeeklyTrendOfAMonthAnyZone.


Section StatisticsOfTheCurrentVisitorsAnyZone.

Context {zone : TimeZone}.

(** ** Statistics of the current visitors *)

Section VisitorStatistics.

Import visitorsService.

Lemma fold_max_bounds (l : list Z) (d : Z) :
  d <= fold_left Z.max l d /\ Forall (fun x => x <= fold_left Z.max l d) l.
Proof.
  revert d. induction l as [|x l IH]; intros d; [simpl; split; [lia | constructor]|].
  cbn [fold_left]. destruct (IH (Z.max d x)) as [H1 H2]. split; [lia|].
  constructor; [lia | exact H2].
Qed.

Lemma fold_min_bounds (l : list Z) (d : Z) :
  fold_left Z.min l d <= d /\ Forall (fun x => fold_left Z.min l d <= x) l.
Proof.
  revert d. induction l as [|x l IH]; intros d; [simpl; split; [lia | constructor]|].
  cbn [fold_left]. destruct (IH (Z.min d x)) as [H1 H2]. split; [lia|].
  constructor; [lia | exact H2].
Qed.

Lemma fold_add_sum (l : list Z) (acc : Z) :
  fold_left Z.add l acc = acc + fold_right Z.add 0 l.
Proof.
  revert acc. induction l as [|x l IH]; intros acc; simpl; [lia|]. rewrite IH. lia.
Qed.

Lemma sum_between (l : list Z) (lo hi : Z) :
  Forall (fun x => lo <= x <= hi) l ->
  lo * Z.of_nat (List.length l) <= fold_right Z.add 0 l <= hi * Z.of_nat (List.length l).
Proof.
  induction 1 as [|x l Hx _ IH]; [simpl; lia|].
  cbn [fold_right List.length]. lia.
Qed.

Lemma roundQ_between (s lo hi : Z) (n : nat) :
  (0 < n)%nat ->
  lo * Z.of_nat n <= s <= hi * Z.of_nat n ->
  lo <= dataService.roundQ (inject_Z s / inject_Z (Z.of_nat n))%Q <= hi.
Proof.
  intros Hn [Hlo Hhi]. unfold dataService.roundQ.
  assert (Hpos : (0 < inject_Z (Z.of_nat n))%Q).
  { change 0%Q with (inject_Z 0). rewrite <- Zlt_Qlt. lia. }
  assert (Hge : (inject_Z lo <= inject_Z s / inject_Z (Z.of_nat n))%Q).
  { apply Qle_shift_div_l; [exact Hpos|]. rewrite <- inject_Z_mult, <- Zle_Qle. exact Hlo. }
  assert (Hle : (inject_Z s / inject_Z (Z.of_nat n) <= inject_Z hi)%Q).
  { apply Qle_shift_div_r; [exact Hpos|]. rewrite <- inject_Z_mult, <- Zle_Qle. exact Hhi. }
  split.
  - rewrite <- (Qfloor_Z lo). apply Qfloor_resp_le.
    eapply Qle_trans; [exact Hge|]. rewrite <- (Qplus_0_r (_ / _)) at 1.
    apply Qplus_le_r. done.
  - assert (Hhalf : Qfloor (inject_Z hi + (1 # 2)) = hi).
    { unfold Qfloor, Qplus, inject_Z. cbn [Qnum Qden].
      symmetry. apply (Z.div_unique _ _ _ 1); lia. }
    rewrite <- Hhalf. apply Qfloor_resp_le. by apply Qplus_le_l.
Qed.

Lemma tallyVisitorServices_total (vs : list Visitor) (acc : dataService.ServiceStats) :
  let stats := fold_left tallyVisitorServices vs acc in
  (dataService.gym stats + dataService.spa stats + dataService.both stats
   <= dataService.gym acc + dataService.spa acc + dataService.both acc + List.length vs)%nat.
Proof.
  revert acc. induction vs as [|v vs IH]; intros acc; [simpl; lia|].
  cbn [fold_left List.length]. cbv zeta in *.
  etransitivity; [apply IH|]. unfold tallyVisitorServices.
  destruct (dataService.includes "gym" (vr_services v)),
           (dataService.includes "spa" (vr_services v)); simpl; lia.
Qed.

Lemma tallyVisitorMembership_total (vs : list Visitor) (acc : dataService.MembershipStats) :
  let stats := fold_left tallyVisitorMembership vs acc in
  (dataService.daily stats + dataService.monthly stats + dataService.annual stats
   <= dataService.daily acc + dataService.monthly acc + dataService.annual acc
      + List.length vs)%nat.
Proof.
  revert acc. induction vs as [|v vs IH]; intros acc; [simpl; lia|].
  cbn [fold_left List.length]. cbv zeta in *.
  etransitivity; [apply IH|]. unfold tallyVisitorMembership.
  destruct (membership (visitor v)) as [m|]; [|lia].
  pose proof (tally_total acc (m_type m)) as Ht. cbv zeta in Ht. rewrite Ht.
  destruct (_ || _); lia.
Qed.

Lemma disjoint_filters {A : Type} (p q : A -> bool) (l : list A) :
  (forall x, p x && q x = false) ->
  (List.length (List.filter p l) + List.length (List.filter q l) <= List.length l)%nat.
Proof.
  intros H. induction l as [|x l IH]; [done|]. rewrite !count_cons. cbn [List.length].
  specialize (H x). destruct (p x), (q x); simpl in *; try discriminate; lia.
Qed.

Lemma getCurrentVisitors_length (now : Z) (ds : DataService) :
  List.length (getCurrentVisitors now ds) = dataService.getVisitorCount ds.
Proof.
  unfold getCurrentVisitors, dataService.getVisitorCount.
  by rewrite sortVisitors_length, length_map.
Qed.

End VisitorStatistics.

(** X26: in the statistics of the current visitors the count is the length
    of the visitor list, the rounded average stay lies between the shortest
    and the longest stay, and the long stays (180 minutes or more) and the
    recent entries (30 minutes or less) are disjoint groups of visitors.  The
    service buckets and the membership buckets each count a visitor at most
    once. *)
Theorem visitor_statistics_bounds (now : Z) (ds : DataService) :
  let stats := visitorsService.getVisitorStatistics now ds in
  let listing := visitorsService.getCurrentVisitors now ds in
  visitorsService.currentCount stats = List.length listing
  /\ visitorsService.minDuration stats <= visitorsService.averageDuration stats
     <= visitorsService.maxDuration stats
  /\ Forall (fun v => visitorsService.minDuration stats <= visitorsService.currentDuration v
                      <= visitorsService.maxDuration stats) listing
  /\ (visitorsService.longStayVisitors stats + visitorsService.recentEntries stats
      <= visitorsService.currentCount stats)%nat
  /\ (dataService.gym (visitorsService.serviceStats stats)
      + dataService.spa (visitorsService.serviceStats stats)
      + dataService.both (visitorsService.serviceStats stats)
      <= visitorsService.currentCount stats)%nat
  /\ (dataService.daily (visitorsService.membershipStats stats)
      + dataService.monthly (visitorsService.membershipStats stats)
      + dataService.annual (visitorsService.membershipStats stats)
      <= visitorsService.currentCount stats)%nat.
Proof.
  cbv zeta.
  pose proof (getCurrentVisitors_length now ds) as Hcount.
  unfold visitorsService.getVisitorStatistics.
  cbn [visitorsService.currentCount visitorsService.minDuration
       visitorsService.maxDuration visitorsService.averageDuration
       visitorsService.longStayVisitors visitorsService.recentEntries
       visitorsService.serviceStats visitorsService.membershipStats].
  change (visitorsService.current (visitorsService.getVisitorCount ds))
    with (dataService.getVisitorCount ds).
  rewrite <- Hcount. clear Hcount.
  generalize (visitorsService.getCurrentVisitors now ds). intros vs.
  split; [done|].
  assert (Hbounds :
            Forall (fun d => visitorsService.minOf (map visitorsService.currentDuration vs)
                             <= d
                             <= visitorsService.maxOf (map visitorsService.currentDuration vs))
              (map visitorsService.currentDuration vs)).
  { destruct (map visitorsService.currentDuration vs) as [|d r]; [constructor|].
    cbn [visitorsService.minOf visitorsService.maxOf].
    destruct (fold_max_bounds r d) as [M1 M2]. destruct (fold_min_bounds r d) as [m1 m2].
    constructor; [lia|]. rewrite Forall_forall in *. intros x Hx.
    specialize (M2 x Hx). specialize (m2 x Hx). cbv beta in *. lia. }
  rewrite length_map.
  destruct vs as [|v vs]; [cbn; repeat (split; [done || lia || constructor|]); lia|].
  set (l := v :: vs) in *.
  assert (Hlen : (0 <? List.length l)%nat = true) by reflexivity. rewrite Hlen.
  split; [|split; [|split; [|split]]].
  - rewrite fold_add_sum, Z.add_0_l, <- (length_map visitorsService.currentDuration l).
    apply roundQ_between; [rewrite length_map; simpl; lia|].
    by apply sum_between.
  - rewrite Forall_map in Hbounds. exact Hbounds.
  - apply disjoint_filters. intros x.
    destruct (180 <=? visitorsService.currentDuration x) eqn:E1; [|done].
    apply Z.leb_le in E1. apply Z.leb_gt. lia.
  - pose proof (tallyVisitorServices_total l (dataService.mkServiceStats 0 0 0)) as H.
    cbv zeta in H. simpl in H. exact H.
  - pose proof (tallyVisitorMembership_total l (dataService.mkMembershipStats 0 0 0)) as H.
    cbv zeta in H. simpl in H. exact H.
Qed.

End StatisticsOfTheCurrentVisitorsAnyZone.
